(** * Behavioural-library pipeline of cursor-telemetry: a shallow embedding

    The development follows the Python sources of the computational model
    (companion/computational-model): [database_connector.py],
    [scripts/calculate_cp.py], [vectorizer.py], [scripts/cluster_sequences.py]
    and [sequence_processor.py].

    Conventions of the embedding.
    - A Python object read from JSON or from a database row is a [value];
      a [dict] keeps its items in insertion order.
    - A raising computation is a [result]; the exception is kept as data.
    - A Python [float] is the rational number it denotes, kept in lowest
      terms ([Qred]), so that equal floats are equal terms.  The program only
      copies floats, compares them and divides small integers.
    - Code of third-party libraries (the JSON parser, scikit-learn, tslearn,
      the embedding back ends) is a parameter of the function that calls it. *)

From Stdlib Require Import List String Ascii ZArith QArith Qabs Bool Lia.
From Stdlib Require Import Permutation Sorting.Sorted DecimalString Lqa.
Import ListNotations.

Set Implicit Arguments.
Set Warnings "-register-all".

Local Open Scope string_scope.
Local Open Scope list_scope.

(* ================================================================== *)
(** * Python values, exceptions and built-ins                           *)
(* ================================================================== *)

Module Py.

(** Exceptions, with the text that [str(e)] gives. *)
Inductive exn : Type :=
| ValueError (msg : string)
| TypeError (msg : string)
| IndexError (msg : string)
| KeyError (msg : string)
| AttributeError (msg : string)
| ImportError (msg : string)
| JSONDecodeError (msg : string)
| CalledProcessError (msg : string)
| FileNotFoundError (msg : string)
| LibraryError (msg : string).

Definition exn_str (e : exn) : string :=
  match e with
  | ValueError m | TypeError m | IndexError m | KeyError m
  | AttributeError m | ImportError m | JSONDecodeError m
  | CalledProcessError m | FileNotFoundError m | LibraryError m => m
  end.

Inductive result (A : Type) : Type :=
| Ok (a : A)
| Raise (e : exn).

Arguments Ok {A} a.
Arguments Raise {A} e.

Definition bind {A B : Type} (r : result A) (k : A -> result B) : result B :=
  match r with
  | Ok a => k a
  | Raise e => Raise e
  end.

Notation "x <- e ;; k" := (bind e (fun x => k))
  (at level 61, e at next level, right associativity).

(** A list comprehension whose element expression may raise: elements are
    evaluated left to right and the first exception ends the loop. *)
Fixpoint mapM {A B : Type} (f : A -> result B) (l : list A) : result (list B) :=
  match l with
  | [] => Ok []
  | x :: l' => y <- f x ;; ys <- mapM f l' ;; Ok (y :: ys)
  end.

(** Objects. Dict keys are strings (JSON objects, column names). *)
Inductive value : Type :=
| VNone
| VBool (b : bool)
| VInt (z : Z)
| VFloat (q : Q)
| VStr (s : string)
| VList (l : list value)
| VDict (d : list (string * value)).

Definition dict : Type := list (string * value).

(** [bool(v)] *)
Definition truthy (v : value) : bool :=
  match v with
  | VNone => false
  | VBool b => b
  | VInt z => negb (z =? 0)%Z
  | VFloat q => negb (Qeq_bool q 0)
  | VStr s => negb (s =? "")
  | VList l => match l with [] => false | _ => true end
  | VDict d => match d with [] => false | _ => true end
  end.

(** [a or b] *)
Definition py_or (a b : value) : value := if truthy a then a else b.

(** [d[k]] as an option, [d.get(k)], [d.get(k, default)], [k in d]. *)
Fixpoint lookup (d : dict) (k : string) : option value :=
  match d with
  | [] => None
  | (k', v) :: d' => if k' =? k then Some v else lookup d' k
  end.

Definition get_default (d : dict) (k : string) (default : value) : value :=
  match lookup d k with Some v => v | None => default end.

Definition get (d : dict) (k : string) : value := get_default d k VNone.

Definition has_key (d : dict) (k : string) : bool :=
  match lookup d k with Some _ => true | None => false end.

(** Lists and dicts cannot be hashed: they are neither set members nor
    dict keys. *)
Definition hashable (v : value) : bool :=
  match v with
  | VList _ | VDict _ => false
  | _ => true
  end.

(** The number a bool, int or float denotes ([True == 1 == 1.0]). *)
Definition num_of (v : value) : option Q :=
  match v with
  | VBool b => Some (if b then 1 else 0)%Q
  | VInt z => Some (inject_Z z)
  | VFloat q => Some q
  | _ => None
  end.

(** [a == b] when at least one side is hashable, which is every use of
    [==], [in] on sets and dict-key lookup in this program. *)
Definition key_eqb (a b : value) : bool :=
  match num_of a, num_of b with
  | Some x, Some y => Qeq_bool x y
  | None, None =>
      match a, b with
      | VNone, VNone => true
      | VStr s, VStr t => s =? t
      | _, _ => false
      end
  | _, _ => false
  end.

(** [a != b] *)
Definition apart (a b : value) : Prop := key_eqb a b = false.

(** [x in s] for a set (or the keys of a dict) kept as a list. *)
Definition mem (x : value) (s : list value) : bool := existsb (key_eqb x) s.

(** [set(l)]: the distinct members in order of first occurrence; raises on
    an unhashable member. *)
Fixpoint distinct (l : list value) : list value :=
  match l with
  | [] => []
  | x :: l' => x :: filter (fun y => negb (key_eqb x y)) (distinct l')
  end.

Definition py_set (l : list value) : result (list value) :=
  if forallb hashable l then Ok (distinct l)
  else Raise (TypeError "unhashable type").

(** The items a [for] loop sees: list members, the characters of a string,
    the keys of a dict. *)
Fixpoint chars (s : string) : list value :=
  match s with
  | EmptyString => []
  | String c s' => VStr (String c EmptyString) :: chars s'
  end.

Definition py_iter (v : value) : result (list value) :=
  match v with
  | VList l => Ok l
  | VStr s => Ok (chars s)
  | VDict d => Ok (map (fun kv => VStr (fst kv)) d)
  | _ => Raise (TypeError "object is not iterable")
  end.

(** [len(v)] *)
Definition py_len (v : value) : result nat :=
  match v with
  | VList l => Ok (List.length l)
  | VStr s => Ok (String.length s)
  | VDict d => Ok (List.length d)
  | _ => Raise (TypeError "object has no len()")
  end.

(** [a < b] on sort keys.  Numbers compare by value, strings by code
    point; every other pair raises (the sort keys of this program are
    column values, never lists). *)
Definition py_lt (a b : value) : result bool :=
  match num_of a, num_of b with
  | Some x, Some y => Ok (negb (Qle_bool y x))
  | None, None =>
      match a, b with
      | VStr s, VStr t => Ok (String.ltb s t)
      | _, _ => Raise (TypeError "'<' not supported between instances")
      end
  | _, _ => Raise (TypeError "'<' not supported between instances")
  end.

(** [list.sort(key=...)] and [sorted]: a stable sort that asks only [<].
    The element [x] is placed in front of the first [y] for which
    [key y < key x] fails, so equal keys keep their order; an exception of
    [<] leaves the sort. *)
Section Sort.
Variables (A K : Type) (key : A -> K) (lt : K -> K -> result bool).

Fixpoint insert (x : A) (l : list A) : result (list A) :=
  match l with
  | [] => Ok [x]
  | y :: l' =>
      b <- lt (key y) (key x) ;;
      if b then (r <- insert x l' ;; Ok (y :: r)) else Ok (x :: y :: l')
  end.

Fixpoint sort (l : list A) : result (list A) :=
  match l with
  | [] => Ok []
  | x :: l' => s <- sort l' ;; insert x s
  end.
End Sort.

(** A stable sort for an ordering that cannot raise ([sorted] on floats,
  SQL's ORDER BY, the ranking of a [Counter]). *)
Section SortBy.
Variables (A : Type) (ltb : A -> A -> bool).

Fixpoint insert_by (x : A) (l : list A) : list A :=
  match l with
  | [] => [x]
  | y :: l' => if ltb y x then y :: insert_by x l' else x :: y :: l'
  end.

Fixpoint sort_by (l : list A) : list A :=
  match l with
  | [] => []
  | x :: l' => insert_by x (sort_by l')
  end.
End SortBy.

(** What a command-line run leaves behind: the JSON document it printed or
    wrote to a file, an exit through [sys.exit] with its line on stderr, or
    an exception nobody caught. *)
Inductive outcome : Type :=
| Printed (doc : value)
| Written (path : string) (doc : value)
| Exit (code : Z) (stderr : string)
| Uncaught (e : exn).

(** The decimal text of an integer, as an f-string prints it. *)
Definition string_of_Z (z : Z) : string := NilZero.string_of_int (Z.to_int z).

(** [len(a) / len(b)] for [b] not empty. *)
Definition div_len (a b : nat) : Q := Qred (Z.of_nat a # Pos.of_nat b).

End Py.

Import Py.

(* ================================================================== *)
(** * database_connector.py                                             *)
(* ================================================================== *)

Module Database.

(** The store behind [DatabaseConnector].  The [prompts] table is kept row
    by row.  The two queries that join tables or do date arithmetic are kept
    as the answers they give: [entries_for_prompt id window] is
    [get_entries_for_prompt(id, window)] and [events_with_prompts w] is
    [get_events_with_prompts(workspace_path=w)]. *)
Record DatabaseConnector : Type := {
  prompts : list dict;
  entries_for_prompt : value -> Z -> list dict;
  events_with_prompts : value -> list dict
}.

(** [workspace_path = ?]: NULL equals nothing. *)
Definition sql_eqb (a b : value) : bool :=
  match a, b with
  | VNone, _ | _, VNone => false
  | _, _ => key_eqb a b
  end.

(** ORDER BY ... ASC in SQLite: NULL first, then numbers by value, then
    text byte by byte. *)
Definition sql_rank (v : value) : nat :=
  match v with
  | VNone => 0
  | VBool _ | VInt _ | VFloat _ => 1
  | VStr _ => 2
  | _ => 3
  end.

Definition sql_ltb (a b : value) : bool :=
  match num_of a, num_of b with
  | Some x, Some y => negb (Qle_bool y x)
  | _, _ =>
      match a, b with
      | VStr s, VStr t => String.ltb s t
      | _, _ => (sql_rank a <? sql_rank b)%nat
      end
  end.

(** LIMIT n; a negative n does not limit. *)
Definition sql_limit (limit : option Z) (rows : list dict) : list dict :=
  match limit with
  | Some n =>
      if (n =? 0)%Z then rows                  (* [if limit:] is false *)
      else if (n <? 0)%Z then rows
      else firstn (Z.to_nat n) rows
  | None => rows
  end.

(** [get_prompts(workspace_path, limit)] with the default
    [order_by='timestamp ASC']:
    SELECT * FROM prompts WHERE 1=1 [AND workspace_path = ?]
    ORDER BY timestamp ASC [LIMIT n]. *)
Definition get_prompts (db : DatabaseConnector) (workspace_path : value)
    (limit : option Z) : list dict :=
  let selected :=
    if truthy workspace_path
    then filter (fun row => sql_eqb (get row "workspace_path") workspace_path)
                (prompts db)
    else prompts db in
  let ordered :=
    sort_by (fun r1 r2 => sql_ltb (get r1 "timestamp") (get r2 "timestamp"))
            selected in
  sql_limit limit ordered.

End Database.

Import Database.

(* ================================================================== *)
(** * config.py                                                         *)
(* ================================================================== *)

Module Config.

(** The settings the model reads, with the defaults of [config.py]. *)
Record config : Type := {
  EMBEDDING_SERVICE : string;
  OPENROUTER_API_KEY : string;
  HF_TOKEN : string;
  CLUSTERING_METHOD : string;
  MIN_CLUSTER_SIZE : Z;
  MAX_CLUSTERS : Z;
  CP_TIME_WINDOW_SECONDS : Z;
  MIN_CP_THRESHOLD : Q
}.

Definition defaults : config := {|
  EMBEDDING_SERVICE := "openrouter";
  OPENROUTER_API_KEY := "";
  HF_TOKEN := "";
  CLUSTERING_METHOD := "dtw";
  MIN_CLUSTER_SIZE := 3;
  MAX_CLUSTERS := 20;
  CP_TIME_WINDOW_SECONDS := 300;
  MIN_CP_THRESHOLD := 1 # 2
|}.

End Config.

Import Config.

(* ================================================================== *)
(** * scripts/calculate_cp.py                                           *)
(* ================================================================== *)

Module CalculateCp.

Section WithEnvironment.

(** [json.loads] of the standard library, and the loaded [config]. *)
Variable json_loads : string -> result value.
Variable cfg : config.

(** [f.get('path') or f.get('fileName')]; [f.get] exists on dicts only. *)
Definition path_of (f : value) : result value :=
  match f with
  | VDict d => Ok (py_or (get d "path") (get d "fileName"))
  | _ => Raise (AttributeError "object has no attribute 'get'")
  end.

(** [f if isinstance(f, str) else f.get('path') or f.get('fileName')] *)
Definition str_or_path_of (f : value) : result value :=
  match f with
  | VStr _ => Ok f
  | _ => path_of f
  end.

(** What either comprehension keeps of an entry it accepts. *)
Definition raw_entry (v : value) : value :=
  match v with
  | VStr _ => v
  | VDict d => py_or (get d "path") (get d "fileName")
  | _ => VNone
  end.

(** The body of the [try] block of [extract_context_files]. *)
Definition context_entries (context_files_json : value) : result (list value) :=
  context <- match context_files_json with
             | VStr s => json_loads s
             | _ => Ok context_files_json
             end ;;
  files <- match context with
           | VList l => mapM str_or_path_of l
           | VDict d =>
               match lookup d "attachedFiles" with
               | Some fs => items <- py_iter fs ;; mapM path_of items
               | None =>
                   match lookup d "codebaseFiles" with
                   | Some fs => items <- py_iter fs ;; mapM path_of items
                   | None =>
                       match lookup d "files" with
                       | Some fs => items <- py_iter fs ;; mapM str_or_path_of items
                       | None => Ok []
                       end
                   end
               end
           | _ => Ok []
           end ;;
  Ok (filter truthy files).

Definition extract_context_files (prompt : dict) : list value :=
  let context_files_json := get prompt "context_files_json" in
  if negb (truthy context_files_json) then []
  else match context_entries context_files_json with
       | Ok files => files
       | Raise _ => []          (* except Exception: ... return [] *)
       end.

Definition calculate_cp (prompt : dict) (diff_files : list value) : result value :=
  let context_files := extract_context_files prompt in
  match context_files with
  | [] =>
      Ok (VDict [ ("prompt_id", get prompt "id");
                  ("cp", VFloat 0);
                  ("context_file_count", VInt 0);
                  ("diff_file_count", VInt (Z.of_nat (List.length diff_files)));
                  ("intersection_count", VInt 0);
                  ("context_files", VList []);
                  ("diff_files", VList diff_files);
                  ("unused_context_files", VList []) ])
  | _ :: _ =>
      context_set <- py_set context_files ;;
      diff_set <- py_set diff_files ;;
      let intersection := filter (fun f => mem f diff_set) context_files in
      let unused := filter (fun f => negb (mem f diff_set)) context_files in
      let cp := div_len (List.length intersection) (List.length context_files) in
      Ok (VDict [ ("prompt_id", get prompt "id");
                  ("timestamp", get prompt "timestamp");
                  ("cp", VFloat cp);
                  ("context_file_count", VInt (Z.of_nat (List.length context_files)));
                  ("diff_file_count", VInt (Z.of_nat (List.length diff_files)));
                  ("intersection_count", VInt (Z.of_nat (List.length intersection)));
                  ("context_files", VList context_files);
                  ("diff_files", VList diff_files);
                  ("intersection", VList intersection);
                  ("unused_context_files", VList unused) ])
  end.

(** [[e.get('file_path') for e in diff_files_data if e.get('file_path')]] *)
Definition diff_files_of (db : DatabaseConnector) (prompt_id : value) : list value :=
  let diff_files_data :=
    entries_for_prompt db prompt_id (CP_TIME_WINDOW_SECONDS cfg) in
  map (fun e => get e "file_path")
      (filter (fun e => truthy (get e "file_path")) diff_files_data).

(** [cp_record['cp']] of a record built by [calculate_cp]. *)
Definition record_cp (cp_record : value) : Q :=
  match cp_record with
  | VDict d => match lookup d "cp" with Some (VFloat q) => q | _ => 0 end
  | _ => 0
  end.

(** The loop of [calculate_baseline_cp]: one record per prompt. *)
Definition baseline_records (db : DatabaseConnector) (workspace_path : value)
    (limit : Z) : result (list value) :=
  mapM (fun prompt => calculate_cp prompt (diff_files_of db (get prompt "id")))
       (get_prompts db workspace_path (Some limit)).

Definition Qltb (a b : Q) : bool := negb (Qle_bool b a).

(** [median] as lines 123-128 compute it from the sorted scores. *)
Definition median_of_sorted (cp_scores_sorted : list Q) : Q :=
  let n := List.length cp_scores_sorted in
  let median := nth (n / 2) cp_scores_sorted 0%Q in
  if Nat.even n && (1 <? n)%nat
  then Qred ((nth (n / 2 - 1) cp_scores_sorted 0%Q
              + nth (n / 2) cp_scores_sorted 0%Q) / 2)
  else median.

(** [sum(1 for cp in cp_scores if lo <= cp < hi)] and the closed variant. *)
Definition count_half_open (lo hi : Q) (cp_scores : list Q) : nat :=
  List.length (filter (fun cp => Qle_bool lo cp && Qltb cp hi) cp_scores).

Definition count_closed (lo hi : Q) (cp_scores : list Q) : nat :=
  List.length (filter (fun cp => Qle_bool lo cp && Qle_bool cp hi) cp_scores).

Definition distribution_of (cp_scores : list Q) : dict :=
  [ ("0.0-0.2", VInt (Z.of_nat (count_half_open 0 (1 # 5) cp_scores)));
    ("0.2-0.4", VInt (Z.of_nat (count_half_open (1 # 5) (2 # 5) cp_scores)));
    ("0.4-0.6", VInt (Z.of_nat (count_half_open (2 # 5) (3 # 5) cp_scores)));
    ("0.6-0.8", VInt (Z.of_nat (count_half_open (3 # 5) (4 # 5) cp_scores)));
    ("0.8-1.0", VInt (Z.of_nat (count_closed (4 # 5) 1 cp_scores))) ].

(** [min(l)] and [max(l)] of a list that is not empty. *)
Definition py_min (l : list Q) : Q :=
  match l with
  | [] => 0
  | x :: l' => fold_left (fun m y => if Qltb y m then y else m) l' x
  end.

Definition py_max (l : list Q) : Q :=
  match l with
  | [] => 0
  | x :: l' => fold_left (fun m y => if Qltb m y then y else m) l' x
  end.

(** Lines 112-147: the statistics over the scores collected by the loop. *)
Definition baseline_statistics (cp_scores : list Q) (cp_records : list value) : value :=
  match cp_scores with
  | [] =>
      VDict [ ("average", VFloat 0); ("median", VFloat 0);
              ("min", VFloat 0); ("max", VFloat 0);
              ("count", VInt 0); ("distribution", VDict []) ]
  | _ :: _ =>
      let cp_scores_sorted := sort_by Qltb cp_scores in
      let n := List.length cp_scores in
      VDict [ ("average",
               VFloat (Qred (fold_left Qplus cp_scores 0 / inject_Z (Z.of_nat n))));
              ("median", VFloat (median_of_sorted cp_scores_sorted));
              ("min", VFloat (py_min cp_scores));
              ("max", VFloat (py_max cp_scores));
              ("count", VInt (Z.of_nat n));
              ("distribution", VDict (distribution_of cp_scores));
              ("records", VList cp_records) ]
  end.

Definition calculate_baseline_cp (db : DatabaseConnector) (workspace_path : value)
    (limit : Z) : result value :=
  cp_records <- baseline_records db workspace_path limit ;;
  Ok (baseline_statistics (map record_cp cp_records) cp_records).

(** The parsed command line of [calculate_cp.py]. *)
Record args : Type := {
  workspace : value;
  prompt_id : option Z;
  baseline : bool;
  limit : Z;
  output : option string
}.

(** [next((p for p in prompts if p.get('id') == args.prompt_id), None)] *)
Definition find_prompt (prompts : list dict) (id : Z) : option dict :=
  find (fun p => key_eqb (get p "id") (VInt id)) prompts.

Definition emit (a : args) (doc : value) : outcome :=
  match output a with
  | Some path => if path =? "" then Printed doc else Written path doc
  | None => Printed doc
  end.

(** [main]; [connect] is the constructor [DatabaseConnector()]. *)
Definition main (connect : result DatabaseConnector) (a : args) : outcome :=
  match connect with
  | Raise e => Exit 1 ("[ERROR] Failed to connect to database: " ++ exn_str e)
  | Ok db =>
      let single := match prompt_id a with
                    | Some id => if (id =? 0)%Z then None else Some id
                    | None => None
                    end in
      match single with
      | Some id =>
          let prompts := get_prompts db VNone (Some 1%Z) in
          match find_prompt prompts id with
          | None | Some [] =>
              Exit 1 ("[ERROR] Prompt " ++ string_of_Z id ++ " not found")
          | Some prompt =>
              match calculate_cp prompt (diff_files_of db (VInt id)) with
              | Ok result => emit a result
              | Raise e => Uncaught e
              end
          end
      | None =>
          if baseline a then
            match calculate_baseline_cp db (workspace a) (limit a) with
            | Ok result => emit a result
            | Raise e => Uncaught e
            end
          else Exit 1 "[ERROR] Specify --prompt-id or --baseline"
      end
  end.

End WithEnvironment.

End CalculateCp.

(* ================================================================== *)
(** * vectorizer.py                                                     *)
(* ================================================================== *)

Module Vectorizer.

(** An embedding ([np.ndarray]) is the list of its components. *)
Definition embedding : Type := list Q.

(** The state of an [EventVectorizer].  [event_type_map] lists the keys of
    the dict in the order of their indices (key at position [i] maps to
    [i]); the cache is keyed by the text. *)
Record EventVectorizer : Type := {
  event_type_map : list value;
  embedding_model : option (string -> result embedding);
  embedding_cache : list (string * embedding)
}.

Section WithEnvironment.

Variable cfg : config.
(** Whether [requests] could be imported, and the two HTTP round trips
    (post, [raise_for_status], decoding of the reply). *)
Variable HAS_REQUESTS : bool.
Variable openrouter_request : string -> result embedding.
Variable huggingface_request : string -> result embedding.

(** [__init__]; [local_model] is the sentence-transformers model when the
    service is 'local', the package is installed and loading succeeded. *)
Definition init (local_model : option (string -> result embedding)) : EventVectorizer :=
  {| event_type_map := [];
     embedding_model :=
       if EMBEDDING_SERVICE cfg =? "local" then local_model else None;
     embedding_cache := [] |}.

Definition build_event_type_encoder (self : EventVectorizer) (events : list dict)
  : result EventVectorizer :=
  event_types <- py_set (map (fun event => get event "type")
                             (filter (fun event => truthy (get event "type")) events)) ;;
  sorted_types <- sort (fun et : value => et) py_lt event_types ;;
  Ok {| event_type_map := sorted_types;
        embedding_model := embedding_model self;
        embedding_cache := embedding_cache self |}.

(** [self.event_type_map[event_type]] *)
Fixpoint index_of (keys : list value) (k : value) : option nat :=
  match keys with
  | [] => None
  | k' :: keys' =>
      if key_eqb k' k then Some 0%nat
      else option_map S (index_of keys' k)
  end.

(** [vector[i] = 1.0] *)
Fixpoint set_one (i : nat) (vector : list Q) : list Q :=
  match vector, i with
  | [], _ => []
  | _ :: v', O => 1%Q :: v'
  | x :: v', S i' => x :: set_one i' v'
  end.

Definition one_hot_encode_event_type (self : EventVectorizer) (event_type : value)
  : result (list Q) :=
  match event_type_map self with
  | [] => Ok []
  | keys =>
      let vector := repeat 0%Q (List.length keys) in
      if hashable event_type then
        match index_of keys event_type with
        | Some i => Ok (set_one i vector)
        | None => Ok vector
        end
      else Raise (TypeError "unhashable type")
  end.

(** [text.strip()] is empty: every character is white space. *)
Definition is_space (c : ascii) : bool :=
  let n := nat_of_ascii c in
  ((9 <=? n) && (n <=? 13) || (28 <=? n) && (n <=? 32))%nat.

Fixpoint blank (text : string) : bool :=
  match text with
  | EmptyString => true
  | String c text' => is_space c && blank text'
  end.

Fixpoint cache_lookup (cache : list (string * embedding)) (text : string)
  : option embedding :=
  match cache with
  | [] => None
  | (t, e) :: cache' => if t =? text then Some e else cache_lookup cache' text
  end.

Definition embed_via_openrouter (text : string) : option embedding :=
  match openrouter_request text with Ok e => Some e | Raise _ => None end.

Definition embed_via_huggingface (text : string) : option embedding :=
  match huggingface_request text with Ok e => Some e | Raise _ => None end.

(** [embed_text]: the embedding, if any, and the vectorizer with its cache
    updated. *)
Definition embed_text (self : EventVectorizer) (text : string)
  : option embedding * EventVectorizer :=
  if blank text then (None, self)
  else
    match cache_lookup (embedding_cache self) text with
    | Some e => (Some e, self)
    | None =>
        let local :=
          match embedding_model self with
          | Some encode =>
              match encode text with Ok e => Some e | Raise _ => None end
          | None => None
          end in
        let found :=
          match local with
          | Some e => Some e
          | None =>
              if (EMBEDDING_SERVICE cfg =? "openrouter")
                 && negb (OPENROUTER_API_KEY cfg =? "") && HAS_REQUESTS
              then embed_via_openrouter text
              else if (EMBEDDING_SERVICE cfg =? "huggingface")
                      && negb (HF_TOKEN cfg =? "") && HAS_REQUESTS
              then embed_via_huggingface text
              else None
          end in
        match found with
        | Some e =>
            (Some e,
             {| event_type_map := event_type_map self;
                embedding_model := embedding_model self;
                embedding_cache := (text, e) :: embedding_cache self |})
        | None => (None, self)
        end
    end.

(** [[0.0] * 768] *)
Definition placeholder : list value := repeat (VFloat 0) 768.

Definition floats (vector : list Q) : list value := map VFloat vector.

(** [vectorize_event].  [prompt_embedding] is bound to [None] and the branch
    on [prompt_text] is [pass], so the placeholder is always appended. *)
Definition vectorize_event (self : EventVectorizer) (event : dict)
    (prompt_text : value) : result value :=
  event_type_vector <- one_hot_encode_event_type self (get_default event "type" (VStr "")) ;;
  let prompt_embedding : option embedding := None in
  let combined_vector :=
    match prompt_embedding with
    | Some e => floats event_type_vector ++ floats e
    | None => floats event_type_vector ++ placeholder
    end in
  Ok (VDict [ ("event_id", get event "id");
              ("timestamp", get event "timestamp");
              ("event_type", get event "type");
              ("event_type_vector", VList (floats event_type_vector));
              ("prompt_text", prompt_text);
              ("combined_vector", VList combined_vector) ]).

(** A dict keyed by prompt id. *)
Definition prompts_map : Type := list (value * dict).

Fixpoint map_lookup (m : prompts_map) (k : value) : option dict :=
  match m with
  | [] => None
  | (k', v) :: m' => if key_eqb k' k then Some v else map_lookup m' k
  end.

Definition vectorize_sequence (self : EventVectorizer) (events : list dict)
    (prompts : prompts_map) : result (list value) :=
  mapM (fun event =>
          let prompt_id := get event "prompt_id" in
          prompt_text <-
            (if truthy prompt_id then
               if hashable prompt_id then
                 match map_lookup prompts prompt_id with
                 | Some p => Ok (get p "text")
                 | None => Ok VNone
                 end
               else Raise (TypeError "unhashable type")
             else Ok VNone) ;;
          vectorize_event self event prompt_text)
       events.

End WithEnvironment.

End Vectorizer.

(* ================================================================== *)
(** * scripts/cluster_sequences.py                                      *)
(* ================================================================== *)

Module ClusterSequences.

Inductive method : Type := dtw | kmeans.

Definition method_name (m : method) : string :=
  match m with dtw => "dtw" | kmeans => "kmeans" end.

(** The parsed command line ([--method] is restricted to the two choices
    by the parser). *)
Record args : Type := {
  arg_method : method;
  n_clusters : Z;
  min_size : Z;
  output : option string
}.

(** [max(len(s) for s in sequences)] *)
Definition max_len (sequences : list value) : result nat :=
  lens <- mapM py_len sequences ;;
  match lens with
  | [] => Raise (ValueError "max() arg is an empty sequence")
  | n :: ns => Ok (fold_left Nat.max ns n)
  end.

(** [seq[0]] *)
Definition first_item (seq : value) : result value :=
  match seq with
  | VList (x :: _) => Ok x
  | VList [] => Raise (IndexError "list index out of range")
  | VStr (String c _) => Ok (VStr (String c EmptyString))
  | VStr EmptyString => Raise (IndexError "string index out of range")
  | VDict _ => Raise (KeyError "0")
  | _ => Raise (TypeError "object is not subscriptable")
  end.

(** One turn of the loop of [pad_sequences]. *)
Definition pad_one (max_length : nat) (seq : value) : result value :=
  n <- py_len seq ;;
  if (n <? max_length)%nat then
    x <- first_item seq ;;
    width <- py_len x ;;
    let padding := repeat (VList (repeat (VFloat 0) width)) (max_length - n) in
    match seq with
    | VList l => Ok (VList (l ++ padding))
    | _ => Raise (TypeError "can only concatenate list to list")
    end
  else
    match seq with
    | VList l => Ok (VList (firstn max_length l))
    | VStr s => Ok (VStr (substring 0 max_length s))
    | _ => Raise (TypeError "unhashable type: 'slice'")
    end.

(** [pad_sequences(sequences)] up to the conversion to an array. *)
Definition pad_sequences (sequences : list value) : result (list value * nat) :=
  max_length <- max_len sequences ;;
  padded <- mapM (pad_one max_length) sequences ;;
  Ok (padded, max_length).

(** [flat.extend(vec)] for every [vec] of [seq], then the padding with
    [0.0] and the cut at [max_length * vector_dim]. *)
Definition flatten_one (size : nat) (seq : value) : result (list value) :=
  vecs <- py_iter seq ;;
  parts <- mapM py_iter vecs ;;
  let flat := List.concat parts in
  Ok (firstn size (flat ++ repeat (VFloat 0) (size - List.length flat))).

Section WithLibraries.

(** Whether [tslearn] could be imported, and the two library calls: the
    array conversion, scaling and [fit_predict] of [TimeSeriesKMeans]
    (metric dtw, [max_iter=10], [random_state=42]) on the padded batch, and
    of scikit-learn's [KMeans] ([random_state=42], [n_init=10]) on the
    flattened batch.  Each gets the requested number of clusters. *)
Variable HAS_TSLEARN : bool.
Variable dtw_fit_predict : list value -> Z -> result (list Z).
Variable kmeans_fit_predict : list (list value) -> Z -> result (list Z).

Definition cluster_with_dtw (sequences : list value) (n : Z) : result (list Z) :=
  if negb HAS_TSLEARN then Raise (ImportError "tslearn required for DTW clustering")
  else
    padded <- pad_sequences sequences ;;
    dtw_fit_predict (fst padded) n.

(** Lines 89-101 of [cluster_with_kmeans]: the flattened batch. *)
Definition flatten_batch (sequences : list value) : result (list (list value)) :=
  max_length <- max_len sequences ;;
  vector_dim <- match sequences with
                | [] => Ok 0%nat
                | s :: _ => x <- first_item s ;; py_len x
                end ;;
  mapM (flatten_one (max_length * vector_dim)) sequences.

Definition cluster_with_kmeans (sequences : list value) (n : Z) : result (list Z) :=
  flattened <- flatten_batch sequences ;;
  kmeans_fit_predict flattened n.

(** [all_sequences[idx]] *)
Definition seq_at (all_sequences : list (list value)) (idx : nat) : result (list value) :=
  match nth_error all_sequences idx with
  | Some s => Ok s
  | None => Raise (IndexError "list index out of range")
  end.

(** [sum(len(all_sequences[idx]) for idx in indices) / len(indices)] *)
Definition mean_length (indices : list nat) (all_sequences : list (list value)) : result Q :=
  lens <- mapM (fun idx => s <- seq_at all_sequences idx ;; Ok (List.length s)) indices ;;
  Ok (div_len (fold_left Nat.add lens 0%nat) (List.length indices)).

Definition Qltb (a b : Q) : bool := negb (Qle_bool b a).

(** [abs(len(all_sequences[idx]) - avg_length)] *)
Definition length_gap (all_sequences : list (list value)) (avg_length : Q) (idx : nat)
  : result Q :=
  s <- seq_at all_sequences idx ;;
  Ok (Qabs (inject_Z (Z.of_nat (List.length s)) - avg_length)).

(** The scan of [find_representative_sequence] over [cluster_sequences[1:]]. *)
Fixpoint closest (all_sequences : list (list value)) (avg_length : Q)
    (rest : list nat) (best_idx : nat) (best_diff : Q) : result nat :=
  match rest with
  | [] => Ok best_idx
  | idx :: rest' =>
      diff <- length_gap all_sequences avg_length idx ;;
      if Qltb diff best_diff
      then closest all_sequences avg_length rest' idx diff
      else closest all_sequences avg_length rest' best_idx best_diff
  end.

Definition find_representative_sequence (cluster_sequences : list nat)
    (all_sequences : list (list value)) : result (option nat) :=
  match cluster_sequences with
  | [] => Ok None
  | first :: rest =>
      avg_length <- mean_length cluster_sequences all_sequences ;;
      best_diff <- length_gap all_sequences avg_length first ;;
      best <- closest all_sequences avg_length rest first best_diff ;;
      Ok (Some best)
  end.

(** [Counter(l)]: the distinct members with their counts, in the order in
    which they were first met. *)
Fixpoint tally (counts : list (value * nat)) (x : value) : list (value * nat) :=
  match counts with
  | [] => [(x, 1%nat)]
  | (y, n) :: counts' =>
      if key_eqb y x then (y, S n) :: counts' else (y, n) :: tally counts' x
  end.

Definition counter (l : list value) : result (list (value * nat)) :=
  if forallb hashable l then Ok (fold_left tally l [])
  else Raise (TypeError "unhashable type").

(** [most_common(n)]: by decreasing count, first met first among equals. *)
Definition most_common (n : nat) (counts : list (value * nat)) : list (value * nat) :=
  firstn n (sort_by (fun a b => (snd b <? snd a)%nat) counts).

(** [event.get('event_type')] for every event of a sequence. *)
Definition event_type_of (event : value) : result value :=
  match event with
  | VDict d => Ok (get d "event_type")
  | _ => Raise (AttributeError "object has no attribute 'get'")
  end.

Definition extract_common_event_types (cluster_sequences : list nat)
    (all_sequences : list (list value)) : result (list value) :=
  per_sequence <- mapM (fun idx =>
                          seq <- seq_at all_sequences idx ;;
                          types <- mapM event_type_of seq ;;
                          Ok (filter truthy types))
                       cluster_sequences ;;
  type_counts <- counter (List.concat per_sequence) ;;
  Ok (map fst (most_common 5 type_counts)).

(** Lines 183-196: one input sequence gives one entry of [all_sequences]
    and one of [sequence_vectors]. *)
Definition split_sequence (seq : value) : result (list value * value) :=
  match seq with
  | VList events =>
      vectors <- mapM (fun e =>
                         match e with
                         | VDict d => Ok (get_default d "combined_vector" (VList []))
                         | _ => Raise (AttributeError "object has no attribute 'get'")
                         end) events ;;
      Ok (events, VList vectors)
  | VDict d =>
      match lookup d "combined_vector" with
      | Some v => Ok ([seq], VList [v])
      | None => Raise (KeyError "0")                         (* seq[0] *)
      end
  | VStr (String _ _) =>
      (* seq[0] is a character, not a number: the string itself is kept *)
      Ok ([VDict [("combined_vector", seq)]], seq)
  | _ => x <- first_item seq ;; Ok ([], x)                   (* seq[0] raises *)
  end.

(** Lines 209-213: the sequence indices of every label, labels in the
    order of their first occurrence. *)
Fixpoint add_member (clusters : list (Z * list nat)) (label : Z) (idx : nat)
  : list (Z * list nat) :=
  match clusters with
  | [] => [(label, [idx])]
  | (l, members) :: clusters' =>
      if (l =? label)%Z then (l, members ++ [idx]) :: clusters'
      else (l, members) :: add_member clusters' label idx
  end.

Fixpoint organize_from (idx : nat) (labels : list Z) (clusters : list (Z * list nat))
  : list (Z * list nat) :=
  match labels with
  | [] => clusters
  | label :: labels' => organize_from (S idx) labels' (add_member clusters label idx)
  end.

Definition organize (labels : list Z) : list (Z * list nat) :=
  organize_from 0 labels [].

Definition ints (l : list nat) : list value := map (fun i => VInt (Z.of_nat i)) l.

(** [clusters.get(label, [])] *)
Fixpoint members_of (clusters : list (Z * list nat)) (label : Z) : list nat :=
  match clusters with
  | [] => []
  | (l, members) :: clusters' =>
      if (l =? label)%Z then members else members_of clusters' label
  end.

(** Lines 218-231: the record of one cluster that is large enough. *)
Definition cluster_record (all_sequences : list (list value)) (cluster_id : Z)
    (sequence_indices : list nat) : result value :=
  representative_idx <- find_representative_sequence sequence_indices all_sequences ;;
  representative <- match representative_idx with
                    | Some i => s <- seq_at all_sequences i ;; Ok (VList s)
                    | None => Ok VNone
                    end ;;
  avg_length <- mean_length sequence_indices all_sequences ;;
  event_types <- extract_common_event_types sequence_indices all_sequences ;;
  Ok (VDict [ ("cluster_id", VInt cluster_id);
              ("frequency", VInt (Z.of_nat (List.length sequence_indices)));
              ("representative_sequence", representative);
              ("sequence_indices", VList (ints sequence_indices));
              ("metadata", VDict [ ("avg_length", VFloat avg_length);
                                   ("event_types", VList event_types) ]) ]).

Definition large_enough (min_size : Z) (cluster : Z * list nat) : bool :=
  (min_size <=? Z.of_nat (List.length (snd cluster)))%Z.

(** Lines 216-231. *)
Definition build_library (min_size : Z) (all_sequences : list (list value))
    (clusters : list (Z * list nat)) : result (list value) :=
  mapM (fun c => cluster_record all_sequences (fst c) (snd c))
       (filter (large_enough min_size) clusters).

(** Lines 169-177: the sequences and the metadata of the input document. *)
Definition unpack (data : value) : result (value * value) :=
  match data with
  | VDict d =>
      match lookup d "sequences" with
      | Some sequences => Ok (sequences, get_default d "metadata" (VDict []))
      | None => Ok (data, VDict [])
      end
  | VList l =>
      if mem (VStr "sequences") l
      then Raise (TypeError "list indices must be integers or slices, not str")
      else Ok (data, VDict [])
  | VStr s =>
      match index 0 "sequences" s with
      | Some _ => Raise (TypeError "string indices must be integers")
      | None => Ok (data, VDict [])
      end
  | _ => Raise (TypeError "argument is not iterable")
  end.

Definition emit (a : args) (doc : value) : outcome :=
  match output a with
  | Some path => if path =? "" then Printed doc else Written path doc
  | None => Printed doc
  end.

(** Lines 166-196: the metadata, the input sequences, [all_sequences] and
    [sequence_vectors]. *)
Definition prepare (data : value)
  : result (value * list value * list (list value) * list value) :=
  unpacked <- unpack data ;;
  items <- py_iter (fst unpacked) ;;
  split <- mapM split_sequence items ;;
  Ok (snd unpacked, items, map fst split, map snd split).

(** The body of the [try] block of lines 199-203. *)
Definition run_clustering (a : args) (sequence_vectors : list value) : result (list Z) :=
  match arg_method a with
  | dtw => if HAS_TSLEARN then cluster_with_dtw sequence_vectors (n_clusters a)
           else cluster_with_kmeans sequence_vectors (n_clusters a)
  | kmeans => cluster_with_kmeans sequence_vectors (n_clusters a)
  end.

(** [main] on the loaded input document [data]; the imports at the top of
    the script are past (scikit-learn is installed). *)
Definition main (a : args) (data : value) : outcome :=
  match prepare data with
  | Raise e => Uncaught e
  | Ok (metadata, items, all_sequences, sequence_vectors) =>
      match run_clustering a sequence_vectors with
      | Raise e => Exit 1 ("[ERROR] Clustering failed: " ++ exn_str e)
      | Ok labels =>
          match build_library (min_size a) all_sequences (organize labels) with
          | Raise e => Uncaught e
          | Ok behavioral_library =>
              emit a
                (VDict [ ("method", VStr (method_name (arg_method a)));
                         ("n_clusters", VInt (n_clusters a));
                         ("min_size", VInt (min_size a));
                         ("total_sequences", VInt (Z.of_nat (List.length items)));
                         ("clusters_found",
                          VInt (Z.of_nat (List.length behavioral_library)));
                         ("cluster_assignments", VList (map VInt labels));
                         ("behavioral_library", VList behavioral_library);
                         ("metadata", metadata) ])
          end
      end
  end.

End WithLibraries.

End ClusterSequences.

(* ================================================================== *)
(** * sequence_processor.py                                             *)
(* ================================================================== *)

Module SequenceProcessor.

Import Vectorizer.

Record SequenceProcessor : Type := {
  db : DatabaseConnector;
  vectorizer : EventVectorizer
}.

(** [event.get('session_id') or 'default'] *)
Definition session_of (event : dict) : value :=
  py_or (get event "session_id") (VStr "default").

(** [sequences_by_session[session].append(event)], the key being created
    at its first use. *)
Fixpoint add_event (groups : list (value * list dict)) (session : value) (event : dict)
  : list (value * list dict) :=
  match groups with
  | [] => [(session, [event])]
  | (s, events) :: groups' =>
      if key_eqb s session then (s, events ++ [event]) :: groups'
      else (s, events) :: add_event groups' session event
  end.

Fixpoint group_by_session (events : list dict) (groups : list (value * list dict))
  : result (list (value * list dict)) :=
  match events with
  | [] => Ok groups
  | event :: events' =>
      let session := session_of event in
      if hashable session
      then group_by_session events' (add_event groups session event)
      else Raise (TypeError "unhashable type")
  end.

(** [e.get('timestamp', '')] *)
Definition timestamp_key (e : dict) : value := get_default e "timestamp" (VStr "").

(** The loop of lines 35-39 when no session id is refused as a key. *)
Definition grouped (events : list dict) (groups : list (value * list dict))
  : list (value * list dict) :=
  fold_left (fun g event => add_event g (session_of event) event) events groups.

(** [min_sequence_length <= len(session_events) <= max_sequence_length] *)
Definition within (min_sequence_length max_sequence_length : Z) (session_events : list dict)
  : bool :=
  let n := Z.of_nat (List.length session_events) in
  ((min_sequence_length <=? n) && (n <=? max_sequence_length))%Z.

Definition extract_sequences (self : SequenceProcessor) (workspace_path : value)
    (min_sequence_length max_sequence_length : Z) : result (list (list dict)) :=
  let events := events_with_prompts (db self) workspace_path in
  sequences_by_session <- group_by_session events [] ;;
  sorted_sessions <- mapM (fun g => sort timestamp_key py_lt (snd g)) sequences_by_session ;;
  Ok (filter (within min_sequence_length max_sequence_length) sorted_sessions).

(** [prompts_map[prompt_id] = {'text': ...}] *)
Fixpoint map_store (m : prompts_map) (k : value) (v : dict) : prompts_map :=
  match m with
  | [] => [(k, v)]
  | (k', v') :: m' =>
      if key_eqb k' k then (k', v) :: m' else (k', v') :: map_store m' k v
  end.

Fixpoint build_prompts_map (events : list dict) (m : prompts_map) : result prompts_map :=
  match events with
  | [] => Ok m
  | event :: events' =>
      let prompt_id := get event "prompt_id" in
      if truthy prompt_id && has_key event "prompt_text" then
        if hashable prompt_id
        then build_prompts_map events'
               (map_store m prompt_id [("text", get event "prompt_text")])
        else Raise (TypeError "unhashable type")
      else build_prompts_map events' m
  end.

Definition first_field (seq : list dict) (k : string) : value :=
  match seq with [] => VNone | e :: _ => get e k end.

Definition last_field (seq : list dict) (k : string) : value :=
  match rev seq with [] => VNone | e :: _ => get e k end.

Definition vectorize_sequences (self : SequenceProcessor) (sequences : list (list dict))
  : result (SequenceProcessor * list value) :=
  let all_events := List.concat sequences in
  encoder <- build_event_type_encoder (vectorizer self) all_events ;;
  prompts <- build_prompts_map all_events [] ;;
  vectorized_sequences <-
    mapM (fun seq =>
            vectorized <- vectorize_sequence encoder seq prompts ;;
            Ok (VDict [ ("sequence", VList vectorized);
                        ("metadata",
                         VDict [ ("session_id", first_field seq "session_id");
                                 ("workspace_path", first_field seq "workspace_path");
                                 ("length", VInt (Z.of_nat (List.length seq)));
                                 ("timestamp_range",
                                  VList [ first_field seq "timestamp";
                                          last_field seq "timestamp" ]) ]) ]))
         sequences ;;
  Ok ({| db := db self; vectorizer := encoder |}, vectorized_sequences).

Section WithEnvironment.

Variable cfg : config.
Variable HAS_TSLEARN : bool.
Variable dtw_fit_predict : list value -> Z -> result (list Z).
Variable kmeans_fit_predict : list (list value) -> Z -> result (list Z).

(** [vs['sequence']] *)
Definition sequence_field (vs : value) : result value :=
  match vs with
  | VDict d => match lookup d "sequence" with
               | Some s => Ok s
               | None => Raise (KeyError "'sequence'")
               end
  | _ => Raise (TypeError "indices must be integers")
  end.

(** [cluster_sequences]: the script is run as a child process on the
    document written to the temporary file, and its standard output is
    parsed.  A run that ends with a status other than 0 raises
    [CalledProcessError]; the warning that the script prints at import when
    tslearn is missing precedes the document on standard output, which then
    does not parse. *)
Definition cluster_sequences (vectorized_sequences : list value)
    (method : option string) (n_clusters min_cluster_size : option Z) : result value :=
  let method := match method with
                | Some m => if m =? "" then CLUSTERING_METHOD cfg else m
                | None => CLUSTERING_METHOD cfg
                end in
  let n_clusters := match n_clusters with
                    | Some n => if (n =? 0)%Z then MAX_CLUSTERS cfg else n
                    | None => MAX_CLUSTERS cfg
                    end in
  let min_cluster_size := match min_cluster_size with
                          | Some n => if (n =? 0)%Z then MIN_CLUSTER_SIZE cfg else n
                          | None => MIN_CLUSTER_SIZE cfg
                          end in
  sequences <- mapM sequence_field vectorized_sequences ;;
  let sequences_data :=
    VDict [ ("sequences", VList sequences);
            ("metadata",
             VDict [ ("total_sequences",
                      VInt (Z.of_nat (List.length vectorized_sequences)));
                     ("method", VStr method) ]) ] in
  parsed_method <-
    (if method =? "dtw" then Ok ClusterSequences.dtw
     else if method =? "kmeans" then Ok ClusterSequences.kmeans
     else Raise (CalledProcessError "returned non-zero exit status 2")) ;;
  match ClusterSequences.main HAS_TSLEARN dtw_fit_predict kmeans_fit_predict
          {| ClusterSequences.arg_method := parsed_method;
             ClusterSequences.n_clusters := n_clusters;
             ClusterSequences.min_size := min_cluster_size;
             ClusterSequences.output := None |}
          sequences_data with
  | Printed doc | Written _ doc =>
      if HAS_TSLEARN then Ok doc
      else Raise (JSONDecodeError "Expecting value")
  | Exit _ _ | Uncaught _ =>
      Raise (CalledProcessError "returned non-zero exit status 1")
  end.

(** [build_behavioral_library].  The loop over the clusters only reads
    them (the CP filter is [pass]) and keeps each one. *)
Definition build_behavioral_library (self : SequenceProcessor) (workspace_path : value)
    (min_cp : option Q) : result value :=
  sequences <- extract_sequences self workspace_path 3 50 ;;
  match sequences with
  | [] => Ok (VDict [ ("error", VStr "No sequences found");
                      ("library", VList []) ])
  | _ :: _ =>
      vectorized <- vectorize_sequences self sequences ;;
      clustering_result <- cluster_sequences (snd vectorized) None None None ;;
      clusters <- match clustering_result with
                  | VDict d => py_iter (get_default d "behavioral_library" (VList []))
                  | _ => Raise (AttributeError "object has no attribute 'get'")
                  end ;;
      let behavioral_library := clusters in
      Ok (VDict [ ("workspace_path", workspace_path);
                  ("total_sequences", VInt (Z.of_nat (List.length sequences)));
                  ("clusters_found", VInt (Z.of_nat (List.length behavioral_library)));
                  ("behavioral_library", VList behavioral_library);
                  ("clustering_metadata",
                   match clustering_result with
                   | VDict d => get_default d "metadata" (VDict [])
                   | _ => VNone
                   end) ])
  end.

End WithEnvironment.

End SequenceProcessor.

(* ================================================================== *)
(** * The specification's own wording, for comparison                   *)
(* ================================================================== *)

Module Spec.

(** Context precision over sets: [|C ∩ D| / |C|], and 0 for an empty
    context.  [C ∩ D] is the set of the members of [C] that are members of
    [D]. *)
Definition cp (C D : list value) : Q :=
  match distinct C with
  | [] => 0
  | members => div_len (List.length (filter (fun f => mem f D) members))
                       (List.length members)
  end.

(** The median by the even/odd midpoint rule, on the sorted scores. *)
Definition median (sorted : list Q) : Q :=
  let n := List.length sorted in
  if Nat.odd n then nth ((n - 1) / 2) sorted 0%Q
  else ((nth (n / 2 - 1) sorted 0 + nth (n / 2) sorted 0) / 2)%Q.





(** The indices, from [idx] on, of the sequences that carry [label]. *)
Fixpoint positions (label : Z) (idx : nat) (labels : list Z) : list nat :=
  match labels with
  | [] => []
  | l :: labels' =>
      if (l =? label)%Z then idx :: positions label (S idx) labels'
      else positions label (S idx) labels'
  end.

(** The document that a run printed or wrote, and a field of an object. *)
Definition document (o : outcome) : option value :=
  match o with
  | Printed doc | Written _ doc => Some doc
  | _ => None
  end.

Definition field (v : value) (k : string) : option value :=
  match v with
  | VDict d => lookup d k
  | _ => None
  end.

(** A Cluster record for the assignments [labels]: its members are the
    sequences that carry its label, its frequency is their number, and that
    number reaches the minimum size. *)
Definition cluster_of (labels : list Z) (min_size : Z) (r : value) : Prop :=
  exists (id : Z) (members : list nat),
    field r "cluster_id" = Some (VInt id) /\
    field r "sequence_indices" = Some (VList (ClusterSequences.ints members)) /\
    field r "frequency" = Some (VInt (Z.of_nat (List.length members))) /\
    (min_size <= Z.of_nat (List.length members))%Z /\
    members = positions id 0 labels.

(** The sequence extractor in the words of the specification: the events
    of each session, sessions in the order of their first event, each
    session sorted by timestamp with ties in retrieval order, and the
    sessions whose length is outside the bounds dropped. *)
Definition sessions (events : list dict) : list value :=
  distinct (map SequenceProcessor.session_of events).

Definition session_events (events : list dict) (session : value) : list dict :=
  filter (fun e => key_eqb session (SequenceProcessor.session_of e)) events.

Definition timestamp_text (e : dict) : string :=
  match SequenceProcessor.timestamp_key e with VStr s => s | _ => "" end.

Definition earlier (e1 e2 : dict) : bool :=
  String.ltb (timestamp_text e1) (timestamp_text e2).

Definition extract (events : list dict) (min_len max_len : Z) : list (list dict) :=
  filter (SequenceProcessor.within min_len max_len)
         (map (fun session => sort_by earlier (session_events events session))
              (sessions events)).

(** The timestamp of the event is text (or missing, which counts as ''). *)
Definition textual (e : dict) : Prop :=
  exists s, SequenceProcessor.timestamp_key e = VStr s.

(** An event that the extractor is specified for: its session id can be a
    dict key and its timestamp is text or missing. *)
Definition regular_event (e : dict) : bool :=
  hashable (SequenceProcessor.session_of e)
  && match SequenceProcessor.timestamp_key e with VStr _ => true | _ => false end.

(** The Behavioral Library artifact has the five keys of the data model. *)
Definition is_library (doc : value) : bool :=
  match doc with
  | VDict d => has_key d "workspace_path" && has_key d "total_sequences"
               && has_key d "clusters_found" && has_key d "behavioral_library"
               && has_key d "clustering_metadata"
  | _ => false
  end.

(** The legacy shapes of a context payload.  An entry is a path string or
    an object whose [path] and [fileName] are strings or null; the payload
    is a plain list of entries, or an object holding a list of objects
    under [attachedFiles] or [codebaseFiles], or a list of entries under
    [files] (when several keys are present, the first of these three). *)
Definition text_or_null (v : value) : bool :=
  match v with VNone | VStr _ => true | _ => false end.

Definition is_file_object (v : value) : bool :=
  match v with
  | VDict d => text_or_null (get d "path") && text_or_null (get d "fileName")
  | _ => false
  end.

Definition is_entry (v : value) : bool :=
  match v with VStr _ => true | _ => is_file_object v end.

Definition entries_if (ok : value -> bool) (v : value) : option (list value) :=
  match v with
  | VList l => if forallb ok l then Some l else None
  | _ => None
  end.

Definition legacy_entries (context : value) : option (list value) :=
  match context with
  | VList _ => entries_if is_entry context
  | VDict d =>
      match lookup d "attachedFiles" with
      | Some fs => entries_if is_file_object fs
      | None =>
          match lookup d "codebaseFiles" with
          | Some fs => entries_if is_file_object fs
          | None =>
              match lookup d "files" with
              | Some fs => entries_if is_entry fs
              | None => None
              end
          end
      end
  | _ => None
  end.

(** The payload of a prompt: the [context_files_json] field, or the
    document that its text parses to. *)
Definition payload (json_loads : string -> result value) (field : value)
  : option value :=
  match field with
  | VStr s => if s =? "" then None
              else match json_loads s with Ok c => Some c | Raise _ => None end
  | _ => Some field
  end.

(** The path an entry names; the empty string when it names none. *)
Definition text (v : value) : string :=
  match v with VStr s => s | _ => "" end.

Definition entry_path (v : value) : string :=
  match v with
  | VStr s => s
  | VDict d => if text (get d "path") =? "" then text (get d "fileName")
               else text (get d "path")
  | _ => ""
  end.

(** The flat list of path strings, null and empty entries dropped. *)
Definition normalized (entries : list value) : list value :=
  map VStr (filter (fun s => negb (s =? "")) (map entry_path entries)).

End Spec.

(* ================================================================== *)
(** * Sample inputs                                                     *)
(* ================================================================== *)

Module Samples.

(** A JSON parser that is never reached: the sample payloads are objects. *)
Definition no_json (s : string) : result value :=
  Raise (JSONDecodeError "Expecting value").


Definition repeated_prompt : dict :=
  [ ("id", VInt 1);
    ("context_files_json", VList [VStr "a.py"; VStr "a.py"; VStr "b.py"]) ].

Definition codebase_prompt : dict :=
  [ ("id", VInt 8);
    ("context_files_json",
     VDict [ ("codebaseFiles",
              VList [ VDict [("path", VNone); ("fileName", VStr "util.py")];
                      VDict [("path", VStr "")];
                      VDict [("path", VStr "main.py"); ("fileName", VStr "x")] ]) ]) ].





(** Two prompts, the one with id 2 a day after the one with id 1. *)
Definition two_prompt_store : DatabaseConnector :=
  {| prompts :=
       [ [ ("id", VInt 1); ("timestamp", VStr "2024-01-01T00:00:00");
           ("context_files_json", VList [VStr "a.py"]) ];
         [ ("id", VInt 2); ("timestamp", VStr "2024-01-02T00:00:00");
           ("context_files_json", VList [VStr "a.py"]) ] ];
     entries_for_prompt := fun _ _ => [[("file_path", VStr "a.py")]];
     events_with_prompts := fun _ => [] |}.

(** [--prompt-id id] *)
Definition single_prompt_args (id : Z) : CalculateCp.args :=
  {| CalculateCp.workspace := VNone;
     CalculateCp.prompt_id := Some id;
     CalculateCp.baseline := false;
     CalculateCp.limit := 1000;
     CalculateCp.output := None |}.

(** Three events of one session; the second has a null timestamp. *)
Definition event (id : Z) (timestamp : value) : dict :=
  [ ("id", VInt id); ("type", VStr "edit"); ("timestamp", timestamp);
    ("session_id", VStr "s1") ].

Definition events_with_null : list dict :=
  [ event 1 (VStr "2024-01-01T00:00:02");
    event 2 VNone;
    event 3 (VStr "2024-01-01T00:00:01") ].

(** The same events, the second without a timestamp key. *)
Definition events_with_missing : list dict :=
  [ event 1 (VStr "2024-01-01T00:00:02");
    [ ("id", VInt 2); ("type", VStr "edit"); ("session_id", VStr "s1") ];
    event 3 (VStr "2024-01-01T00:00:01") ].

Definition processor_on (events : list dict) : SequenceProcessor.SequenceProcessor :=
  {| SequenceProcessor.db :=
       {| prompts := [];
          entries_for_prompt := fun _ _ => [];
          events_with_prompts := fun _ => events |};
     SequenceProcessor.vectorizer := Vectorizer.init defaults None |}.

(** A clustering library that is never reached. *)
Definition no_dtw (batch : list value) (k : Z) : result (list Z) :=
  Raise (LibraryError "not available").

Definition no_kmeans (batch : list (list value)) (k : Z) : result (list Z) :=
  Raise (LibraryError "not available").

(** A stand-in for scikit-learn's [KMeans] at the two points the examples
    need: it rejects a request for more clusters than samples, as the input
    check of scikit-learn does, and with one cluster it assigns every
    sample to cluster 0. *)
Definition checking_kmeans (batch : list (list value)) (k : Z) : result (list Z) :=
  let n := Z.of_nat (List.length batch) in
  if (n <? k)%Z
  then Raise (ValueError ("n_samples=" ++ string_of_Z n
                          ++ " should be >= n_clusters=" ++ string_of_Z k ++ "."))
  else if (k =? 1)%Z then Ok (repeat 0%Z (List.length batch))
  else Raise (LibraryError "not available").

(** A clustering that answers with given labels. *)
Definition labelling (labels : list Z) (batch : list (list value)) (k : Z)
  : result (list Z) := Ok labels.

(** A vectorized event and batches of one-event sequences. *)
Definition vectorized_event (event_type : string) : value :=
  VDict [ ("event_type", VStr event_type);
          ("combined_vector", VList [VFloat 1; VFloat 0]) ].

Definition batch_of (n : nat) : value :=
  VDict [ ("sequences", VList (repeat (VList [vectorized_event "edit"]) n)) ].

Definition cluster_args (k min : Z) : ClusterSequences.args :=
  {| ClusterSequences.arg_method := ClusterSequences.kmeans;
     ClusterSequences.n_clusters := k;
     ClusterSequences.min_size := min;
     ClusterSequences.output := None |}.

(** The document that the script prints for four one-event sequences
    labelled 0, 1, 0, 0, with two clusters requested and a minimum size
    of 3. *)
Definition clustered_document : value :=
  Eval vm_compute in
    match ClusterSequences.main true no_dtw (labelling [0; 1; 0; 0]%Z)
            (cluster_args 2 3) (batch_of 4) with
    | Printed doc => doc
    | _ => VNone
    end.

(** An embedding service that answers every text. *)
Definition openrouter_config : config :=
  {| EMBEDDING_SERVICE := "openrouter";
     OPENROUTER_API_KEY := "key";
     HF_TOKEN := "";
     CLUSTERING_METHOD := "dtw";
     MIN_CLUSTER_SIZE := 3;
     MAX_CLUSTERS := 20;
     CP_TIME_WINDOW_SECONDS := 300;
     MIN_CP_THRESHOLD := 1 # 2 |}.

Definition answering_service (text : string) : result Vectorizer.embedding :=
  Ok [1 # 2; 1 # 4]%Q.

Definition edit_encoder : Vectorizer.EventVectorizer :=
  {| Vectorizer.event_type_map := [VStr "edit"; VStr "prompt"];
     Vectorizer.embedding_model := None;
     Vectorizer.embedding_cache := [] |}.

Definition empty_store : DatabaseConnector :=
  {| prompts := [];
     entries_for_prompt := fun _ _ => [];
     events_with_prompts := fun _ => [] |}.

End Samples.

(* ================================================================== *)
(** * Vocabulary of the further properties                              *)
(* ================================================================== *)

Module Props.

(** A value that is text. *)
Definition is_text (v : value) : Prop := exists s, v = VStr s.

(** The order of texts by code point. *)
Definition by_text (a b : value) : bool := String.ltb (Spec.text a) (Spec.text b).

(** The types that the events of a batch carry (empty and null ones
    dropped), one for each such event. *)
Definition types_of (events : list dict) : list value :=
  map (fun event => get event "type")
      (filter (fun event => truthy (get event "type")) events).

(** An event that the vectorizer is meant for: its type is text or null
    (or missing) and its prompt id can be a dict key. *)
Definition encodable (e : dict) : bool :=
  Spec.text_or_null (get e "type") && hashable (get e "prompt_id").

(** The last event of a batch that stores a prompt text under a key equal
    to [k]. *)
Definition carries_prompt (k : value) (e : dict) : bool :=
  truthy (get e "prompt_id") && has_key e "prompt_text"
  && key_eqb (get e "prompt_id") k.

Definition last_prompt (events : list dict) (k : value) : option dict :=
  find (carries_prompt k) (rev events).

(** A batch of sequences of vectors, as the clustering functions get it. *)
Definition as_batch (seqs : list (list (list value))) : list value :=
  map (fun s => VList (map VList s)) seqs.

(** The length of the longest sequence of a batch. *)
Definition longest (seqs : list (list (list value))) : nat :=
  list_max (map (@List.length (list value)) seqs).

Definition zero_vector (width : nat) : list value := repeat (VFloat 0) width.

Definition is_empty (s : list (list value)) : bool :=
  match s with [] => true | _ :: _ => false end.

(** The distance between the length of sequence [idx] and [avg]. *)
Definition gap (all_sequences : list (list value)) (avg : Q) (idx : nat) : Q :=
  Qabs (inject_Z (Z.of_nat (List.length (nth idx all_sequences []))) - avg).

(** How often a value equal to [t] is listed. *)
Definition occurrences (t : value) (l : list value) : nat :=
  List.length (filter (key_eqb t) l).

(** The event types that the member sequences of a cluster carry (null and
    empty ones dropped), one for each such event, in order. *)
Definition event_type_field (event : value) : value :=
  match event with VDict d => get d "event_type" | _ => VNone end.

Definition cluster_event_types (all_sequences : list (list value))
    (cluster : list nat) : list value :=
  flat_map (fun idx => filter truthy
                         (map event_type_field (nth idx all_sequences [])))
           cluster.

(** A vectorized event whose type can be counted. *)
Definition typed_event (event : value) : bool :=
  match event with VDict d => hashable (get d "event_type") | _ => false end.

(** [counts] is the tally of the list [l]: its keys are pairwise different
    members of [l], each with the number of its occurrences, and every
    member of [l] is equal to a key. *)
Definition counted (counts : list (value * nat)) (l : list value) : Prop :=
  ForallOrdPairs apart (map fst counts) /\
  (forall kv, In kv counts ->
              In (fst kv) l /\ snd kv = occurrences (fst kv) l) /\
  (forall t, In t l -> exists kv, In kv counts /\ key_eqb (fst kv) t = true).

(** The ranking of [most_common]. *)
Definition more_common (a b : value * nat) : bool := (snd b <? snd a)%nat.

(** The clusters built from the labels of the sequences before [idx]:
    none is empty, their members are below [idx], and they are listed in
    the order of their first members. *)
Definition first_member (c : Z * list nat) : nat := hd 0%nat (snd c).

Definition ordered_clusters (idx : nat) (clusters : list (Z * list nat)) : Prop :=
  Forall (fun c => snd c <> [] /\ Forall (fun i => (i < idx)%nat) (snd c)) clusters /\
  StronglySorted (fun c1 c2 => (first_member c1 < first_member c2)%nat) clusters.

(** The one-hot code of a type, the prompt text that the prompts map holds
    for an event, and the vectorized event, written as values. *)
Definition one_hot (enc : Vectorizer.EventVectorizer) (t : value) : list Q :=
  let zeros := repeat 0%Q (List.length (Vectorizer.event_type_map enc)) in
  match Vectorizer.index_of (Vectorizer.event_type_map enc) t with
  | Some i => Vectorizer.set_one i zeros
  | None => zeros
  end.

Definition prompt_text_of (prompts : Vectorizer.prompts_map) (e : dict) : value :=
  if truthy (get e "prompt_id")
  then match Vectorizer.map_lookup prompts (get e "prompt_id") with
       | Some p => get p "text"
       | None => VNone
       end
  else VNone.

Definition combined (enc : Vectorizer.EventVectorizer) (e : dict) : list value :=
  Vectorizer.floats (one_hot enc (get_default e "type" (VStr "")))
  ++ Vectorizer.placeholder.

Definition vectorized (enc : Vectorizer.EventVectorizer)
    (prompts : Vectorizer.prompts_map) (e : dict) : value :=
  VDict [ ("event_id", get e "id");
          ("timestamp", get e "timestamp");
          ("event_type", get e "type");
          ("event_type_vector",
           VList (Vectorizer.floats (one_hot enc (get_default e "type" (VStr "")))));
          ("prompt_text", prompt_text_of prompts e);
          ("combined_vector", VList (combined enc e)) ].



(** The command line with [--method kmeans] in place of the method given. *)
Definition with_kmeans (a : ClusterSequences.args) : ClusterSequences.args :=
  {| ClusterSequences.arg_method := ClusterSequences.kmeans;
     ClusterSequences.n_clusters := ClusterSequences.n_clusters a;
     ClusterSequences.min_size := ClusterSequences.min_size a;
     ClusterSequences.output := ClusterSequences.output a |}.

(** The document with its [method] field set to [name]. *)
Definition reported_as (name : string) (doc : value) : value :=
  match doc with
  | VDict (("method", _) :: fields) => VDict (("method", VStr name) :: fields)
  | _ => doc
  end.

(** [item] is the vectorized form of the event [e] under the encoder
    [enc]: it carries the id and type of the event, and its vector is the
    one-hot code of the type (all zeros for an event without a type) followed
    by 768 zeros. *)
Definition encoded_as (enc : Vectorizer.EventVectorizer) (e : dict) (item : value)
  : Prop :=
  let n := List.length (Vectorizer.event_type_map enc) in
  Spec.field item "event_id" = Some (get e "id") /\
  Spec.field item "event_type" = Some (get e "type") /\
  exists one_hot : list Q,
    Spec.field item "event_type_vector" = Some (VList (Vectorizer.floats one_hot)) /\
    Spec.field item "combined_vector"
    = Some (VList (Vectorizer.floats one_hot ++ repeat (VFloat 0) 768)) /\
    List.length one_hot = n /\
    if truthy (get e "type")
    then exists i, Vectorizer.index_of (Vectorizer.event_type_map enc) (get e "type")
                   = Some i /\
                   forall j, nth j one_hot 0%Q = if (j =? i)%nat then 1%Q else 0%Q
    else one_hot = repeat 0%Q n.

End Props.

Import Props.

(* ================================================================== *)
(** * Further sample inputs                                             *)
(* ================================================================== *)

Module MoreSamples.

(** An attachedFiles payload whose second entry is a bare string. *)
Definition mixed_attached_prompt : dict :=
  [ ("id", VInt 3);
    ("context_files_json",
     VDict [ ("attachedFiles",
              VList [ VDict [("path", VStr "a.py")]; VStr "b.py" ]) ]) ].

(** Five events: two types, one event without a type, one with an empty
    type. *)
Definition typed_events : list dict :=
  [ [("id", VInt 1); ("type", VStr "prompt")];
    [("id", VInt 2); ("type", VStr "edit")];
    [("id", VInt 3)];
    [("id", VInt 4); ("type", VStr "")];
    [("id", VInt 5); ("type", VStr "prompt")] ].

(** A vectorizer made by [__init__] under the configuration. *)
Definition fresh_vectorizer (cfg : config) : Vectorizer.EventVectorizer :=
  Vectorizer.init cfg None.

(** A service that cannot be reached. *)
Definition failing_service (text : string) : result Vectorizer.embedding :=
  Raise (LibraryError "connection refused").

Definition local_config : config :=
  {| EMBEDDING_SERVICE := "local";
     OPENROUTER_API_KEY := "key";
     HF_TOKEN := "token";
     CLUSTERING_METHOD := "dtw";
     MIN_CLUSTER_SIZE := 3;
     MAX_CLUSTERS := 20;
     CP_TIME_WINDOW_SECONDS := 300;
     MIN_CP_THRESHOLD := 1 # 2 |}.

(** Three events of two prompts; the first and the last carry the same
    prompt id with different texts. *)
Definition prompted_events : list dict :=
  [ [("id", VInt 1); ("prompt_id", VInt 7); ("prompt_text", VStr "first text")];
    [("id", VInt 2); ("prompt_id", VInt 8); ("prompt_text", VStr "other")];
    [("id", VInt 3); ("prompt_id", VInt 7); ("prompt_text", VStr "last text")] ].

(** A configuration that keeps clusters of one sequence, and a stand-in
    for tslearn that puts every sequence in cluster 0. *)
Definition small_cluster_config : config :=
  {| EMBEDDING_SERVICE := "openrouter";
     OPENROUTER_API_KEY := "";
     HF_TOKEN := "";
     CLUSTERING_METHOD := "dtw";
     MIN_CLUSTER_SIZE := 1;
     MAX_CLUSTERS := 20;
     CP_TIME_WINDOW_SECONDS := 300;
     MIN_CP_THRESHOLD := 1 # 2 |}.

Definition one_cluster (batch : list value) (k : Z) : result (list Z) :=
  Ok (repeat 0%Z (List.length batch)).


(** The default configuration with k-means for the clustering method. *)
Definition kmeans_config : config :=
  {| EMBEDDING_SERVICE := "openrouter";
     OPENROUTER_API_KEY := "";
     HF_TOKEN := "";
     CLUSTERING_METHOD := "kmeans";
     MIN_CLUSTER_SIZE := 3;
     MAX_CLUSTERS := 20;
     CP_TIME_WINDOW_SECONDS := 300;
     MIN_CP_THRESHOLD := 1 # 2 |}.

(** [--method dtw --n-clusters 1 --min-size 1] *)
Definition dtw_args : ClusterSequences.args :=
  {| ClusterSequences.arg_method := ClusterSequences.dtw;
     ClusterSequences.n_clusters := 1;
     ClusterSequences.min_size := 1;
     ClusterSequences.output := None |}.

(** A k-means stand-in that answers only a request for 20 clusters as
    [checking_kmeans] does, and any other request with no labels. *)
Definition kmeans_at_20 (batch : list (list value)) (k : Z) : result (list Z) :=
  if (k =? 20)%Z then Samples.checking_kmeans batch 20 else Ok [].

End MoreSamples.

(* ================================================================== *)
(** * Facts about the built-ins                                         *)
(* ================================================================== *)

Lemma mapM_Forall2 (A B : Type) (f : A -> result B) (l : list A) (r : list B) :
  mapM f l = Ok r -> Forall2 (fun x y => f x = Ok y) l r.
Proof.
  revert r; induction l as [|x l IH]; simpl; intros r H.
  - inversion H; constructor.
  - destruct (f x) as [y|e] eqn:Hx; simpl in H; [|discriminate].
    destruct (mapM f l) as [ys|e] eqn:Hl; simpl in H; [|discriminate].
    inversion H; subst. constructor; auto.
Qed.

Lemma mapM_total (A B : Type) (f : A -> result B) (g : A -> B) (l : list A) :
  Forall (fun x => f x = Ok (g x)) l -> mapM f l = Ok (map g l).
Proof.
  induction 1 as [|x l Hx _ IH]; simpl; auto.
  rewrite Hx; simpl. rewrite IH; reflexivity.
Qed.

Lemma mapM_length (A B : Type) (f : A -> result B) (l : list A) (r : list B) :
  mapM f l = Ok r -> List.length r = List.length l.
Proof.
  intros H; apply mapM_Forall2 in H.
  induction H; simpl; congruence.
Qed.

Lemma filter_length_le (A : Type) (p : A -> bool) (l : list A) :
  (List.length (filter p l) <= List.length l)%nat.
Proof.
  induction l as [|x l IH]; simpl; [lia|].
  destruct (p x); simpl; lia.
Qed.


(** [==] on hashable objects is an equivalence. *)
Lemma Qeq_bool_sym (x y : Q) : Qeq_bool x y = Qeq_bool y x.
Proof.
  destruct (Qeq_bool x y) eqn:H1, (Qeq_bool y x) eqn:H2; auto.
  - apply Qeq_bool_iff in H1. symmetry in H1. apply Qeq_bool_iff in H1. congruence.
  - apply Qeq_bool_iff in H2. symmetry in H2. apply Qeq_bool_iff in H2. congruence.
Qed.

Lemma key_eqb_sym (a b : value) : key_eqb a b = key_eqb b a.
Proof.
  unfold key_eqb.
  destruct (num_of a) as [x|] eqn:Ha, (num_of b) as [y|] eqn:Hb; auto.
  - apply Qeq_bool_sym.
  - destruct a, b; try discriminate; auto using String.eqb_sym.
Qed.

Lemma key_eqb_trans (a b c : value) :
  key_eqb a b = true -> key_eqb b c = true -> key_eqb a c = true.
Proof.
  unfold key_eqb.
  destruct (num_of a) as [x|] eqn:Ha, (num_of b) as [y|] eqn:Hb,
           (num_of c) as [z|] eqn:Hc; try discriminate.
  - intros H1 H2. apply Qeq_bool_iff in H1, H2. apply Qeq_bool_iff.
    now rewrite H1.
  - destruct a, b; try discriminate; destruct c; try discriminate; auto.
    intros H1 H2. apply String.eqb_eq in H1, H2. apply String.eqb_eq. congruence.
Qed.

Lemma mem_filter_other (x y : value) (s : list value) :
  key_eqb x y = false ->
  mem x (filter (fun z => negb (key_eqb y z)) s) = mem x s.
Proof.
  intros Hxy. induction s as [|z s IH]; simpl; auto.
  destruct (key_eqb y z) eqn:Hyz; simpl.
  - rewrite IH. destruct (key_eqb x z) eqn:Hxz; auto.
    exfalso. rewrite key_eqb_sym in Hyz.
    rewrite (key_eqb_trans _ _ _ Hxz Hyz) in Hxy. discriminate.
  - rewrite IH. reflexivity.
Qed.

Lemma mem_distinct (x : value) (l : list value) : mem x (distinct l) = mem x l.
Proof.
  induction l as [|y l IH]; simpl; auto.
  destruct (key_eqb x y) eqn:Hxy; simpl; auto.
  rewrite mem_filter_other by assumption. exact IH.
Qed.

Lemma filter_ext_mem (D : list value) (C : list value) :
  filter (fun f => mem f (distinct D)) C = filter (fun f => mem f D) C.
Proof. apply filter_ext. intros f. apply mem_distinct. Qed.

(* ================================================================== *)
(** * Context precision                                                 *)
(* ================================================================== *)

Section CalculateCpFacts.

Import CalculateCp.

Variable json_loads : string -> result value.

(** The score that [calculate_cp] puts in its record: the entries of the
    context list that are diff files, counted as often as they are listed,
    over the length of the list. *)
Lemma calculate_cp_score (prompt : dict) (D : list value) (r : value) :
  calculate_cp json_loads prompt D = Ok r ->
  let C := extract_context_files json_loads prompt in
  record_cp r = match C with
                | [] => 0%Q
                | _ => div_len (List.length (filter (fun f => mem f D) C))
                               (List.length C)
                end.
Proof.
  intros H C. unfold calculate_cp in H. fold C in H.
  destruct C as [|c C'] eqn:HC.
  - inversion H; reflexivity.
  - unfold py_set in H.
    destruct (forallb hashable (c :: C'));
      cbv beta iota delta [bind] in H; [|discriminate].
    destruct (forallb hashable D);
      cbv beta iota delta [bind] in H; [|discriminate].
    rewrite filter_ext_mem in H.
    inversion H; subst r; clear H. reflexivity.
Qed.


(** An empty context list gives the record with score 0 and zero counts. *)
Lemma calculate_cp_empty_context (prompt : dict) (D : list value) :
  extract_context_files json_loads prompt = [] ->
  calculate_cp json_loads prompt D =
    Ok (VDict [ ("prompt_id", get prompt "id");
                ("cp", VFloat 0);
                ("context_file_count", VInt 0);
                ("diff_file_count", VInt (Z.of_nat (List.length D)));
                ("intersection_count", VInt 0);
                ("context_files", VList []);
                ("diff_files", VList D);
                ("unused_context_files", VList []) ]).
Proof. unfold calculate_cp. intros ->. reflexivity. Qed.

(** On a context list without repeated entries the score is the set
    formula of the specification. *)
Lemma calculate_cp_without_repeats (prompt : dict) (D : list value) (r : value) :
  calculate_cp json_loads prompt D = Ok r ->
  distinct (extract_context_files json_loads prompt)
    = extract_context_files json_loads prompt ->
  record_cp r = Spec.cp (extract_context_files json_loads prompt) D.
Proof.
  intros H Hd. rewrite (calculate_cp_score _ _ H).
  unfold Spec.cp. rewrite Hd.
  destruct (extract_context_files json_loads prompt); reflexivity.
Qed.

End CalculateCpFacts.

(** C1, evaluated where the code and the set formula part.  The context
    payload lists a.py twice and b.py once, and a.py is the only file
    changed: [calculate_cp] counts the entry a.py twice and answers 2/3
    (with [intersection_count] 2 and [context_file_count] 3), whereas
    [|C ∩ D| / |C|] over the sets {a.py, b.py} and {a.py} is 1/2. *)
Theorem calculate_cp_counts_repeated_entries :
  forall json_loads : string -> result value,
    let C := [VStr "a.py"; VStr "a.py"; VStr "b.py"] in
    let D := [VStr "a.py"] in
    CalculateCp.extract_context_files json_loads Samples.repeated_prompt = C /\
    (exists r,
        CalculateCp.calculate_cp json_loads Samples.repeated_prompt D = Ok r /\
        CalculateCp.record_cp r = (2 # 3)%Q /\
        match r with
        | VDict d => lookup d "intersection_count" = Some (VInt 2) /\
                     lookup d "context_file_count" = Some (VInt 3)
        | _ => False
        end) /\
    Spec.cp C D = (1 # 2)%Q.
Proof.
  intros json_loads C D. split; [reflexivity|]. split; [|reflexivity].
  eexists. split; [reflexivity|]. split; [reflexivity|]. split; reflexivity.
Qed.

(* ================================================================== *)
(** * Normalisation of the context payload                              *)
(* ================================================================== *)

Section ExtractContextFilesFacts.

Import CalculateCp.

Variable json_loads : string -> result value.

Lemma path_of_object (v : value) :
  Spec.is_file_object v = true -> path_of v = Ok (raw_entry v).
Proof. destruct v; simpl; try discriminate; reflexivity. Qed.

Lemma str_or_path_of_entry (v : value) :
  Spec.is_entry v = true -> str_or_path_of v = Ok (raw_entry v).
Proof. destruct v; simpl; try discriminate; reflexivity. Qed.

Lemma is_file_object_entry (v : value) :
  Spec.is_file_object v = true -> Spec.is_entry v = true.
Proof. destruct v; simpl; auto; discriminate. Qed.

Lemma raw_entry_kept (v : value) :
  Spec.is_entry v = true ->
  filter truthy [raw_entry v] = Spec.normalized [v].
Proof.
  destruct v; simpl; try discriminate.
  - intros _. unfold Spec.normalized; simpl. destruct (s =? ""); reflexivity.
  - unfold Spec.normalized, py_or; simpl.
    destruct (get d "path") eqn:Hp; simpl; try discriminate;
      destruct (get d "fileName") eqn:Hf; simpl; try discriminate; intros _;
      repeat match goal with
             | |- context [(?s =? "")%string] => destruct (s =? "")%string eqn:?; simpl
             end; try reflexivity; try congruence.
Qed.

Lemma normalized_cons (v : value) (l : list value) :
  Spec.normalized (v :: l) = Spec.normalized [v] ++ Spec.normalized l.
Proof.
  unfold Spec.normalized; simpl.
  destruct (negb (Spec.entry_path v =? "")); reflexivity.
Qed.

Lemma raw_entries_kept (l : list value) :
  forallb Spec.is_entry l = true ->
  filter truthy (map raw_entry l) = Spec.normalized l.
Proof.
  induction l as [|v l IH]; simpl; intros H; [reflexivity|].
  apply andb_prop in H; destruct H as [Hv Hl].
  rewrite normalized_cons, <- (raw_entry_kept _ Hv), <- (IH Hl).
  simpl. destruct (truthy (raw_entry v)); reflexivity.
Qed.

Lemma forallb_weaken (A : Type) (p q : A -> bool) (l : list A) :
  (forall x, p x = true -> q x = true) -> forallb p l = true -> forallb q l = true.
Proof.
  intros Hpq. induction l as [|x l IH]; simpl; auto.
  intros H; apply andb_prop in H; destruct H as [Hx Hl].
  rewrite (Hpq _ Hx), (IH Hl); reflexivity.
Qed.

Lemma mapM_entries (f : value -> result value) (ok : value -> bool) (l : list value) :
  (forall v, ok v = true -> f v = Ok (raw_entry v)) ->
  forallb ok l = true -> mapM f l = Ok (map raw_entry l).
Proof.
  intros Hf H. apply mapM_total. rewrite forallb_forall in H.
  apply Forall_forall. intros v Hv. apply Hf, H, Hv.
Qed.

(** The [try] block on a payload of one of the legacy shapes. *)
Lemma context_entries_legacy (context : value) (entries : list value) :
  Spec.legacy_entries context = Some entries ->
  (forall field, Spec.payload json_loads field = Some context ->
                 context_entries json_loads field = Ok (Spec.normalized entries)).
Proof.
  intros Hshape field Hfield.
  assert (Hload : match field with
                  | VStr s => json_loads s
                  | _ => Ok field
                  end = Ok context).
  { destruct field; simpl in Hfield; try (inversion Hfield; reflexivity).
    destruct (s =? ""); [discriminate|].
    destruct (json_loads s); inversion Hfield; reflexivity. }
  unfold context_entries. rewrite Hload. cbv beta iota delta [bind].
  assert (Hlist : forall ok fs f,
             Spec.entries_if ok fs = Some entries ->
             (forall v, ok v = true -> Spec.is_entry v = true) ->
             (forall v, ok v = true -> f v = Ok (raw_entry v)) ->
             match (match py_iter fs with
                    | Ok items => mapM f items
                    | Raise e => Raise e
                    end) with
             | Ok files => Ok (filter truthy files)
             | Raise e => Raise e
             end = Ok (Spec.normalized entries)).
  { intros ok fs f Hfs Hentry Hf. destruct fs; simpl in Hfs; try discriminate.
    destruct (forallb ok l) eqn:Hok; inversion Hfs; subst l. simpl.
    rewrite (mapM_entries f ok entries Hf Hok).
    rewrite raw_entries_kept; [reflexivity|].
    eapply forallb_weaken; eauto. }
  destruct context; simpl in Hshape; try discriminate.
  - destruct (forallb Spec.is_entry l) eqn:Hok; inversion Hshape; subst l.
    rewrite (mapM_entries str_or_path_of Spec.is_entry entries
               str_or_path_of_entry Hok).
    rewrite raw_entries_kept by assumption. reflexivity.
  - destruct (lookup d "attachedFiles") as [fs|].
    { exact (Hlist _ fs path_of Hshape is_file_object_entry path_of_object). }
    destruct (lookup d "codebaseFiles") as [fs|].
    { exact (Hlist _ fs path_of Hshape is_file_object_entry path_of_object). }
    destruct (lookup d "files") as [fs|]; [|discriminate].
    exact (Hlist _ fs str_or_path_of Hshape (fun v H => H) str_or_path_of_entry).
Qed.

Lemma normalized_of_falsy (field : value) (entries : list value) :
  truthy field = false -> Spec.legacy_entries field = Some entries ->
  Spec.normalized entries = [].
Proof.
  destruct field; simpl; try discriminate.
  - destruct l; [|discriminate]. intros _ H; inversion H; reflexivity.
  - destruct d; [|discriminate]. discriminate.
Qed.


End ExtractContextFilesFacts.



(* ================================================================== *)
(** * Baseline statistics                                               *)
(* ================================================================== *)

Section SortByFacts.

Variables (A : Type) (ltb : A -> A -> bool).

Lemma insert_by_perm (x : A) (l : list A) : Permutation (insert_by ltb x l) (x :: l).
Proof.
  induction l as [|y l IH]; simpl; [reflexivity|].
  destruct (ltb y x); [|reflexivity].
  rewrite IH. apply perm_swap.
Qed.

Lemma sort_by_perm (l : list A) : Permutation (sort_by ltb l) l.
Proof.
  induction l as [|x l IH]; simpl; [reflexivity|].
  rewrite insert_by_perm. now constructor.
Qed.

Lemma sort_by_length (l : list A) : List.length (sort_by ltb l) = List.length l.
Proof. apply Permutation_length, sort_by_perm. Qed.

End SortByFacts.

Lemma Qltb_true (a b : Q) : CalculateCp.Qltb a b = true -> (a < b)%Q.
Proof.
  unfold CalculateCp.Qltb. intros H. apply negb_true_iff in H.
  apply Qnot_le_lt. intros Hle. apply Qle_bool_iff in Hle. congruence.
Qed.

Lemma Qltb_false (a b : Q) : CalculateCp.Qltb a b = false -> (b <= a)%Q.
Proof.
  unfold CalculateCp.Qltb. intros H. apply negb_false_iff in H.
  now apply Qle_bool_iff.
Qed.















(** C10.  When the store returns no prompt for a baseline run,
    [calculate_baseline_cp] returns the all-zero statistics with count 0
    and an empty distribution, and raises nothing. *)
Theorem baseline_of_no_prompts :
  forall (json_loads : string -> result value) (cfg : config)
         (db : DatabaseConnector) (ws : value) (limit : Z),
    get_prompts db ws (Some limit) = [] ->
    CalculateCp.calculate_baseline_cp json_loads cfg db ws limit =
      Ok (VDict [ ("average", VFloat 0); ("median", VFloat 0);
                  ("min", VFloat 0); ("max", VFloat 0);
                  ("count", VInt 0); ("distribution", VDict []) ]).
Proof.
  intros json_loads cfg db ws limit H.
  unfold CalculateCp.calculate_baseline_cp, CalculateCp.baseline_records.
  rewrite H. reflexivity.
Qed.

Lemma baseline_of_no_prompts_witness :
  CalculateCp.calculate_baseline_cp Samples.no_json defaults
    Samples.empty_store VNone 1000 =
    Ok (VDict [ ("average", VFloat 0); ("median", VFloat 0);
                ("min", VFloat 0); ("max", VFloat 0);
                ("count", VInt 0); ("distribution", VDict []) ]).
Proof.
  apply (baseline_of_no_prompts Samples.no_json defaults
           Samples.empty_store VNone 1000).
  reflexivity.
Defined.

(* ================================================================== *)
(** * The single-prompt operation                                       *)
(* ================================================================== *)

(** In single-prompt mode [main] asks the store for one prompt only
    ([get_prompts(limit=1)]): when the earliest prompt does not carry the
    requested id, the run ends with "not found". *)
Lemma single_prompt_sees_first_only json_loads cfg db (a : CalculateCp.args) (id : Z) :
  CalculateCp.prompt_id a = Some id -> id <> 0%Z ->
  CalculateCp.find_prompt (get_prompts db VNone (Some 1%Z)) id = None ->
  CalculateCp.main json_loads cfg (Ok db) a
    = Exit 1 ("[ERROR] Prompt " ++ string_of_Z id ++ " not found").
Proof.
  intros Hid Hnz Hfind. unfold CalculateCp.main. rewrite Hid.
  apply Z.eqb_neq in Hnz. rewrite Hnz, Hfind. reflexivity.
Qed.

(** C9, evaluated on a store with two prompts.  The prompt with id 2 is in
    the store, yet [--prompt-id 2] ends with exit status 1 and the message
    "[ERROR] Prompt 2 not found": only the earliest prompt, id 1, is
    fetched.  [--prompt-id 1] prints the record of prompt 1. *)
Theorem single_prompt_misses_stored_prompt :
  forall (json_loads : string -> result value) (cfg : config),
    let db := Samples.two_prompt_store in
    (exists p, In p (prompts db) /\ get p "id" = VInt 2) /\
    CalculateCp.main json_loads cfg (Ok db) (Samples.single_prompt_args 2)
      = Exit 1 "[ERROR] Prompt 2 not found" /\
    (exists d,
        CalculateCp.main json_loads cfg (Ok db) (Samples.single_prompt_args 1)
          = Printed (VDict d) /\
        lookup d "prompt_id" = Some (VInt 1) /\
        lookup d "cp" = Some (VFloat 1)).
Proof.
  intros json_loads cfg db. split; [|split].
  - eexists. split; [right; left; reflexivity | reflexivity].
  - reflexivity.
  - eexists. split; [reflexivity|]. split; reflexivity.
Qed.

(* ================================================================== *)
(** * The sequence extractor and the library builder                    *)
(* ================================================================== *)

(** C5, evaluated on a session of three events whose second timestamp is
    null.  The key function [e.get('timestamp', '')] substitutes the empty
    string only for a missing key; the null stays [None], the sort compares
    it with a string and [extract_sequences] ends with a TypeError.  With
    the key missing instead, the event is sorted first, which is what the
    specification asks for in both cases. *)
Theorem extract_sequences_null_timestamp_raises :
  SequenceProcessor.timestamp_key (Samples.event 2 VNone) = VNone /\
  SequenceProcessor.extract_sequences
    (Samples.processor_on Samples.events_with_null) VNone 3 50
    = Raise (TypeError "'<' not supported between instances") /\
  SequenceProcessor.extract_sequences
    (Samples.processor_on Samples.events_with_missing) VNone 3 50
    = Ok [ [ [ ("id", VInt 2); ("type", VStr "edit"); ("session_id", VStr "s1") ];
             Samples.event 3 (VStr "2024-01-01T00:00:01");
             Samples.event 1 (VStr "2024-01-01T00:00:02") ] ].
Proof. repeat split; reflexivity. Qed.

(** C3 as stated fails on a store without events: the answer has neither
    [clusters_found] nor any other key of the library artifact. *)
Lemma build_behavioral_library_empty_is_no_library :
  exists d,
    SequenceProcessor.build_behavioral_library defaults true
      Samples.no_dtw Samples.no_kmeans (Samples.processor_on []) VNone None
      = Ok (VDict d) /\
    lookup d "clusters_found" = None /\
    Spec.is_library (VDict d) = false.
Proof. eexists. repeat split; reflexivity. Qed.

(** C3, amended.  When zero sequences are extracted,
    [build_behavioral_library] does not fail and returns the two-key answer
    {error: "No sequences found", library: []}; the keys of the library
    artifact, [clusters_found] among them, are absent from it. *)
Theorem build_behavioral_library_no_sequences :
  forall (cfg : config) (HAS_TSLEARN : bool)
         (dtw_fit_predict : list value -> Z -> result (list Z))
         (kmeans_fit_predict : list (list value) -> Z -> result (list Z))
         (self : SequenceProcessor.SequenceProcessor) (ws : value)
         (min_cp : option Q),
    SequenceProcessor.extract_sequences self ws 3 50 = Ok [] ->
    SequenceProcessor.build_behavioral_library cfg HAS_TSLEARN
      dtw_fit_predict kmeans_fit_predict self ws min_cp
      = Ok (VDict [ ("error", VStr "No sequences found");
                    ("library", VList []) ]) /\
    lookup [ ("error", VStr "No sequences found"); ("library", VList []) ]
           "clusters_found" = None.
Proof.
  intros cfg has dtwf kmf self ws min_cp H.
  unfold SequenceProcessor.build_behavioral_library. rewrite H.
  split; reflexivity.
Qed.

Lemma build_behavioral_library_no_sequences_witness :
  SequenceProcessor.build_behavioral_library defaults true
    Samples.no_dtw Samples.no_kmeans (Samples.processor_on []) VNone None
    = Ok (VDict [ ("error", VStr "No sequences found");
                  ("library", VList []) ]).
Proof.
  apply (build_behavioral_library_no_sequences defaults true
           Samples.no_dtw Samples.no_kmeans (Samples.processor_on []) VNone None).
  reflexivity.
Defined.

(* ================================================================== *)
(** * The event vectorizer                                              *)
(* ================================================================== *)

Lemma set_one_length (i : nat) (v : list Q) :
  List.length (Vectorizer.set_one i v) = List.length v.
Proof.
  revert i; induction v as [|x v IH]; intros [|i]; simpl; auto.
Qed.

Lemma one_hot_encode_total (self : Vectorizer.EventVectorizer) (event_type : value) :
  Vectorizer.event_type_map self = [] \/ hashable event_type = true ->
  exists one_hot,
    Vectorizer.one_hot_encode_event_type self event_type = Ok one_hot /\
    List.length one_hot = List.length (Vectorizer.event_type_map self) /\
    (Vectorizer.index_of (Vectorizer.event_type_map self) event_type = None ->
     one_hot = repeat 0%Q (List.length (Vectorizer.event_type_map self))).
Proof.
  unfold Vectorizer.one_hot_encode_event_type.
  destruct (Vectorizer.event_type_map self) as [|k keys] eqn:Hmap.
  - intros _. exists []. repeat split; reflexivity.
  - intros [H|H]; [discriminate|]. rewrite H.
    destruct (Vectorizer.index_of (k :: keys) event_type) as [i|] eqn:Hi.
    + eexists. split; [reflexivity|]. split; [|discriminate].
      rewrite set_one_length, repeat_length. reflexivity.
    + eexists. split; [reflexivity|]. split; [|reflexivity].
      apply repeat_length.
Qed.

(** C4 as stated fails where an embedding is obtainable: the configured
    service answers the prompt text with an embedding, and the vector of the
    event still ends with the 768 zeros, not with that embedding. *)
Lemma vectorize_event_ignores_available_embedding :
  exists (e : Vectorizer.embedding) (d : dict),
    fst (Vectorizer.embed_text Samples.openrouter_config true
           Samples.answering_service Samples.answering_service
           Samples.edit_encoder "fix the bug") = Some e /\
    Vectorizer.vectorize_event Samples.edit_encoder
      (Samples.event 1 (VStr "2024-01-01T00:00:02")) (VStr "fix the bug")
      = Ok (VDict d) /\
    lookup d "combined_vector"
      = Some (VList (Vectorizer.floats [1; 0]%Q ++ Vectorizer.placeholder)) /\
    Vectorizer.floats [1; 0]%Q ++ Vectorizer.placeholder
      <> Vectorizer.floats [1; 0]%Q ++ Vectorizer.floats e.
Proof.
  eexists. eexists. split; [reflexivity|]. split; [reflexivity|].
  split; [reflexivity|].
  intros H. apply (f_equal (@List.length value)) in H.
  vm_compute in H. discriminate.
Qed.

(** C4, amended.  For every event whose type is a string, a number or null
    (or with an encoder that is still empty) and for every prompt text,
    [vectorize_event] returns the one-hot sub-vector of the event type (as
    long as the encoder, all zeros when the type is absent from it)
    followed by 768 zeros.  The function takes no embedding provider: the
    semantic part is the all-zero placeholder whether or not an embedding
    could be obtained, and no provider failure can reach it. *)
Theorem vectorize_event_appends_placeholder :
  forall (self : Vectorizer.EventVectorizer) (event : dict) (prompt_text : value),
    Vectorizer.event_type_map self = [] \/
    hashable (get_default event "type" (VStr "")) = true ->
    exists one_hot : list Q,
      Vectorizer.one_hot_encode_event_type self (get_default event "type" (VStr ""))
        = Ok one_hot /\
      List.length one_hot = List.length (Vectorizer.event_type_map self) /\
      (Vectorizer.index_of (Vectorizer.event_type_map self)
         (get_default event "type" (VStr "")) = None ->
       one_hot = repeat 0%Q (List.length (Vectorizer.event_type_map self))) /\
      Vectorizer.vectorize_event self event prompt_text
        = Ok (VDict [ ("event_id", get event "id");
                      ("timestamp", get event "timestamp");
                      ("event_type", get event "type");
                      ("event_type_vector", VList (Vectorizer.floats one_hot));
                      ("prompt_text", prompt_text);
                      ("combined_vector",
                       VList (Vectorizer.floats one_hot
                              ++ repeat (VFloat 0) 768)) ]).
Proof.
  intros self event prompt_text H.
  destruct (one_hot_encode_total self _ H) as (one_hot & Hv & Hlen & Hzero).
  exists one_hot. repeat split; auto.
  unfold Vectorizer.vectorize_event. rewrite Hv. reflexivity.
Qed.

(** An event of a type that the encoder does not know, with a prompt text. *)
Lemma vectorize_event_appends_placeholder_witness :
  exists one_hot : list Q,
    one_hot = [0; 0]%Q /\
    Vectorizer.vectorize_event Samples.edit_encoder
      [("id", VInt 9); ("type", VStr "terminal")] (VStr "fix the bug")
      = Ok (VDict [ ("event_id", VInt 9);
                    ("timestamp", VNone);
                    ("event_type", VStr "terminal");
                    ("event_type_vector", VList (Vectorizer.floats one_hot));
                    ("prompt_text", VStr "fix the bug");
                    ("combined_vector",
                     VList (Vectorizer.floats one_hot
                            ++ repeat (VFloat 0) 768)) ]).
Proof.
  destruct (vectorize_event_appends_placeholder Samples.edit_encoder
              [("id", VInt 9); ("type", VStr "terminal")] (VStr "fix the bug")
              (or_intror eq_refl))
    as (one_hot & _ & _ & Hzero & Hv).
  exists one_hot. split; [exact (Hzero eq_refl) | exact Hv].
Defined.

(* ================================================================== *)
(** * The clustering script                                             *)
(* ================================================================== *)

Section OrganizeFacts.

Import ClusterSequences.

Lemma members_of_add_member (clusters : list (Z * list nat)) (label l : Z) (idx : nat) :
  members_of (add_member clusters label idx) l
    = if (l =? label)%Z then members_of clusters l ++ [idx]
      else members_of clusters l.
Proof.
  induction clusters as [|[k ms] clusters IH]; simpl.
  - rewrite (Z.eqb_sym label l). destruct (l =? label)%Z; reflexivity.
  - destruct (k =? label)%Z eqn:Hk; simpl.
    + apply Z.eqb_eq in Hk; subst k.
      rewrite (Z.eqb_sym label l). destruct (l =? label)%Z; reflexivity.
    + destruct (k =? l)%Z eqn:Hkl; [|exact IH].
      apply Z.eqb_eq in Hkl; subst k. rewrite Hk. reflexivity.
Qed.

Lemma keys_add_member (clusters : list (Z * list nat)) (label : Z) (idx : nat) (k : Z) :
  In k (map fst (add_member clusters label idx))
  <-> k = label \/ In k (map fst clusters).
Proof.
  induction clusters as [|[k' ms] clusters IH]; simpl.
  - intuition.
  - destruct (k' =? label)%Z eqn:Hk; simpl.
    + apply Z.eqb_eq in Hk; subst k'. intuition.
    + rewrite IH. intuition.
Qed.

Lemma NoDup_add_member (clusters : list (Z * list nat)) (label : Z) (idx : nat) :
  NoDup (map fst clusters) -> NoDup (map fst (add_member clusters label idx)).
Proof.
  induction clusters as [|[k ms] clusters IH]; simpl; intros H.
  - repeat constructor. intros [].
  - inversion H as [|? ? Hk Hrest]; subst.
    destruct (k =? label)%Z eqn:Hkl; simpl.
    + constructor; assumption.
    + constructor; [|apply IH, Hrest].
      rewrite keys_add_member. intros [E|Hin]; [|contradiction].
      subst k. rewrite Z.eqb_refl in Hkl. discriminate.
Qed.

Lemma members_of_organize_from (labels : list Z) :
  forall (idx : nat) (clusters : list (Z * list nat)) (l : Z),
    members_of (organize_from idx labels clusters) l
      = members_of clusters l ++ Spec.positions l idx labels.
Proof.
  induction labels as [|label labels IH]; intros idx clusters l; simpl.
  - rewrite app_nil_r. reflexivity.
  - rewrite IH, members_of_add_member.
    rewrite (Z.eqb_sym label l).
    destruct (l =? label)%Z; [rewrite <- app_assoc|]; reflexivity.
Qed.

Lemma NoDup_organize_from (labels : list Z) :
  forall (idx : nat) (clusters : list (Z * list nat)),
    NoDup (map fst clusters) ->
    NoDup (map fst (organize_from idx labels clusters)).
Proof.
  induction labels as [|label labels IH]; intros idx clusters H; simpl; auto.
  apply IH, NoDup_add_member, H.
Qed.

Lemma members_of_In (clusters : list (Z * list nat)) (l : Z) (ms : list nat) :
  NoDup (map fst clusters) -> In (l, ms) clusters -> members_of clusters l = ms.
Proof.
  induction clusters as [|[k ms'] clusters IH]; simpl; intros Hnd Hin; [contradiction|].
  inversion Hnd as [|? ? Hk Hrest]; subst.
  destruct Hin as [E|Hin].
  - inversion E; subst. rewrite Z.eqb_refl. reflexivity.
  - destruct (k =? l)%Z eqn:Hkl; [|auto].
    apply Z.eqb_eq in Hkl; subst k. exfalso. apply Hk.
    apply (in_map fst) in Hin. exact Hin.
Qed.

(** Every cluster that [organize] builds holds exactly the indices of the
    sequences that carry its label. *)
Lemma organize_members (labels : list Z) (l : Z) (ms : list nat) :
  In (l, ms) (organize labels) -> ms = Spec.positions l 0 labels.
Proof.
  intros Hin. unfold organize in *.
  rewrite <- (members_of_In _ _ _ (NoDup_organize_from labels 0 [] (NoDup_nil _)) Hin).
  apply members_of_organize_from.
Qed.

Lemma organize_keys_NoDup (labels : list Z) : NoDup (map fst (organize labels)).
Proof. apply NoDup_organize_from. constructor. Qed.

Lemma positions_In (l : Z) (labels : list Z) :
  forall (idx i : nat),
    In i (Spec.positions l idx labels)
    <-> (idx <= i)%nat /\ nth_error labels (i - idx) = Some l.
Proof.
  induction labels as [|k labels IH]; intros idx i; simpl.
  - split; [intros [] | intros [_ H]]. destruct (i - idx)%nat; discriminate.
  - destruct (k =? l)%Z eqn:Hk; simpl; rewrite IH.
    + apply Z.eqb_eq in Hk; subst k. split.
      * intros [E|[Hle Hn]].
        -- subst i. split; [lia|]. rewrite Nat.sub_diag. reflexivity.
        -- split; [lia|]. replace (i - idx)%nat with (S (i - S idx)) by lia.
           exact Hn.
      * intros [Hle Hn]. destruct (i - idx)%nat as [|m] eqn:Hm.
        -- left; lia.
        -- right. split; [lia|]. replace (i - S idx)%nat with m by lia. exact Hn.
    + apply Z.eqb_neq in Hk. split.
      * intros [Hle Hn]. split; [lia|].
        replace (i - idx)%nat with (S (i - S idx)) by lia. exact Hn.
      * intros [Hle Hn]. destruct (i - idx)%nat as [|m] eqn:Hm.
        -- simpl in Hn. congruence.
        -- split; [lia|]. replace (i - S idx)%nat with m by lia. exact Hn.
Qed.

(** A sequence index carries one label only. *)
Lemma positions_disjoint (l1 l2 : Z) (labels : list Z) (i : nat) :
  In i (Spec.positions l1 0 labels) -> In i (Spec.positions l2 0 labels) -> l1 = l2.
Proof.
  rewrite !positions_In. intros [_ H1] [_ H2]. congruence.
Qed.

End OrganizeFacts.

Lemma Forall2_nth_error_right (A B : Type) (R : A -> B -> Prop)
    (l : list A) (r : list B) :
  Forall2 R l r ->
  forall (i : nat) (y : B), nth_error r i = Some y ->
    exists x, nth_error l i = Some x /\ R x y.
Proof.
  induction 1 as [|x y l r Hxy _ IH]; intros [|i] z Hz; simpl in *;
    try discriminate.
  - inversion Hz; subst. eauto.
  - apply IH, Hz.
Qed.

Lemma Forall2_In_right (A B : Type) (R : A -> B -> Prop)
    (l : list A) (r : list B) (y : B) :
  Forall2 R l r -> In y r -> exists x, In x l /\ R x y.
Proof.
  induction 1 as [|x y' l r Hxy _ IH]; simpl; intros Hin; [contradiction|].
  destruct Hin as [E|Hin].
  - subst. eauto.
  - destruct (IH Hin) as (x' & Hx' & HR). eauto.
Qed.

(** Dropping clusters leaves the labels distinct. *)
Lemma kept_keys_NoDup (keep : Z * list nat -> bool) (clusters : list (Z * list nat)) :
  NoDup (map fst clusters) -> NoDup (map fst (filter keep clusters)).
Proof.
  induction clusters as [|c clusters IH]; simpl; intros Hnd; [constructor|].
  apply NoDup_cons_iff in Hnd. destruct Hnd as [Hfresh Hrest].
  destruct (keep c); simpl; [|auto].
  apply NoDup_cons; [|auto].
  intros Hin. apply Hfresh. apply in_map_iff in Hin.
  destruct Hin as (c' & Hkey & Hc'). apply filter_In in Hc'.
  rewrite <- Hkey. apply in_map, Hc'.
Qed.

Lemma ints_injective (l1 l2 : list nat) :
  ClusterSequences.ints l1 = ClusterSequences.ints l2 -> l1 = l2.
Proof.
  revert l2; induction l1 as [|x l1 IH]; intros [|y l2] H; simpl in H;
    try discriminate; auto.
  inversion H as [[Hxy Hrest]]. apply Nat2Z.inj in Hxy.
  f_equal; auto.
Qed.

Lemma map_VInt_injective (l1 l2 : list Z) : map VInt l1 = map VInt l2 -> l1 = l2.
Proof.
  revert l2; induction l1 as [|x l1 IH]; intros [|y l2] H; simpl in H;
    try discriminate; auto.
  inversion H. f_equal; auto.
Qed.

(** The record of a cluster carries its label, its member indices and
    their number. *)
Lemma cluster_record_shape (all_sequences : list (list value)) (id : Z)
    (members : list nat) (r : value) :
  ClusterSequences.cluster_record all_sequences id members = Ok r ->
  exists representative metadata,
    r = VDict [ ("cluster_id", VInt id);
                ("frequency", VInt (Z.of_nat (List.length members)));
                ("representative_sequence", representative);
                ("sequence_indices", VList (ClusterSequences.ints members));
                ("metadata", metadata) ].
Proof.
  unfold ClusterSequences.cluster_record. intros H.
  cbv beta iota delta [bind] in H.
  repeat match type of H with
         | match ?m with Ok _ => _ | Raise _ => _ end = Ok _ =>
             destruct m eqn:?; [|discriminate]
         end.
  inversion H. eexists. eexists. reflexivity.
Qed.

Lemma build_library_record (min_size : Z) (all_sequences : list (list value))
    (labels : list Z) (c : Z * list nat) (r : value) :
  In c (filter (ClusterSequences.large_enough min_size)
               (ClusterSequences.organize labels)) ->
  ClusterSequences.cluster_record all_sequences (fst c) (snd c) = Ok r ->
  Spec.field r "cluster_id" = Some (VInt (fst c)) /\
  Spec.field r "sequence_indices" = Some (VList (ClusterSequences.ints (snd c))) /\
  Spec.field r "frequency" = Some (VInt (Z.of_nat (List.length (snd c)))) /\
  (min_size <= Z.of_nat (List.length (snd c)))%Z /\
  snd c = Spec.positions (fst c) 0 labels.
Proof.
  intros Hin Hr. apply filter_In in Hin. destruct Hin as [Hin Hlarge].
  destruct (cluster_record_shape _ _ _ Hr) as (rep & meta & ->).
  repeat split; try reflexivity.
  - unfold ClusterSequences.large_enough in Hlarge. apply Z.leb_le, Hlarge.
  - destruct c as [l ms]. apply organize_members, Hin.
Qed.

(** C6.  Whenever the clustering script emits a document, every Cluster
    record in it has a frequency of at least [min_size] (the number of its
    member indices, which are the sequences carrying its label), no sequence
    index is a member of two different records, and a label carried by fewer
    than [min_size] sequences has no record. *)
Theorem emitted_clusters_are_large_and_disjoint :
  forall (HAS_TSLEARN : bool)
         (dtw_fit_predict : list value -> Z -> result (list Z))
         (kmeans_fit_predict : list (list value) -> Z -> result (list Z))
         (a : ClusterSequences.args) (data doc : value),
    Spec.document (ClusterSequences.main HAS_TSLEARN dtw_fit_predict
                     kmeans_fit_predict a data) = Some doc ->
    exists (labels : list Z) (records : list value),
      Spec.field doc "cluster_assignments" = Some (VList (map VInt labels)) /\
      Spec.field doc "behavioral_library" = Some (VList records) /\
      Spec.field doc "clusters_found"
        = Some (VInt (Z.of_nat (List.length records))) /\
      Forall (Spec.cluster_of labels (ClusterSequences.min_size a)) records /\
      (forall (i j : nat) (ri rj : value) (mi mj : list nat) (idx : nat),
          i <> j ->
          nth_error records i = Some ri -> nth_error records j = Some rj ->
          Spec.field ri "sequence_indices"
            = Some (VList (ClusterSequences.ints mi)) ->
          Spec.field rj "sequence_indices"
            = Some (VList (ClusterSequences.ints mj)) ->
          In idx mi -> ~ In idx mj) /\
      (forall label : Z,
          (Z.of_nat (List.length (Spec.positions label 0 labels))
           < ClusterSequences.min_size a)%Z ->
          forall r, In r records ->
                    Spec.field r "cluster_id" <> Some (VInt label)).
Proof.
  intros has dtwf kmf a data doc H.
  unfold ClusterSequences.main in H.
  destruct (ClusterSequences.prepare data) as [[[[metadata items] alls] vecs]|e];
    [|discriminate].
  destruct (ClusterSequences.run_clustering has dtwf kmf a vecs) as [labels|e];
    [|discriminate].
  destruct (ClusterSequences.build_library (ClusterSequences.min_size a) alls
              (ClusterSequences.organize labels)) as [records|e] eqn:Hlib;
    [|discriminate].
  assert (Hdoc : doc = VDict
            [ ("method", VStr (ClusterSequences.method_name
                                 (ClusterSequences.arg_method a)));
              ("n_clusters", VInt (ClusterSequences.n_clusters a));
              ("min_size", VInt (ClusterSequences.min_size a));
              ("total_sequences", VInt (Z.of_nat (List.length items)));
              ("clusters_found", VInt (Z.of_nat (List.length records)));
              ("cluster_assignments", VList (map VInt labels));
              ("behavioral_library", VList records);
              ("metadata", metadata) ]).
  { unfold ClusterSequences.emit in H.
    destruct (ClusterSequences.output a) as [path|];
      [destruct (path =? "")|]; inversion H; reflexivity. }
  clear H. subst doc.
  unfold ClusterSequences.build_library in Hlib. apply mapM_Forall2 in Hlib.
  set (clusters := filter (ClusterSequences.large_enough (ClusterSequences.min_size a))
                          (ClusterSequences.organize labels)) in *.
  exists labels, records.
  split; [reflexivity|]. split; [reflexivity|]. split; [reflexivity|].
  split; [|split].
  - apply Forall_forall. intros r Hr.
    destruct (Forall2_In_right _ Hlib Hr) as (c & Hc & Hrec).
    destruct (build_library_record _ _ _ _ Hc Hrec) as (H1 & H2 & H3 & H4 & H5).
    exists (fst c), (snd c). auto.
  - intros i j ri rj mi mj idx Hij Hi Hj Hmi Hmj Hin1 Hin2.
    destruct (Forall2_nth_error_right Hlib _ Hi) as (ci & Hci & Hri).
    destruct (Forall2_nth_error_right Hlib _ Hj) as (cj & Hcj & Hrj).
    destruct (build_library_record _ _ _ _ (nth_error_In _ _ Hci) Hri)
      as (_ & Hsi & _ & _ & Hpi).
    destruct (build_library_record _ _ _ _ (nth_error_In _ _ Hcj) Hrj)
      as (_ & Hsj & _ & _ & Hpj).
    rewrite Hmi in Hsi. inversion Hsi as [Ei]. apply ints_injective in Ei.
    rewrite Hmj in Hsj. inversion Hsj as [Ej]. apply ints_injective in Ej.
    subst mi mj. rewrite Hpi in Hin1. rewrite Hpj in Hin2.
    pose proof (positions_disjoint _ _ _ _ Hin1 Hin2) as Hkey.
    apply Hij.
    assert (Hnd : NoDup (map fst clusters))
      by (apply kept_keys_NoDup, organize_keys_NoDup).
    rewrite NoDup_nth_error in Hnd. apply Hnd.
    + rewrite length_map. apply nth_error_Some. congruence.
    + rewrite !nth_error_map, Hci, Hcj. simpl. congruence.
  - intros label Hsmall r Hr Hid.
    destruct (Forall2_In_right _ Hlib Hr) as (c & Hc & Hrec).
    destruct (build_library_record _ _ _ _ Hc Hrec) as (H1 & _ & _ & H4 & H5).
    rewrite Hid in H1. inversion H1 as [E].
    rewrite H5, <- E in H4. lia.
Qed.

(** Four sequences labelled 0, 1, 0, 0 with a minimum size of 3: one
    record, for label 0. *)
Lemma emitted_clusters_are_large_and_disjoint_witness :
  exists (labels : list Z) (records : list value),
    labels = [0; 1; 0; 0]%Z /\
    List.length records = 1%nat /\
    Forall (Spec.cluster_of labels 3) records.
Proof.
  assert (Hrun : Spec.document
                   (ClusterSequences.main true Samples.no_dtw
                      (Samples.labelling [0; 1; 0; 0]%Z)
                      (Samples.cluster_args 2 3) (Samples.batch_of 4))
                 = Some Samples.clustered_document) by (vm_compute; reflexivity).
  destruct (emitted_clusters_are_large_and_disjoint _ _ _ _ _ Hrun)
    as (labels & records & Hl & _ & Hn & Hall & _).
  exists labels, records.
  change (Some (VList (map VInt [0; 1; 0; 0]%Z))
          = Some (VList (map VInt labels))) in Hl.
  change (Some (VInt (Z.of_nat 1))
          = Some (VInt (Z.of_nat (List.length records)))) in Hn.
  inversion Hl as [El]. inversion Hn as [En].
  split; [symmetry; exact (@map_VInt_injective [0; 1; 0; 0]%Z labels El)|].
  split; [symmetry; exact (Nat2Z.inj 1 (List.length records) En) | exact Hall].
Defined.

(** C2 as stated fails on a batch with fewer than two distinct sequences:
    with one cluster requested, a batch of one sequence, and a batch of two
    identical sequences, are clustered and a document is printed. *)
Lemma clustering_accepts_fewer_than_two_sequences :
  (exists doc,
      ClusterSequences.main true Samples.no_dtw Samples.checking_kmeans
        (Samples.cluster_args 1 3) (Samples.batch_of 1) = Printed doc /\
      Spec.field doc "total_sequences" = Some (VInt 1) /\
      Spec.field doc "cluster_assignments" = Some (VList [VInt 0])) /\
  (exists doc,
      ClusterSequences.main true Samples.no_dtw Samples.checking_kmeans
        (Samples.cluster_args 1 3) (Samples.batch_of 2) = Printed doc /\
      Spec.field doc "total_sequences" = Some (VInt 2) /\
      Spec.field doc "cluster_assignments" = Some (VList [VInt 0; VInt 0])).
Proof.
  split.
  - eexists. split; [reflexivity|]. split; reflexivity.
  - eexists. split; [reflexivity|]. split; reflexivity.
Qed.

(** C2, amended.  The script checks neither the number of (distinct)
    sequences nor the requested cluster count: it ends with exit status 1
    and the line "[ERROR] Clustering failed: <text of the exception>"
    exactly when the preparation of the batch or the clustering library
    raises.  An empty batch always ends so (the maximum of no lengths),
    and otherwise the library receives the prepared batch with the
    requested cluster count unchanged, and its answer, labels or exception,
    is the answer of the clustering step. *)
Theorem clustering_fails_exactly_when_the_library_raises :
  forall (HAS_TSLEARN : bool)
         (dtw_fit_predict : list value -> Z -> result (list Z))
         (kmeans_fit_predict : list (list value) -> Z -> result (list Z))
         (a : ClusterSequences.args) (data metadata : value)
         (items : list value) (all_sequences : list (list value))
         (sequence_vectors : list value),
    ClusterSequences.prepare data
      = Ok (metadata, items, all_sequences, sequence_vectors) ->
    let run := ClusterSequences.run_clustering HAS_TSLEARN dtw_fit_predict
                 kmeans_fit_predict a sequence_vectors in
    let main := ClusterSequences.main HAS_TSLEARN dtw_fit_predict
                  kmeans_fit_predict a data in
    (forall (code : Z) (msg : string),
        main = Exit code msg <->
        code = 1%Z /\
        exists e, run = Raise e /\
                  msg = ("[ERROR] Clustering failed: " ++ exn_str e)%string) /\
    (sequence_vectors = [] ->
     exists e, ClusterSequences.max_len [] = Raise e /\
               main = Exit 1 ("[ERROR] Clustering failed: " ++ exn_str e)) /\
    (forall flattened : list (list value),
        ClusterSequences.arg_method a = ClusterSequences.kmeans \/
        HAS_TSLEARN = false ->
        ClusterSequences.flatten_batch sequence_vectors = Ok flattened ->
        run = kmeans_fit_predict flattened (ClusterSequences.n_clusters a)) /\
    (forall padded : list value * nat,
        ClusterSequences.arg_method a = ClusterSequences.dtw ->
        HAS_TSLEARN = true ->
        ClusterSequences.pad_sequences sequence_vectors = Ok padded ->
        run = dtw_fit_predict (fst padded) (ClusterSequences.n_clusters a)).
Proof.
  intros has dtwf kmf a data metadata items alls vecs Hprep run main.
  assert (Hmain : main = match run with
                         | Raise e => Exit 1 ("[ERROR] Clustering failed: " ++ exn_str e)
                         | Ok labels =>
                             match ClusterSequences.build_library
                                     (ClusterSequences.min_size a) alls
                                     (ClusterSequences.organize labels) with
                             | Raise e => Uncaught e
                             | Ok behavioral_library =>
                                 ClusterSequences.emit a
                                   (VDict [ ("method",
                                             VStr (ClusterSequences.method_name
                                                     (ClusterSequences.arg_method a)));
                                            ("n_clusters", VInt (ClusterSequences.n_clusters a));
                                            ("min_size", VInt (ClusterSequences.min_size a));
                                            ("total_sequences",
                                             VInt (Z.of_nat (List.length items)));
                                            ("clusters_found",
                                             VInt (Z.of_nat (List.length behavioral_library)));
                                            ("cluster_assignments", VList (map VInt labels));
                                            ("behavioral_library", VList behavioral_library);
                                            ("metadata", metadata) ])
                             end
                         end).
  { subst main run. unfold ClusterSequences.main. rewrite Hprep. reflexivity. }
  split; [|split; [|split]].
  - intros code msg. rewrite Hmain. destruct run as [labels|e] eqn:Hrun.
    + split.
      * destruct (ClusterSequences.build_library _ _ _); [|discriminate].
        unfold ClusterSequences.emit.
        destruct (ClusterSequences.output a) as [path|];
          [destruct (path =? "")|]; discriminate.
      * intros [_ (e & He & _)]. discriminate.
    + split.
      * intros H. inversion H. split; [reflexivity|]. exists e. auto.
      * intros [-> (e' & He' & ->)]. inversion He'. reflexivity.
  - intros ->. exists (ValueError "max() arg is an empty sequence").
    split; [reflexivity|]. rewrite Hmain. subst run.
    unfold ClusterSequences.run_clustering.
    destruct (ClusterSequences.arg_method a), has; reflexivity.
  - intros flattened Hm Hflat. subst run.
    unfold ClusterSequences.run_clustering, ClusterSequences.cluster_with_kmeans.
    rewrite Hflat.
    destruct Hm as [-> | ->]; [reflexivity|].
    destruct (ClusterSequences.arg_method a); reflexivity.
  - intros padded Hm -> Hpad. subst run.
    unfold ClusterSequences.run_clustering, ClusterSequences.cluster_with_dtw.
    rewrite Hm, Hpad. reflexivity.
Qed.

(** Two sequences and five clusters with a library that checks its input
    as scikit-learn does: the run ends with the library's message. *)
Lemma clustering_fails_exactly_when_the_library_raises_witness :
  ClusterSequences.main true Samples.no_dtw Samples.checking_kmeans
    (Samples.cluster_args 5 3) (Samples.batch_of 2)
  = Exit 1 "[ERROR] Clustering failed: n_samples=2 should be >= n_clusters=5.".
Proof.
  assert (Hprep : ClusterSequences.prepare (Samples.batch_of 2)
                  = Ok (VDict [],
                        repeat (VList [Samples.vectorized_event "edit"]) 2,
                        repeat [Samples.vectorized_event "edit"] 2,
                        repeat (VList [VList [VFloat 1; VFloat 0]]) 2))
    by reflexivity.
  apply (proj1 (@clustering_fails_exactly_when_the_library_raises
                  true Samples.no_dtw Samples.checking_kmeans
                  (Samples.cluster_args 5 3) _ _ _ _ _ Hprep)).
  split; [reflexivity|].
  exists (ValueError "n_samples=2 should be >= n_clusters=5.").
  split; reflexivity.
Defined.

(* ================================================================== *)
(** * The sequence extractor on text timestamps                         *)
(* ================================================================== *)

Lemma key_eqb_refl (x : value) : hashable x = true -> key_eqb x x = true.
Proof.
  destruct x; simpl; try discriminate; intros _; auto.
  - apply Qeq_bool_iff. reflexivity.
  - apply Qeq_bool_iff. reflexivity.
  - apply Qeq_bool_iff. reflexivity.
  - apply String.eqb_refl.
Qed.

Lemma apart_filter (p : value -> bool) (l : list value) :
  ForallOrdPairs apart l -> ForallOrdPairs apart (filter p l).
Proof.
  induction 1 as [|x l Hx _ IH]; simpl; [constructor|].
  destruct (p x); [|exact IH].
  constructor; [|exact IH].
  apply Forall_forall. intros y Hy. apply filter_In in Hy.
  rewrite Forall_forall in Hx. apply Hx, Hy.
Qed.

Lemma distinct_apart (l : list value) : ForallOrdPairs apart (distinct l).
Proof.
  induction l as [|x l IH]; simpl; constructor.
  - apply Forall_forall. intros y Hy. apply filter_In in Hy.
    destruct Hy as [_ Hy]. apply negb_true_iff in Hy. exact Hy.
  - apply apart_filter, IH.
Qed.

Lemma distinct_snoc (l : list value) (x : value) :
  distinct (l ++ [x]) = if mem x l then distinct l else distinct l ++ [x].
Proof.
  induction l as [|y l IH]; simpl; [reflexivity|].
  rewrite IH. destruct (key_eqb x y) eqn:Hxy; simpl.
  - rewrite key_eqb_sym in Hxy.
    destruct (mem x l); [reflexivity|].
    rewrite filter_app. simpl. rewrite Hxy. simpl.
    rewrite app_nil_r. reflexivity.
  - rewrite key_eqb_sym in Hxy.
    destruct (mem x l); [reflexivity|].
    rewrite filter_app. simpl. rewrite Hxy. reflexivity.
Qed.

Section ExtractSequencesFacts.

Import SequenceProcessor.

Lemma group_by_session_grouped (events : list dict) :
  forall groups,
    Forall (fun e => hashable (session_of e) = true) events ->
    group_by_session events groups = Ok (grouped events groups).
Proof.
  induction events as [|e events IH]; intros groups H; simpl; [reflexivity|].
  inversion H as [|? ? He Hrest]; subst. rewrite He. apply IH, Hrest.
Qed.

(** Appending an event to the groups of pairwise different sessions. *)
Lemma add_event_sessions (f : value -> list dict) (S : list value)
    (x : value) (e : dict) :
  ForallOrdPairs apart S ->
  add_event (map (fun s => (s, f s)) S) x e
    = map (fun s => (s, f s ++ (if key_eqb s x then [e] else []))) S
      ++ (if mem x S then [] else [(x, [e])]).
Proof.
  induction 1 as [|s S Hs HS IH]; simpl; [reflexivity|].
  rewrite (key_eqb_sym x s).
  destruct (key_eqb s x) eqn:Hsx; simpl.
  - rewrite app_nil_r. f_equal.
    apply map_ext_in. intros s' Hs'.
    rewrite Forall_forall in Hs. specialize (Hs _ Hs').
    destruct (key_eqb s' x) eqn:Hs'x; [|rewrite app_nil_r; reflexivity].
    exfalso. unfold apart in Hs. rewrite key_eqb_sym in Hs'x.
    rewrite (key_eqb_trans _ _ _ Hsx Hs'x) in Hs. discriminate.
  - rewrite app_nil_r, IH. reflexivity.
Qed.

Lemma session_events_snoc (events : list dict) (e : dict) (s : value) :
  Spec.session_events (events ++ [e]) s
    = Spec.session_events events s
      ++ (if key_eqb s (session_of e) then [e] else []).
Proof.
  unfold Spec.session_events. rewrite filter_app. simpl.
  destruct (key_eqb s (session_of e)); reflexivity.
Qed.

Lemma session_events_unseen (events : list dict) (x : value) :
  mem x (map session_of events) = false -> Spec.session_events events x = [].
Proof.
  induction events as [|e events IH]; simpl; [reflexivity|].
  intros H. apply orb_false_iff in H. destruct H as [Hx Hrest].
  rewrite Hx. apply IH, Hrest.
Qed.

(** The groups built by the loop are the sessions of the specification,
    in the order of their first event, each with its events in retrieval
    order. *)
Lemma grouped_sessions (events : list dict) :
  Forall (fun e => hashable (session_of e) = true) events ->
  grouped events []
    = map (fun s => (s, Spec.session_events events s)) (Spec.sessions events).
Proof.
  induction events as [|e events IH] using rev_ind; [reflexivity|].
  intros H. apply Forall_app in H. destruct H as [Hevents He].
  inversion He as [|? ? Hx _]; subst.
  unfold grouped in *. rewrite fold_left_app. simpl.
  rewrite (IH Hevents).
  rewrite add_event_sessions by apply distinct_apart.
  unfold Spec.sessions. rewrite map_app. simpl.
  rewrite distinct_snoc, mem_distinct.
  destruct (mem (session_of e) (map session_of events)) eqn:Hmem.
  - rewrite app_nil_r. apply map_ext. intros s.
    rewrite session_events_snoc. reflexivity.
  - rewrite map_app. simpl. f_equal.
    + apply map_ext. intros s. rewrite session_events_snoc. reflexivity.
    + rewrite session_events_snoc, (session_events_unseen _ _ Hmem).
      rewrite (key_eqb_refl _ Hx). reflexivity.
Qed.

(** On text timestamps the sort never raises and is the stable sort by
    [Spec.earlier]. *)
Lemma py_lt_textual (y x : dict) :
  Spec.textual y -> Spec.textual x ->
  py_lt (timestamp_key y) (timestamp_key x) = Ok (Spec.earlier y x).
Proof.
  intros [s Hs] [t Ht]. unfold Spec.earlier, Spec.timestamp_text.
  rewrite Hs, Ht. reflexivity.
Qed.

Lemma insert_textual (x : dict) (l : list dict) :
  Spec.textual x -> Forall Spec.textual l ->
  insert timestamp_key py_lt x l = Ok (insert_by Spec.earlier x l).
Proof.
  intros Hx. induction 1 as [|y l Hy _ IH]; simpl; [reflexivity|].
  rewrite (py_lt_textual Hy Hx). simpl.
  destruct (Spec.earlier y x); [|reflexivity].
  rewrite IH. reflexivity.
Qed.

Lemma sort_textual (l : list dict) :
  Forall Spec.textual l ->
  sort timestamp_key py_lt l = Ok (sort_by Spec.earlier l).
Proof.
  induction 1 as [|x l Hx Hl IH]; simpl; [reflexivity|].
  rewrite IH. simpl. apply insert_textual; [exact Hx|].
  apply Forall_forall. intros y Hy.
  rewrite Forall_forall in Hl. apply Hl.
  eapply Permutation_in; [apply sort_by_perm | exact Hy].
Qed.

End ExtractSequencesFacts.

Lemma regular_event_spec (e : dict) :
  Spec.regular_event e = true ->
  hashable (SequenceProcessor.session_of e) = true /\ Spec.textual e.
Proof.
  unfold Spec.regular_event, Spec.textual. intros H.
  apply andb_prop in H. destruct H as [Hh Ht]. split; [exact Hh|].
  destruct (SequenceProcessor.timestamp_key e); try discriminate. eauto.
Qed.

(** On events with usable session ids and text timestamps,
    [extract_sequences] is the extractor of the specification: sessions in
    order of first appearance, each sorted by timestamp, the lengths within
    the inclusive bounds. *)
Lemma extract_sequences_on_regular_events
    (self : SequenceProcessor.SequenceProcessor) (ws : value) (min_len max_len : Z) :
  forallb Spec.regular_event (events_with_prompts (SequenceProcessor.db self) ws) = true ->
  SequenceProcessor.extract_sequences self ws min_len max_len
    = Ok (Spec.extract (events_with_prompts (SequenceProcessor.db self) ws)
            min_len max_len).
Proof.
  set (events := events_with_prompts (SequenceProcessor.db self) ws).
  intros Hreg. rewrite forallb_forall in Hreg.
  assert (Hhash : Forall (fun e => hashable (SequenceProcessor.session_of e) = true) events).
  { apply Forall_forall. intros e He. apply regular_event_spec, Hreg, He. }
  unfold SequenceProcessor.extract_sequences. fold events.
  rewrite group_by_session_grouped by exact Hhash.
  rewrite grouped_sessions by exact Hhash.
  cbv beta iota delta [bind].
  rewrite (mapM_total _ (fun g => sort_by Spec.earlier (snd g))).
  - unfold Spec.extract. rewrite map_map. reflexivity.
  - apply Forall_forall. intros g Hg. apply in_map_iff in Hg.
    destruct Hg as (s & <- & _). simpl. apply sort_textual.
    apply Forall_forall. intros e He. apply filter_In in He.
    apply regular_event_spec, Hreg, He.
Qed.

Lemma string_ltb_leb (s t : string) : String.ltb s t = true -> String.leb s t = true.
Proof.
  unfold String.ltb, String.leb. destruct (String.compare s t); auto; discriminate.
Qed.

Lemma string_not_ltb_leb (s t : string) : String.ltb s t = false -> String.leb t s = true.
Proof.
  unfold String.ltb, String.leb. rewrite (String.compare_antisym t s).
  destruct (String.compare s t); simpl; auto; discriminate.
Qed.

Lemma string_ltb_irrefl (s : string) : String.ltb s s = false.
Proof.
  unfold String.ltb. pose proof (String.compare_antisym s s) as H.
  destruct (String.compare s s); auto; discriminate.
Qed.

(** Each extracted session is in ascending order of its timestamps. *)
Lemma sort_by_earlier_sorted (l : list dict) :
  Sorted (fun a b => String.leb (Spec.timestamp_text a) (Spec.timestamp_text b) = true)
         (sort_by Spec.earlier l).
Proof.
  induction l as [|x l IH]; simpl; [constructor|].
  induction IH as [|y s Hs IHs Hy]; simpl; [repeat constructor|].
  destruct (Spec.earlier y x) eqn:Hyx.
  - constructor; [exact IHs|].
    destruct s as [|z s]; simpl.
    + constructor. apply string_ltb_leb, Hyx.
    + destruct (Spec.earlier z x).
      * constructor. inversion Hy; assumption.
      * constructor. apply string_ltb_leb, Hyx.
  - constructor; [constructor; assumption|].
    constructor. apply string_not_ltb_leb, Hyx.
Qed.

(** The sort is stable: the events with one timestamp keep their
    retrieval order. *)
Lemma sort_by_earlier_stable (l : list dict) (t : string) :
  filter (fun e => Spec.timestamp_text e =? t) (sort_by Spec.earlier l)
    = filter (fun e => Spec.timestamp_text e =? t) l.
Proof.
  induction l as [|x l IH]; simpl; [reflexivity|].
  rewrite <- IH. generalize (sort_by Spec.earlier l) as s. clear IH.
  induction s as [|y s IHs]; simpl; [reflexivity|].
  destruct (Spec.earlier y x) eqn:Hyx; simpl; [|reflexivity].
  rewrite IHs.
  destruct (Spec.timestamp_text x =? t) eqn:Hx; [|reflexivity].
  destruct (Spec.timestamp_text y =? t) eqn:Hy; [|reflexivity].
  apply String.eqb_eq in Hx, Hy. unfold Spec.earlier in Hyx.
  rewrite Hx, Hy, string_ltb_irrefl in Hyx. discriminate.
Qed.

(* ================================================================== *)
(** * Further properties: context precision                             *)
(* ================================================================== *)



Lemma filter_all_length (A : Type) (p : A -> bool) (l : list A) :
  List.length (filter p l) = List.length l <-> forall x, In x l -> p x = true.
Proof.
  induction l as [|x l IH]; simpl.
  - split; [intros _ y [] | reflexivity].
  - destruct (p x) eqn:Hx; simpl.
    + split.
      * intros H y [<-|Hy]; [exact Hx|]. apply IH; [lia | exact Hy].
      * intros H. f_equal. apply IH. intros y Hy. apply H. right; exact Hy.
    + split.
      * intros H. pose proof (filter_length_le p l). lia.
      * intros H. specialize (H x (or_introl eq_refl)). congruence.
Qed.

Lemma filter_none_length (A : Type) (p : A -> bool) (l : list A) :
  List.length (filter p l) = 0%nat <-> forall x, In x l -> p x = false.
Proof.
  induction l as [|x l IH]; simpl.
  - split; [intros _ y [] | reflexivity].
  - destruct (p x) eqn:Hx; simpl.
    + split; [discriminate|].
      intros H. specialize (H x (or_introl eq_refl)). congruence.
    + rewrite IH. split.
      * intros H y [<-|Hy]; [exact Hx | apply H, Hy].
      * intros H y Hy. apply H. right; exact Hy.
Qed.

Lemma mapM_raises (A B : Type) (f : A -> result B) (l : list A) (x : A) :
  In x l -> (exists e, f x = Raise e) -> exists e, mapM f l = Raise e.
Proof.
  induction l as [|y l IH]; simpl; intros Hin Hx; [contradiction|].
  destruct (f y) as [b|e] eqn:Hy; simpl; [|eauto].
  destruct Hin as [->|Hin].
  - destruct Hx as [e He]. congruence.
  - destruct (IH Hin Hx) as [e He]. rewrite He. simpl. eauto.
Qed.




Lemma normalized_hashable (entries : list value) :
  forallb hashable (Spec.normalized entries) = true.
Proof.
  unfold Spec.normalized. apply forallb_forall. intros v Hv.
  apply in_map_iff in Hv. destruct Hv as (s & <- & _). reflexivity.
Qed.

Lemma extract_context_files_legacy json_loads (prompt : dict)
    (context : value) (entries : list value) :
  Spec.payload json_loads (get prompt "context_files_json") = Some context ->
  Spec.legacy_entries context = Some entries ->
  CalculateCp.extract_context_files json_loads prompt = Spec.normalized entries.
Proof.
  intros Hpayload Hshape. unfold CalculateCp.extract_context_files.
  destruct (truthy (get prompt "context_files_json")) eqn:Ht; simpl.
  - erewrite context_entries_legacy by eassumption. reflexivity.
  - symmetry. destruct (get prompt "context_files_json") as [| | | |s|l|d];
      simpl in Hpayload;
      try (inversion Hpayload; subst context; simpl in Hshape; discriminate).
    + simpl in Ht. apply negb_false_iff in Ht.
      rewrite Ht in Hpayload. discriminate.
    + inversion Hpayload; subst context. eapply normalized_of_falsy; eauto.
    + inversion Hpayload; subst context. eapply normalized_of_falsy; eauto.
Qed.

(** X2.  [calculate_cp] returns a record exactly when the context list is
    empty or every context entry and every diff file can be a set member;
    otherwise it raises the TypeError of [set(...)].  In particular it
    returns for every prompt whose payload has one of the legacy shapes
    when the diff files are strings, numbers or null. *)
Theorem calculate_cp_raises_only_on_unhashable_files :
  forall (json_loads : string -> result value) (prompt : dict) (D : list value),
    let C := CalculateCp.extract_context_files json_loads prompt in
    (C = [] \/ forallb hashable C && forallb hashable D = true ->
     exists r, CalculateCp.calculate_cp json_loads prompt D = Ok r) /\
    (C <> [] -> forallb hashable C && forallb hashable D = false ->
     CalculateCp.calculate_cp json_loads prompt D
       = Raise (TypeError "unhashable type")) /\
    (forall context entries,
        Spec.payload json_loads (get prompt "context_files_json") = Some context ->
        Spec.legacy_entries context = Some entries ->
        forallb hashable D = true ->
        exists r, CalculateCp.calculate_cp json_loads prompt D = Ok r).
Proof.
  intros json_loads prompt D C.
  assert (Hok : C = [] \/ forallb hashable C && forallb hashable D = true ->
                exists r, CalculateCp.calculate_cp json_loads prompt D = Ok r).
  { unfold CalculateCp.calculate_cp. fold C. intros [HC | Hh].
    - rewrite HC. eauto.
    - apply andb_prop in Hh. destruct Hh as [H1 H2].
      destruct C as [|c C'] eqn:HC; [eauto|].
      unfold py_set. rewrite H1, H2. cbv beta iota delta [bind]. eauto. }
  split; [exact Hok|]. split.
  - intros Hne Hh. unfold CalculateCp.calculate_cp. fold C.
    destruct C as [|c C'] eqn:HC; [congruence|].
    unfold py_set.
    destruct (forallb hashable (c :: C')); [|reflexivity].
    simpl in Hh. rewrite Hh. reflexivity.
  - intros context entries Hp Hs HD. apply Hok. right.
    subst C. rewrite (extract_context_files_legacy _ _ Hp Hs).
    rewrite normalized_hashable, HD. reflexivity.
Qed.

Lemma calculate_cp_raises_only_on_unhashable_files_witness :
  exists r,
    CalculateCp.calculate_cp Samples.no_json Samples.codebase_prompt
      [VStr "main.py"] = Ok r.
Proof.
  apply (proj2 (proj2 (calculate_cp_raises_only_on_unhashable_files
                         Samples.no_json Samples.codebase_prompt [VStr "main.py"]))
           (get Samples.codebase_prompt "context_files_json") _ eq_refl eq_refl eq_refl).
Defined.

(** X3.  For a context list that is not empty, the score is 1 exactly when
    every context file is among the diff files, and 0 exactly when none
    is. *)
Theorem calculate_cp_extreme_scores :
  forall (json_loads : string -> result value) (prompt : dict)
         (D : list value) (r : value),
    CalculateCp.calculate_cp json_loads prompt D = Ok r ->
    CalculateCp.extract_context_files json_loads prompt <> [] ->
    let C := CalculateCp.extract_context_files json_loads prompt in
    ((CalculateCp.record_cp r == 1)%Q <-> forall f, In f C -> mem f D = true) /\
    ((CalculateCp.record_cp r == 0)%Q <-> forall f, In f C -> mem f D = false).
Proof.
  intros json_loads prompt D r H Hne C.
  rewrite (calculate_cp_score _ _ _ H). subst C.
  remember (CalculateCp.extract_context_files json_loads prompt) as C eqn:EC.
  clear EC H.
  assert (Hlen : (0 < List.length C)%nat)
    by (destruct C; [congruence | simpl; lia]).
  assert (Hp : Z.pos (Pos.of_nat (List.length C)) = Z.of_nat (List.length C)).
  { rewrite <- positive_nat_Z, Nat2Pos.id by lia. reflexivity. }
  replace (match C with
           | [] => 0%Q
           | _ :: _ => div_len (List.length (filter (fun f => mem f D) C))
                               (List.length C)
           end)
    with (div_len (List.length (filter (fun f => mem f D) C)) (List.length C))
    by (destruct C; [congruence | reflexivity]).
  unfold div_len. rewrite !Qred_correct. unfold Qeq. cbn [Qnum Qden].
  rewrite Hp. split.
  - rewrite <- filter_all_length. lia.
  - rewrite <- filter_none_length. lia.
Qed.

Lemma calculate_cp_extreme_scores_witness :
  mem (VStr "util.py") [VStr "main.py"; VStr "util.py"; VStr "x.py"] = true /\
  mem (VStr "main.py") [VStr "main.py"; VStr "util.py"; VStr "x.py"] = true.
Proof.
  assert (Hrun : exists r,
             CalculateCp.calculate_cp Samples.no_json Samples.codebase_prompt
               [VStr "main.py"; VStr "util.py"; VStr "x.py"] = Ok r
             /\ (CalculateCp.record_cp r == 1)%Q).
  { eexists. split; reflexivity. }
  destruct Hrun as (r & Hr & Hone).
  assert (Hne : CalculateCp.extract_context_files Samples.no_json
                  Samples.codebase_prompt <> []) by discriminate.
  pose proof (proj1 (proj1 (calculate_cp_extreme_scores _ _ _ Hr Hne)) Hone) as Hall.
  split; apply Hall; simpl; auto.
Defined.

Lemma extract_context_files_failed json_loads (prompt : dict) :
  (exists e, CalculateCp.context_entries json_loads
               (get prompt "context_files_json") = Raise e) ->
  CalculateCp.extract_context_files json_loads prompt = [].
Proof.
  intros [e He]. unfold CalculateCp.extract_context_files.
  rewrite He. destruct (negb (truthy (get prompt "context_files_json"))); reflexivity.
Qed.

Lemma path_of_not_object (f : value) :
  (forall d, f <> VDict d) -> exists e, CalculateCp.path_of f = Raise e.
Proof.
  intros H. destruct f; simpl; eauto. exfalso. eapply H; reflexivity.
Qed.

(** X4.  One unusable part makes [extract_context_files] drop the whole
    payload: it returns the empty list when the JSON text does not parse,
    when any entry under attachedFiles (or under codebaseFiles, in the
    absence of attachedFiles) is not an object, and when any entry of a
    plain list is neither a string nor an object, whatever the other
    entries are. *)
Theorem extract_context_files_drops_payload_on_bad_entry :
  forall (json_loads : string -> result value) (prompt : dict),
    (forall s e,
        get prompt "context_files_json" = VStr s -> json_loads s = Raise e ->
        CalculateCp.extract_context_files json_loads prompt = []) /\
    (forall d l f,
        get prompt "context_files_json" = VDict d ->
        lookup d "attachedFiles" = Some (VList l) \/
        (lookup d "attachedFiles" = None /\
         lookup d "codebaseFiles" = Some (VList l)) ->
        In f l -> (forall d', f <> VDict d') ->
        CalculateCp.extract_context_files json_loads prompt = []) /\
    (forall l f,
        get prompt "context_files_json" = VList l ->
        In f l -> (forall d', f <> VDict d') -> (forall s, f <> VStr s) ->
        CalculateCp.extract_context_files json_loads prompt = []).
Proof.
  intros json_loads prompt. split; [|split].
  - intros s e Hf Hj. apply extract_context_files_failed.
    exists e. rewrite Hf. unfold CalculateCp.context_entries. rewrite Hj. reflexivity.
  - intros d l f Hf Hkey Hin Hbad. apply extract_context_files_failed.
    rewrite Hf. unfold CalculateCp.context_entries. cbv beta iota delta [bind].
    destruct (mapM_raises CalculateCp.path_of l f Hin (path_of_not_object Hbad))
      as [e He].
    destruct Hkey as [H1 | [H1 H2]].
    + rewrite H1. simpl. rewrite He. eauto.
    + rewrite H1, H2. simpl. rewrite He. eauto.
  - intros l f Hf Hin Hd Hs. apply extract_context_files_failed.
    rewrite Hf. unfold CalculateCp.context_entries. cbv beta iota delta [bind].
    assert (Hbad : exists e, CalculateCp.str_or_path_of f = Raise e).
    { destruct f; simpl; eauto.
      - exfalso. eapply Hs; reflexivity.
      - exfalso. eapply Hd; reflexivity. }
    destruct (mapM_raises CalculateCp.str_or_path_of l f Hin Hbad) as [e He].
    rewrite He. eauto.
Qed.

(** The path a.py of the first entry is lost with the bare string b.py. *)
Lemma extract_context_files_drops_payload_on_bad_entry_witness :
  CalculateCp.extract_context_files Samples.no_json
    MoreSamples.mixed_attached_prompt = [].
Proof.
  apply (proj1 (proj2 (extract_context_files_drops_payload_on_bad_entry
                         Samples.no_json MoreSamples.mixed_attached_prompt))
           [ ("attachedFiles",
              VList [ VDict [("path", VStr "a.py")]; VStr "b.py" ]) ]
           [ VDict [("path", VStr "a.py")]; VStr "b.py" ]
           (VStr "b.py") eq_refl (or_introl eq_refl)).
  - right. left. reflexivity.
  - discriminate.
Defined.

(* ================================================================== *)
(** * Further properties: baseline statistics                           *)
(* ================================================================== *)

Lemma Qltb_iff (a b : Q) : CalculateCp.Qltb a b = true <-> (a < b)%Q.
Proof.
  split; [apply Qltb_true|].
  intros H. destruct (CalculateCp.Qltb a b) eqn:E; [reflexivity|].
  apply Qltb_false in E. lra.
Qed.









(* ================================================================== *)
(** * Further properties: the store and the command line                *)
(* ================================================================== *)

Lemma string_ltb_asym (s t : string) : String.ltb s t = true -> String.ltb t s = false.
Proof.
  unfold String.ltb. rewrite (String.compare_antisym t s).
  destruct (String.compare s t); simpl; auto; discriminate.
Qed.

Lemma sql_ltb_asym (a b : value) : sql_ltb a b = true -> sql_ltb b a = false.
Proof.
  unfold sql_ltb.
  destruct (num_of a) as [x|] eqn:Ha, (num_of b) as [y|] eqn:Hb.
  - intros H. apply negb_true_iff in H. apply negb_false_iff.
    apply Qle_bool_iff. destruct (Qle_bool y x) eqn:E; [discriminate|].
    apply Qlt_le_weak, Qnot_le_lt. intros Hle. apply Qle_bool_iff in Hle. congruence.
  - destruct a, b; try discriminate; simpl; intros H;
      try reflexivity; try discriminate.
  - destruct a, b; try discriminate; simpl; intros H;
      try reflexivity; try discriminate.
  - destruct a, b; try discriminate; simpl; intros H;
      try reflexivity; try discriminate.
    apply string_ltb_asym, H.
Qed.

Section SortedByAsymmetric.

Variables (A : Type) (ltb : A -> A -> bool).
Hypothesis ltb_asym : forall a b, ltb a b = true -> ltb b a = false.

Let not_after (a b : A) : Prop := ltb b a = false.

Lemma insert_by_not_after (x : A) (l : list A) :
  Sorted not_after l -> Sorted not_after (insert_by ltb x l).
Proof.
  induction 1 as [|y l Hl IH Hy]; simpl.
  - repeat constructor.
  - destruct (ltb y x) eqn:Hyx.
    + constructor; [exact IH|].
      destruct l as [|z l]; simpl.
      * constructor. apply ltb_asym, Hyx.
      * destruct (ltb z x).
        -- constructor. inversion Hy; assumption.
        -- constructor. apply ltb_asym, Hyx.
    + constructor; [constructor; assumption|].
      constructor. exact Hyx.
Qed.

Lemma sort_by_not_after (l : list A) : Sorted not_after (sort_by ltb l).
Proof.
  induction l as [|x l IH]; simpl; [constructor|].
  apply insert_by_not_after, IH.
Qed.

Lemma firstn_not_after (n : nat) (l : list A) :
  Sorted not_after l -> Sorted not_after (firstn n l).
Proof.
  revert l; induction n as [|n IH]; intros l H; simpl; [constructor|].
  destruct H as [|y l Hl Hy]; [constructor|].
  constructor; [apply IH, Hl|].
  destruct Hy as [|z l' Hz]; destruct n; simpl; constructor. exact Hz.
Qed.

End SortedByAsymmetric.

(** X6.  [get_prompts] returns rows of the prompts table only, all of the
    requested workspace when one is given, in ascending order of their
    timestamps (the order of SQLite, the default store: NULL first, numbers
    before text).  With a positive limit it returns the earliest rows, at
    most [limit] of them; without a limit, or with limit 0 (which
    [if limit:] takes for no limit), it returns every selected row. *)
Theorem get_prompts_selects_orders_and_limits :
  forall (db : DatabaseConnector) (ws : value) (limit : option Z),
    let rows := get_prompts db ws limit in
    let selected :=
      if truthy ws
      then filter (fun row => sql_eqb (get row "workspace_path") ws) (prompts db)
      else prompts db in
    (forall row, In row rows -> In row selected) /\
    (forall row, In row rows ->
                 In row (prompts db) /\
                 (truthy ws = true -> sql_eqb (get row "workspace_path") ws = true)) /\
    Sorted (fun r1 r2 => sql_ltb (get r2 "timestamp") (get r1 "timestamp") = false)
           rows /\
    (forall n, limit = Some n -> (0 < n)%Z ->
               (List.length rows <= Z.to_nat n)%nat /\
               rows = firstn (Z.to_nat n) (get_prompts db ws None)) /\
    (limit = None \/ limit = Some 0%Z -> Permutation rows selected).
Proof.
  intros db ws limit rows selected.
  set (by_time := fun r1 r2 : dict => sql_ltb (get r1 "timestamp") (get r2 "timestamp")).
  assert (Hrows : rows = sql_limit limit (sort_by by_time selected)) by reflexivity.
  assert (Hsub : forall row, In row rows -> In row selected).
  { intros row Hrow. rewrite Hrows in Hrow.
    apply (Permutation_in _ (sort_by_perm by_time selected)).
    unfold sql_limit in Hrow. destruct limit as [n|]; [|exact Hrow].
    destruct (n =? 0)%Z; [exact Hrow|]. destruct (n <? 0)%Z; [exact Hrow|].
    rewrite <- (firstn_skipn (Z.to_nat n) (sort_by by_time selected)).
    apply in_or_app. left. exact Hrow. }
  assert (Hasym : forall a b : dict, by_time a b = true -> by_time b a = false).
  { intros a b. apply sql_ltb_asym. }
  split; [exact Hsub|]. split; [|split; [|split]].
  - intros row Hrow. apply Hsub in Hrow. subst selected.
    destruct (truthy ws).
    + apply filter_In in Hrow. tauto.
    + split; [exact Hrow | discriminate].
  - rewrite Hrows. unfold sql_limit.
    pose proof (sort_by_not_after by_time Hasym selected) as Hs.
    destruct limit as [n|]; [|exact Hs].
    destruct (n =? 0)%Z; [exact Hs|]. destruct (n <? 0)%Z; [exact Hs|].
    apply firstn_not_after, Hs.
  - intros n -> Hn. rewrite Hrows. unfold sql_limit.
    assert (E0 : (n =? 0)%Z = false) by (apply Z.eqb_neq; lia).
    assert (E1 : (n <? 0)%Z = false) by (apply Z.ltb_ge; lia).
    rewrite E0, E1. split; [apply firstn_le_length | reflexivity].
  - intros Hl. rewrite Hrows. unfold sql_limit.
    destruct Hl as [-> | ->]; apply sort_by_perm.
Qed.

(** With limit 1 the store of two prompts gives the earlier one. *)
Lemma get_prompts_selects_orders_and_limits_witness :
  (List.length (get_prompts Samples.two_prompt_store VNone (Some 1%Z)) <= 1)%nat /\
  get_prompts Samples.two_prompt_store VNone (Some 1%Z)
    = firstn 1 (get_prompts Samples.two_prompt_store VNone None).
Proof.
  apply (proj1 (proj2 (proj2 (proj2
           (get_prompts_selects_orders_and_limits
              Samples.two_prompt_store VNone (Some 1%Z))))) 1%Z eq_refl).
  reflexivity.
Defined.




(* ================================================================== *)
(** * Further properties: the event vectorizer                          *)
(* ================================================================== *)

Lemma index_of_found (keys : list value) (t : value) (i : nat) :
  Vectorizer.index_of keys t = Some i ->
  (i < List.length keys)%nat /\
  exists k, nth_error keys i = Some k /\ key_eqb k t = true.
Proof.
  revert i; induction keys as [|k keys IH]; simpl; intros i H; [discriminate|].
  destruct (key_eqb k t) eqn:Hk.
  - inversion H; subst. split; [lia|]. exists k. auto.
  - destruct (Vectorizer.index_of keys t) as [j|]; [|discriminate].
    inversion H; subst. destruct (IH j eq_refl) as (Hj & k' & Hk' & He).
    split; [lia|]. exists k'. auto.
Qed.

Lemma nth_set_one (i n j : nat) :
  (i < n)%nat ->
  nth j (Vectorizer.set_one i (repeat 0%Q n)) 0%Q
    = if (j =? i)%nat then 1%Q else 0%Q.
Proof.
  revert i j; induction n as [|n IH]; intros i j Hi; [lia|].
  destruct i as [|i], j as [|j]; simpl; try reflexivity.
  - apply nth_repeat.
  - apply IH. lia.
Qed.

(** X8.  For a type that the encoder knows, at index [i], the one-hot
    vector is as long as the encoder, has 1.0 at position [i] and 0.0
    everywhere else, and position [i] of the encoder holds a key equal to
    the type; so two types with different indices never share a vector. *)
Theorem one_hot_encode_marks_the_index :
  forall (self : Vectorizer.EventVectorizer) (t : value) (i : nat),
    hashable t = true ->
    Vectorizer.index_of (Vectorizer.event_type_map self) t = Some i ->
    exists v : list Q,
      Vectorizer.one_hot_encode_event_type self t = Ok v /\
      List.length v = List.length (Vectorizer.event_type_map self) /\
      (i < List.length v)%nat /\
      (forall j, nth j v 0%Q = if (j =? i)%nat then 1%Q else 0%Q) /\
      (exists k, nth_error (Vectorizer.event_type_map self) i = Some k /\
                 key_eqb k t = true) /\
      (forall t' i' v',
          hashable t' = true ->
          Vectorizer.index_of (Vectorizer.event_type_map self) t' = Some i' ->
          Vectorizer.one_hot_encode_event_type self t' = Ok v' ->
          i <> i' -> v <> v').
Proof.
  intros self t i Ht Hi.
  destruct (index_of_found _ _ Hi) as (Hlt & Hk).
  assert (Hshape : forall t0 i0,
             hashable t0 = true ->
             Vectorizer.index_of (Vectorizer.event_type_map self) t0 = Some i0 ->
             Vectorizer.one_hot_encode_event_type self t0
               = Ok (Vectorizer.set_one i0
                       (repeat 0%Q (List.length (Vectorizer.event_type_map self))))).
  { intros t0 i0 Ht0 Hi0. unfold Vectorizer.one_hot_encode_event_type.
    destruct (Vectorizer.event_type_map self) as [|k keys] eqn:Hmap;
      [discriminate|].
    rewrite Ht0, Hi0. reflexivity. }
  eexists. split; [apply (Hshape _ _ Ht Hi)|].
  split; [rewrite set_one_length, repeat_length; reflexivity|].
  split; [rewrite set_one_length, repeat_length; exact Hlt|].
  split; [intros j; apply nth_set_one, Hlt|].
  split; [exact Hk|].
  intros t' i' v' Ht' Hi' Hv' Hneq Hsame.
  rewrite (Hshape _ _ Ht' Hi') in Hv'. inversion Hv' as [Ev].
  rewrite <- Ev in Hsame.
  destruct (index_of_found _ _ Hi') as (Hlt' & _).
  apply (f_equal (fun v => nth i v 0%Q)) in Hsame.
  rename Hsame into Heq.
  rewrite !nth_set_one in Heq by assumption.
  rewrite Nat.eqb_refl in Heq.
  destruct (i =? i')%nat eqn:E; [apply Nat.eqb_eq in E; contradiction|].
  discriminate.
Qed.

Lemma one_hot_encode_marks_the_index_witness :
  exists v : list Q,
    Vectorizer.one_hot_encode_event_type Samples.edit_encoder (VStr "prompt") = Ok v /\
    List.length v = 2%nat /\ nth 1 v 0%Q = 1%Q /\ nth 0 v 0%Q = 0%Q.
Proof.
  destruct (@one_hot_encode_marks_the_index Samples.edit_encoder (VStr "prompt")
              1%nat eq_refl eq_refl) as (v & H1 & H2 & _ & H3 & _).
  exists v. split; [exact H1|]. split; [exact H2|].
  split; [exact (H3 1%nat) | exact (H3 0%nat)].
Defined.

(** The sort on keys that [<] can compare is the stable sort by that
    order. *)
Section SortWithoutError.

Variables (A K : Type) (key : A -> K) (lt : K -> K -> result bool)
          (ltb : A -> A -> bool) (comparable : A -> Prop).
Hypothesis lt_ltb :
  forall y x, comparable y -> comparable x -> lt (key y) (key x) = Ok (ltb y x).

Lemma insert_comparable (x : A) (l : list A) :
  comparable x -> Forall comparable l ->
  insert key lt x l = Ok (insert_by ltb x l).
Proof.
  intros Hx. induction 1 as [|y l Hy _ IH]; simpl; [reflexivity|].
  rewrite (lt_ltb Hy Hx). simpl.
  destruct (ltb y x); [|reflexivity].
  rewrite IH. reflexivity.
Qed.

Lemma sort_comparable (l : list A) :
  Forall comparable l -> sort key lt l = Ok (sort_by ltb l).
Proof.
  induction 1 as [|x l Hx Hl IH]; simpl; [reflexivity|].
  rewrite IH. simpl. apply insert_comparable; [exact Hx|].
  apply Forall_forall. intros y Hy.
  rewrite Forall_forall in Hl. apply Hl.
  eapply Permutation_in; [apply sort_by_perm | exact Hy].
Qed.

End SortWithoutError.

Lemma distinct_In_text (l : list value) (x : value) :
  Forall is_text l -> (In x (distinct l) <-> In x l).
Proof.
  induction 1 as [|y l Hy Hl IH]; simpl; [tauto|].
  split.
  - intros [E|Hin]; [left; exact E|].
    apply filter_In in Hin. right. apply IH, Hin.
  - intros [E|Hin]; [left; exact E|].
    destruct (key_eqb y x) eqn:Hyx.
    + left. destruct Hy as [s ->].
      rewrite Forall_forall in Hl. destruct (Hl _ Hin) as [t ->].
      simpl in Hyx. apply String.eqb_eq in Hyx. congruence.
    + right. apply filter_In. split; [apply IH, Hin|]. rewrite Hyx. reflexivity.
Qed.

Lemma distinct_NoDup_text (l : list value) :
  Forall is_text l -> NoDup (distinct l).
Proof.
  induction 1 as [|y l Hy Hl IH]; simpl; constructor.
  - intros Hin. apply filter_In in Hin. destruct Hin as [_ Hin].
    destruct Hy as [s ->]. rewrite key_eqb_refl in Hin by reflexivity. discriminate.
  - apply NoDup_filter, IH.
Qed.

Lemma string_ltb_trichotomy (s t : string) :
  String.ltb t s = false -> s <> t -> String.ltb s t = true.
Proof.
  unfold String.ltb. rewrite (String.compare_antisym t s).
  destruct (String.compare s t) eqn:E; simpl; auto; try discriminate.
  intros _ H. exfalso. apply H, String.compare_eq_iff, E.
Qed.

Lemma sorted_strictly (l : list value) :
  Forall is_text l -> NoDup l ->
  Sorted (fun a b => String.ltb (Spec.text b) (Spec.text a) = false) l ->
  Sorted (fun a b => String.ltb (Spec.text a) (Spec.text b) = true) l.
Proof.
  intros Ht Hnd Hs. induction Hs as [|x l Hl IH Hx]; [constructor|].
  inversion Ht as [|? ? Hxt Hlt]; subst. inversion Hnd as [|? ? Hxl Hndl]; subst.
  constructor; [apply IH; assumption|].
  destruct Hx as [|y l Hy]; constructor.
  destruct Hxt as [s ->]. inversion Hlt as [|? ? [t ->] _]; subst. simpl in *.
  apply string_ltb_trichotomy; [exact Hy|].
  intros ->. apply Hxl. left; reflexivity.
Qed.

Lemma index_of_member (keys : list value) (k : value) :
  In k keys -> hashable k = true -> exists i, Vectorizer.index_of keys k = Some i.
Proof.
  induction keys as [|k' keys IH]; simpl; intros Hin Hk; [contradiction|].
  destruct (key_eqb k' k) eqn:E; [eauto|].
  destruct Hin as [->|Hin]; [rewrite (key_eqb_refl _ Hk) in E; discriminate|].
  destruct (IH Hin Hk) as [i Hi]. rewrite Hi. simpl. eauto.
Qed.

(** The types that the encoder is built from. *)
Lemma encoder_types_text (events : list dict) :
  Forall (fun e => Spec.text_or_null (get e "type") = true) events ->
  Forall is_text (map (fun event => get event "type")
                      (filter (fun event => truthy (get event "type")) events)).
Proof.
  intros H. apply Forall_forall. intros v Hv.
  apply in_map_iff in Hv. destruct Hv as (e & <- & He).
  apply filter_In in He. destruct He as [He Ht].
  rewrite Forall_forall in H. specialize (H _ He).
  destruct (get e "type"); try discriminate. eexists; reflexivity.
Qed.

(** The encoder that [build_event_type_encoder] leaves on such events. *)
Lemma build_event_type_encoder_text (self : Vectorizer.EventVectorizer)
    (events : list dict) :
  Forall (fun e => Spec.text_or_null (get e "type") = true) events ->
  Vectorizer.build_event_type_encoder self events
  = Ok {| Vectorizer.event_type_map := sort_by by_text (distinct (types_of events));
          Vectorizer.embedding_model := Vectorizer.embedding_model self;
          Vectorizer.embedding_cache := Vectorizer.embedding_cache self |}.
Proof.
  intros Hev. pose proof (encoder_types_text Hev) as Htext.
  fold (types_of events) in Htext.
  assert (Hset : py_set (types_of events) = Ok (distinct (types_of events))).
  { unfold py_set. replace (forallb hashable (types_of events)) with true;
      [reflexivity|].
    symmetry. apply forallb_forall. intros v Hv.
    rewrite Forall_forall in Htext. destruct (Htext _ Hv) as [s ->]. reflexivity. }
  assert (Hdtext : Forall is_text (distinct (types_of events))).
  { apply Forall_forall. intros v Hv. apply (distinct_In_text v Htext) in Hv.
    rewrite Forall_forall in Htext. apply Htext, Hv. }
  assert (Hsort : sort (fun et : value => et) py_lt (distinct (types_of events))
                  = Ok (sort_by by_text (distinct (types_of events)))).
  { apply sort_comparable with (comparable := is_text); [|exact Hdtext].
    intros y x [s ->] [t ->]. reflexivity. }
  unfold Vectorizer.build_event_type_encoder. fold (types_of events).
  rewrite Hset. cbv beta iota delta [bind]. rewrite Hsort. reflexivity.
Qed.

Lemma encoder_member (events : list dict) (k : value) :
  Forall (fun e => Spec.text_or_null (get e "type") = true) events ->
  (In k (sort_by by_text (distinct (types_of events))) <->
   exists s, k = VStr s /\ s <> "" /\
             exists e, In e events /\ get e "type" = VStr s).
Proof.
  intros Hev. pose proof (encoder_types_text Hev) as Htext.
  fold (types_of events) in Htext.
  assert (Hperm := sort_by_perm by_text (distinct (types_of events))).
  split.
  - intros Hk. apply (Permutation_in _ Hperm) in Hk.
    apply (distinct_In_text k Htext) in Hk.
    unfold types_of in Hk. apply in_map_iff in Hk.
    destruct Hk as (e & <- & He). apply filter_In in He. destruct He as [He Ht].
    rewrite Forall_forall in Hev. specialize (Hev _ He).
    destruct (get e "type") eqn:Ety; try discriminate.
    exists s. split; [reflexivity|]. split; [|eauto].
    intros ->. discriminate.
  - intros (s & -> & Hs & e & He & Ety).
    apply (Permutation_in _ (Permutation_sym Hperm)).
    apply (distinct_In_text (VStr s) Htext).
    unfold types_of. apply in_map_iff. exists e. split; [exact Ety|].
    apply filter_In. split; [exact He|]. rewrite Ety. simpl.
    apply negb_true_iff, String.eqb_neq, Hs.
Qed.

(** X9.  On events whose type is text, null or missing,
    [build_event_type_encoder] never raises and replaces the encoder by the
    distinct non-empty types of the events in strictly ascending order,
    whatever the encoder was before; the embedding model and the cache are
    kept.  Every typed event of the batch then has an index in the
    encoder. *)
Theorem build_event_type_encoder_sorts_distinct_types :
  forall (self : Vectorizer.EventVectorizer) (events : list dict),
    Forall (fun e => Spec.text_or_null (get e "type") = true) events ->
    exists enc : Vectorizer.EventVectorizer,
      Vectorizer.build_event_type_encoder self events = Ok enc /\
      Vectorizer.embedding_model enc = Vectorizer.embedding_model self /\
      Vectorizer.embedding_cache enc = Vectorizer.embedding_cache self /\
      Sorted (fun a b => String.ltb (Spec.text a) (Spec.text b) = true)
             (Vectorizer.event_type_map enc) /\
      NoDup (Vectorizer.event_type_map enc) /\
      (forall k, In k (Vectorizer.event_type_map enc) <->
                 exists s, k = VStr s /\ s <> "" /\
                           exists e, In e events /\ get e "type" = VStr s) /\
      (forall e s, In e events -> get e "type" = VStr s -> s <> "" ->
                   exists i, Vectorizer.index_of (Vectorizer.event_type_map enc)
                               (VStr s) = Some i).
Proof.
  intros self events Hev.
  pose proof (encoder_types_text Hev) as Htext. fold (types_of events) in Htext.
  assert (Hperm := sort_by_perm by_text (distinct (types_of events))).
  eexists. split; [apply build_event_type_encoder_text, Hev|].
  split; [reflexivity|]. split; [reflexivity|]. cbn [Vectorizer.event_type_map].
  assert (Hnd : NoDup (sort_by by_text (distinct (types_of events)))).
  { eapply Permutation_NoDup; [apply Permutation_sym, Hperm|].
    apply distinct_NoDup_text, Htext. }
  split.
  { apply sorted_strictly; [|exact Hnd|].
    - apply Forall_forall. intros v Hv. apply (Permutation_in _ Hperm) in Hv.
      apply (distinct_In_text v Htext) in Hv.
      rewrite Forall_forall in Htext. apply Htext, Hv.
    - apply (sort_by_not_after by_text).
      intros a b. unfold by_text. apply string_ltb_asym. }
  split; [exact Hnd|].
  split; [intros k; apply encoder_member, Hev|].
  intros e s He Ety Hs. apply index_of_member; [|reflexivity].
  apply (encoder_member (VStr s) Hev).
  exists s. split; [reflexivity|]. split; [exact Hs|]. eauto.
Qed.

Lemma build_event_type_encoder_sorts_distinct_types_witness :
  exists enc : Vectorizer.EventVectorizer,
    Vectorizer.build_event_type_encoder Samples.edit_encoder
      MoreSamples.typed_events = Ok enc /\
    Vectorizer.event_type_map enc = [VStr "edit"; VStr "prompt"].
Proof.
  assert (Hev : Forall (fun e => Spec.text_or_null (get e "type") = true)
                       MoreSamples.typed_events)
    by (repeat constructor).
  destruct (build_event_type_encoder_sorts_distinct_types Samples.edit_encoder Hev)
    as (enc & Hb & _).
  exists enc. split; [exact Hb|].
  vm_compute in Hb. inversion Hb. reflexivity.
Defined.

Lemma cache_lookup_head (cache : list (string * Vectorizer.embedding))
    (text : string) (e : Vectorizer.embedding) :
  Vectorizer.cache_lookup ((text, e) :: cache) text = Some e.
Proof. simpl. rewrite String.eqb_refl. reflexivity. Qed.

Lemma embed_text_cached cfg HAS_REQUESTS openrouter huggingface
    (self : Vectorizer.EventVectorizer) (text : string) (e : Vectorizer.embedding) :
  Vectorizer.blank text = false ->
  Vectorizer.cache_lookup (Vectorizer.embedding_cache self) text = Some e ->
  Vectorizer.embed_text cfg HAS_REQUESTS openrouter huggingface self text
  = (Some e, self).
Proof.
  intros Hb Hc. unfold Vectorizer.embed_text. rewrite Hb, Hc. reflexivity.
Qed.

(** X10.  [embed_text] keeps what it returns: after a call that gave an
    embedding, the cache holds it under the text, and every later call on
    the same text gives the same embedding and leaves the vectorizer as it
    is, whatever the configuration, the local model's or the services'
    answers then are.  A call that gives no embedding leaves the vectorizer
    unchanged (failures are not cached).  The event-type encoder and the
    model are never touched; the cache changes by at most the one entry. *)
Theorem embed_text_cache_round_trip :
  forall (cfg : config) (HAS_REQUESTS : bool)
         (openrouter huggingface : string -> result Vectorizer.embedding)
         (self self' : Vectorizer.EventVectorizer) (text : string)
         (r : option Vectorizer.embedding),
    Vectorizer.embed_text cfg HAS_REQUESTS openrouter huggingface self text
    = (r, self') ->
    Vectorizer.event_type_map self' = Vectorizer.event_type_map self /\
    Vectorizer.embedding_model self' = Vectorizer.embedding_model self /\
    match r with
    | Some e =>
        Vectorizer.cache_lookup (Vectorizer.embedding_cache self') text = Some e /\
        (Vectorizer.embedding_cache self' = Vectorizer.embedding_cache self \/
         Vectorizer.embedding_cache self'
         = (text, e) :: Vectorizer.embedding_cache self) /\
        (forall cfg' HAS_REQUESTS' openrouter' huggingface',
            Vectorizer.embed_text cfg' HAS_REQUESTS' openrouter' huggingface'
              self' text = (Some e, self'))
    | None => self' = self
    end.
Proof.
  intros cfg HR orq hfq self self' text r H.
  unfold Vectorizer.embed_text in H.
  destruct (Vectorizer.blank text) eqn:Hb.
  { inversion H; subst. auto. }
  destruct (Vectorizer.cache_lookup (Vectorizer.embedding_cache self) text)
    as [c|] eqn:Hc.
  { inversion H; subst. repeat split; auto.
    intros. apply embed_text_cached; assumption. }
  cbv zeta in H.
  match type of H with
  | match ?found with Some _ => _ | None => _ end = _ =>
      destruct found as [e|] eqn:Hfound
  end.
  - inversion H; subst. cbn [Vectorizer.event_type_map Vectorizer.embedding_model
                              Vectorizer.embedding_cache].
    repeat split; auto using cache_lookup_head.
    intros. apply embed_text_cached; [assumption|]. apply cache_lookup_head.
  - inversion H; subst. auto.
Qed.

Lemma embed_text_cache_round_trip_witness :
  exists self' : Vectorizer.EventVectorizer,
    Vectorizer.embed_text Samples.openrouter_config true
      Samples.answering_service MoreSamples.failing_service
      (MoreSamples.fresh_vectorizer Samples.openrouter_config) "fix the parser"
    = (Some [1 # 2; 1 # 4]%Q, self') /\
    Vectorizer.embed_text MoreSamples.local_config false
      MoreSamples.failing_service MoreSamples.failing_service self' "fix the parser"
    = (Some [1 # 2; 1 # 4]%Q, self').
Proof.
  eexists. split; [reflexivity|].
  apply (embed_text_cache_round_trip Samples.openrouter_config true
           Samples.answering_service MoreSamples.failing_service
           (MoreSamples.fresh_vectorizer Samples.openrouter_config)
           "fix the parser" eq_refl).
Defined.

(** X11.  A vectorizer made by [__init__] asks at most the one provider
    that the configuration names.  Under the service 'local' the answer on
    any text does not depend on the two remote services (a failed or
    missing local model is not followed by a remote request); under any
    other service it does not depend on the local model. *)
Theorem embed_text_asks_only_the_configured_provider :
  forall (cfg : config) (HAS_REQUESTS : bool)
         (local_model local_model' : option (string -> result Vectorizer.embedding))
         (openrouter huggingface openrouter' huggingface'
            : string -> result Vectorizer.embedding)
         (text : string),
    (EMBEDDING_SERVICE cfg = "local" ->
     fst (Vectorizer.embed_text cfg HAS_REQUESTS openrouter huggingface
            (Vectorizer.init cfg local_model) text)
     = fst (Vectorizer.embed_text cfg HAS_REQUESTS openrouter' huggingface'
              (Vectorizer.init cfg local_model) text)) /\
    (EMBEDDING_SERVICE cfg <> "local" ->
     Vectorizer.embed_text cfg HAS_REQUESTS openrouter huggingface
       (Vectorizer.init cfg local_model) text
     = Vectorizer.embed_text cfg HAS_REQUESTS openrouter huggingface
         (Vectorizer.init cfg local_model') text).
Proof.
  intros cfg HR lm lm' orq hfq orq' hfq' text. split.
  - intros Hs. unfold Vectorizer.embed_text, Vectorizer.init.
    cbn [Vectorizer.event_type_map Vectorizer.embedding_model
         Vectorizer.embedding_cache Vectorizer.cache_lookup].
    rewrite Hs. cbn [String.eqb Ascii.eqb Bool.eqb andb].
    destruct (Vectorizer.blank text); [reflexivity|].
    destruct lm as [encode|]; [destruct (encode text)|]; reflexivity.
  - intros Hs. apply String.eqb_neq in Hs.
    unfold Vectorizer.init. rewrite Hs. reflexivity.
Qed.

Lemma embed_text_asks_only_the_configured_provider_witness :
  fst (Vectorizer.embed_text MoreSamples.local_config true
         Samples.answering_service Samples.answering_service
         (Vectorizer.init MoreSamples.local_config None) "fix the parser")
  = fst (Vectorizer.embed_text MoreSamples.local_config true
           MoreSamples.failing_service MoreSamples.failing_service
           (Vectorizer.init MoreSamples.local_config None) "fix the parser").
Proof.
  apply (proj1 (embed_text_asks_only_the_configured_provider
                  MoreSamples.local_config true None None
                  Samples.answering_service Samples.answering_service
                  MoreSamples.failing_service MoreSamples.failing_service
                  "fix the parser")).
  reflexivity.
Defined.

(* ================================================================== *)
(** * Vectorizing a batch of sequences                                  *)
(* ================================================================== *)

Lemma mapM_succeeds (A B : Type) (f : A -> result B) (R : A -> B -> Prop)
    (l : list A) :
  (forall x, In x l -> exists y, f x = Ok y /\ R x y) ->
  exists r, mapM f l = Ok r /\ Forall2 R l r.
Proof.
  induction l as [|x l IH]; intros H.
  - exists []. split; [reflexivity | constructor].
  - destruct (H x (or_introl eq_refl)) as (y & Hy & Rxy).
    destruct IH as (r & Hr & HR); [intros z Hz; apply H; right; exact Hz|].
    exists (y :: r). simpl. rewrite Hy. simpl. rewrite Hr. simpl.
    split; [reflexivity | constructor; assumption].
Qed.

Lemma index_of_absent (keys : list value) (t : value) :
  (forall k, In k keys -> key_eqb k t = false) ->
  Vectorizer.index_of keys t = None.
Proof.
  induction keys as [|k keys IH]; simpl; intros H; [reflexivity|].
  rewrite (H k (or_introl eq_refl)). rewrite IH; [reflexivity|].
  intros k' Hk'. apply H. right. exact Hk'.
Qed.

Lemma one_hot_encode_at (self : Vectorizer.EventVectorizer) (t : value) (i : nat) :
  hashable t = true ->
  Vectorizer.index_of (Vectorizer.event_type_map self) t = Some i ->
  Vectorizer.one_hot_encode_event_type self t
  = Ok (Vectorizer.set_one i
          (repeat 0%Q (List.length (Vectorizer.event_type_map self)))).
Proof.
  intros Ht Hi. unfold Vectorizer.one_hot_encode_event_type.
  destruct (Vectorizer.event_type_map self) as [|k keys] eqn:Hmap; [discriminate|].
  rewrite Ht, Hi. reflexivity.
Qed.

(** The one-hot code of an event under an encoder that holds non-empty
    texts, among them the type of the event if it has one. *)
Lemma one_hot_of_event (enc : Vectorizer.EventVectorizer) (e : dict) :
  Spec.text_or_null (get e "type") = true ->
  (forall k, In k (Vectorizer.event_type_map enc) ->
             exists s, k = VStr s /\ s <> "") ->
  (truthy (get e "type") = true ->
   In (get e "type") (Vectorizer.event_type_map enc)) ->
  exists one_hot : list Q,
    Vectorizer.one_hot_encode_event_type enc (get_default e "type" (VStr ""))
    = Ok one_hot /\
    List.length one_hot = List.length (Vectorizer.event_type_map enc) /\
    if truthy (get e "type")
    then exists i, Vectorizer.index_of (Vectorizer.event_type_map enc) (get e "type")
                   = Some i /\
                   forall j, nth j one_hot 0%Q = if (j =? i)%nat then 1%Q else 0%Q
    else one_hot = repeat 0%Q (List.length (Vectorizer.event_type_map enc)).
Proof.
  intros Hty Hkeys Hin.
  assert (Habsent : forall t, (t = VNone \/ t = VStr "") ->
            Vectorizer.index_of (Vectorizer.event_type_map enc) t = None).
  { intros t Ht. apply index_of_absent. intros k Hk.
    destruct (Hkeys k Hk) as (s & -> & Hs).
    destruct Ht as [-> | ->]; [reflexivity|].
    simpl. apply String.eqb_neq, Hs. }
  assert (Hzero : forall t, (t = VNone \/ t = VStr "") ->
            exists one_hot,
              Vectorizer.one_hot_encode_event_type enc t = Ok one_hot /\
              List.length one_hot = List.length (Vectorizer.event_type_map enc) /\
              one_hot = repeat 0%Q (List.length (Vectorizer.event_type_map enc))).
  { intros t Ht.
    destruct (@one_hot_encode_total enc t) as (v & Hv & Hlen & Hz).
    { right. destruct Ht as [-> | ->]; reflexivity. }
    exists v. repeat split; auto. }
  unfold get, get_default in *.
  destruct (lookup e "type") as [t|] eqn:Hl.
  - destruct t as [| | | |s| |]; try discriminate.
    + apply Hzero. left. reflexivity.
    + simpl. destruct (s =? "") eqn:Es.
      * apply String.eqb_eq in Es. subst s. simpl. apply Hzero. right. reflexivity.
      * simpl. simpl in Hin. rewrite Es in Hin. specialize (Hin eq_refl).
        destruct (index_of_member _ _ Hin eq_refl) as [i Hi].
        destruct (index_of_found _ _ Hi) as [Hlt _].
        eexists. split; [apply (one_hot_encode_at enc (VStr s) eq_refl Hi)|].
        split; [rewrite set_one_length, repeat_length; reflexivity|].
        exists i. split; [exact Hi|]. intros j. apply nth_set_one, Hlt.
  - simpl. apply Hzero. right. reflexivity.
Qed.

Lemma build_prompts_map_total (events : list dict) :
  Forall (fun e => hashable (get e "prompt_id") = true) events ->
  forall m, exists m', SequenceProcessor.build_prompts_map events m = Ok m'.
Proof.
  induction 1 as [|e events He _ IH]; intros m; simpl; [eauto|].
  rewrite He. destruct (truthy (get e "prompt_id") && has_key e "prompt_text");
    apply IH.
Qed.

(** One event of [vectorize_sequence]. *)
Lemma vectorize_sequence_encodes (enc : Vectorizer.EventVectorizer)
    (prompts : Vectorizer.prompts_map) (seq : list dict) :
  (forall k, In k (Vectorizer.event_type_map enc) ->
             exists s, k = VStr s /\ s <> "") ->
  (forall e, In e seq -> encodable e = true /\
                         (truthy (get e "type") = true ->
                          In (get e "type") (Vectorizer.event_type_map enc))) ->
  exists items,
    Vectorizer.vectorize_sequence enc seq prompts = Ok items /\
    Forall2 (encoded_as enc) seq items.
Proof.
  intros Hkeys Hseq. unfold Vectorizer.vectorize_sequence.
  apply mapM_succeeds. intros e He.
  destruct (Hseq e He) as [Henc Hin].
  unfold encodable in Henc. apply andb_true_iff in Henc. destruct Henc as [Hty Hpid].
  destruct (one_hot_of_event enc e Hty Hkeys Hin) as (one_hot & Hv & Hlen & Hcode).
  assert (Hprompt : exists prompt_text,
             (if truthy (get e "prompt_id") then
                if hashable (get e "prompt_id") then
                  match Vectorizer.map_lookup prompts (get e "prompt_id") with
                  | Some p => Ok (get p "text")
                  | None => Ok VNone
                  end
                else Raise (TypeError "unhashable type")
              else Ok VNone) = Ok prompt_text).
  { rewrite Hpid. destruct (truthy (get e "prompt_id")); [|eauto].
    destruct (Vectorizer.map_lookup prompts (get e "prompt_id")); eauto. }
  destruct Hprompt as [prompt_text Hp].
  eexists. split.
  - cbv zeta. rewrite Hp. cbv beta iota delta [bind].
    unfold Vectorizer.vectorize_event. rewrite Hv. cbv beta iota delta [bind].
    reflexivity.
  - unfold encoded_as. cbv zeta. split; [reflexivity|]. split; [reflexivity|].
    exists one_hot. repeat split; auto.
Qed.

(** X12.  On sequences of events whose type is text or null and whose
    prompt id can be a dict key, [vectorize_sequences] never raises.  It
    sets the encoder to the one built from all events of the batch, and
    returns one record per sequence, in order, whose [length] is the length
    of the sequence and whose [sequence] holds one vectorized event per
    event, in order.  Every event that has a type is in the encoder, so its
    one-hot code has exactly one 1.0, at the index of its type; an event
    without a type gets all zeros; all vectors of the batch have the same
    dimension, the size of the encoder plus 768. *)
Theorem vectorize_sequences_encodes_every_event :
  forall (self : SequenceProcessor.SequenceProcessor) (sequences : list (list dict)),
    Forall (Forall (fun e => encodable e = true)) sequences ->
    exists (enc : Vectorizer.EventVectorizer) (out : list value),
      SequenceProcessor.vectorize_sequences self sequences
      = Ok ({| SequenceProcessor.db := SequenceProcessor.db self;
               SequenceProcessor.vectorizer := enc |}, out) /\
      Vectorizer.build_event_type_encoder (SequenceProcessor.vectorizer self)
        (List.concat sequences) = Ok enc /\
      Forall2 (fun seq vs =>
                 exists (items : list value) (meta : value),
                   Spec.field vs "sequence" = Some (VList items) /\
                   Spec.field vs "metadata" = Some meta /\
                   Spec.field meta "length"
                   = Some (VInt (Z.of_nat (List.length seq))) /\
                   Forall2 (encoded_as enc) seq items)
              sequences out.
Proof.
  intros self sequences Hall.
  assert (Hev : Forall (fun e => Spec.text_or_null (get e "type") = true)
                       (List.concat sequences)).
  { apply Forall_forall. intros e He. apply in_concat in He.
    destruct He as (seq & Hseq & He).
    rewrite Forall_forall in Hall. specialize (Hall _ Hseq).
    rewrite Forall_forall in Hall. specialize (Hall _ He).
    unfold encodable in Hall. apply andb_true_iff in Hall. apply Hall. }
  assert (Hpid : Forall (fun e => hashable (get e "prompt_id") = true)
                        (List.concat sequences)).
  { apply Forall_forall. intros e He. apply in_concat in He.
    destruct He as (seq & Hseq & He).
    rewrite Forall_forall in Hall. specialize (Hall _ Hseq).
    rewrite Forall_forall in Hall. specialize (Hall _ He).
    unfold encodable in Hall. apply andb_true_iff in Hall. apply Hall. }
  pose proof (build_event_type_encoder_text (SequenceProcessor.vectorizer self) Hev)
    as Hbuild.
  destruct (build_prompts_map_total Hpid []) as [prompts Hprompts].
  set (enc := {| Vectorizer.event_type_map :=
                   sort_by by_text (distinct (types_of (List.concat sequences)));
                 Vectorizer.embedding_model :=
                   Vectorizer.embedding_model (SequenceProcessor.vectorizer self);
                 Vectorizer.embedding_cache :=
                   Vectorizer.embedding_cache (SequenceProcessor.vectorizer self) |})
    in *.
  assert (Hkeys : forall k, In k (Vectorizer.event_type_map enc) ->
                            exists s, k = VStr s /\ s <> "").
  { intros k Hk. apply (encoder_member k Hev) in Hk.
    destruct Hk as (s & -> & Hs & _). eauto. }
  destruct (@mapM_succeeds (list dict) value
              (fun seq =>
                 vectorized <- Vectorizer.vectorize_sequence enc seq prompts ;;
                 Ok (VDict [ ("sequence", VList vectorized);
                             ("metadata",
                              VDict [ ("session_id",
                                       SequenceProcessor.first_field seq "session_id");
                                      ("workspace_path",
                                       SequenceProcessor.first_field seq "workspace_path");
                                      ("length", VInt (Z.of_nat (List.length seq)));
                                      ("timestamp_range",
                                       VList [ SequenceProcessor.first_field seq "timestamp";
                                               SequenceProcessor.last_field seq "timestamp" ]) ]) ]))
              (fun seq vs =>
                 exists (items : list value) (meta : value),
                   Spec.field vs "sequence" = Some (VList items) /\
                   Spec.field vs "metadata" = Some meta /\
                   Spec.field meta "length"
                   = Some (VInt (Z.of_nat (List.length seq))) /\
                   Forall2 (encoded_as enc) seq items)
              sequences) as (out & Hout & Hshape).
  { intros seq Hseq.
    destruct (@vectorize_sequence_encodes enc prompts seq Hkeys) as (items & Hi & Hit).
    { intros e He. rewrite Forall_forall in Hall. specialize (Hall _ Hseq).
      rewrite Forall_forall in Hall. split; [apply Hall, He|].
      intros Ht. apply (encoder_member (get e "type") Hev).
      assert (Hc : In e (List.concat sequences))
        by (apply in_concat; exists seq; split; assumption).
      rewrite Forall_forall in Hev. specialize (Hev _ Hc).
      destruct (get e "type") as [| | | |s| |] eqn:Ety; try discriminate.
      exists s. split; [reflexivity|]. split; [|eauto].
      intros ->. discriminate. }
    eexists. split; [rewrite Hi; cbv beta iota delta [bind]; reflexivity|].
    eexists. eexists. split; [reflexivity|]. split; [reflexivity|].
    split; [reflexivity | exact Hit]. }
  exists enc, out. split; [|split; [exact Hbuild | exact Hshape]].
  unfold SequenceProcessor.vectorize_sequences.
  rewrite Hbuild. fold enc.
  cbv beta iota delta [bind] in Hout |- *. rewrite Hprompts, Hout. reflexivity.
Qed.

Lemma vectorize_sequences_encodes_every_event_witness :
  exists (enc : Vectorizer.EventVectorizer) (out : list value),
    SequenceProcessor.vectorize_sequences (Samples.processor_on [])
      [MoreSamples.typed_events]
    = Ok ({| SequenceProcessor.db := SequenceProcessor.db (Samples.processor_on []);
             SequenceProcessor.vectorizer := enc |}, out) /\
    Vectorizer.event_type_map enc = [VStr "edit"; VStr "prompt"].
Proof.
  destruct (@vectorize_sequences_encodes_every_event (Samples.processor_on [])
              [MoreSamples.typed_events]) as (enc & out & H & Hb & _).
  { repeat constructor. }
  exists enc, out. split; [exact H|].
  vm_compute in Hb. inversion Hb. reflexivity.
Defined.

Lemma map_lookup_store (m : Vectorizer.prompts_map) (k' k : value) (v : dict) :
  Vectorizer.map_lookup (SequenceProcessor.map_store m k' v) k
  = if key_eqb k' k then Some v else Vectorizer.map_lookup m k.
Proof.
  induction m as [|[k0 v0] m IH]; simpl; [reflexivity|].
  destruct (key_eqb k0 k') eqn:E0; simpl.
  - destruct (key_eqb k0 k) eqn:E1.
    + rewrite key_eqb_sym in E0. rewrite (key_eqb_trans _ _ _ E0 E1). reflexivity.
    + destruct (key_eqb k' k) eqn:E2; [|reflexivity].
      rewrite (key_eqb_trans _ _ _ E0 E2) in E1. discriminate.
  - destruct (key_eqb k0 k) eqn:E1.
    + destruct (key_eqb k' k) eqn:E2; [|reflexivity].
      rewrite key_eqb_sym in E1. pose proof (key_eqb_trans _ _ _ E2 E1) as E3.
      rewrite key_eqb_sym in E3. congruence.
    + exact IH.
Qed.

Lemma find_snoc (A : Type) (p : A -> bool) (l : list A) (x : A) :
  find p (l ++ [x]) = match find p l with Some y => Some y | None => find p [x] end.
Proof.
  induction l as [|y l IH]; simpl; [reflexivity|].
  destruct (p y); [reflexivity | exact IH].
Qed.

Lemma build_prompts_map_lookup (events : list dict) :
  forall (m m' : Vectorizer.prompts_map) (k : value),
    SequenceProcessor.build_prompts_map events m = Ok m' ->
    Vectorizer.map_lookup m' k
    = match last_prompt events k with
      | Some e => Some [("text", get e "prompt_text")]
      | None => Vectorizer.map_lookup m k
      end.
Proof.
  unfold last_prompt.
  induction events as [|e events IH]; simpl; intros m m' k H.
  - inversion H. reflexivity.
  - rewrite find_snoc. simpl.
    destruct (truthy (get e "prompt_id") && has_key e "prompt_text") eqn:Hc.
    + destruct (hashable (get e "prompt_id")); [|discriminate].
      rewrite (IH _ _ k H).
      destruct (find (carries_prompt k) (rev events)); [reflexivity|].
      rewrite map_lookup_store. unfold carries_prompt. rewrite Hc. simpl.
      destruct (key_eqb (get e "prompt_id") k); reflexivity.
    + rewrite (IH _ _ k H).
      destruct (find (carries_prompt k) (rev events)); [reflexivity|].
      unfold carries_prompt. rewrite Hc. reflexivity.
Qed.

(** X13.  The prompts map that [vectorize_sequences] builds keeps, for
    every prompt id, the text of the last event of the batch that carries
    that id together with a prompt text (ids compared with [==], so 7 and
    7.0 are one key); ids that no such event carries are not in the map.
    It is built without an exception whenever the prompt ids can be dict
    keys. *)
Theorem build_prompts_map_last_text_wins :
  forall events : list dict,
    Forall (fun e => hashable (get e "prompt_id") = true) events ->
    exists m : Vectorizer.prompts_map,
      SequenceProcessor.build_prompts_map events [] = Ok m /\
      forall k : value,
        Vectorizer.map_lookup m k
        = option_map (fun e => [("text", get e "prompt_text")])
                     (last_prompt events k).
Proof.
  intros events Hev.
  destruct (build_prompts_map_total Hev []) as [m Hm].
  exists m. split; [exact Hm|]. intros k.
  rewrite (build_prompts_map_lookup events [] k Hm).
  destruct (last_prompt events k); reflexivity.
Qed.

Lemma build_prompts_map_last_text_wins_witness :
  exists m : Vectorizer.prompts_map,
    SequenceProcessor.build_prompts_map MoreSamples.prompted_events [] = Ok m /\
    Vectorizer.map_lookup m (VFloat 7) = Some [("text", VStr "last text")].
Proof.
  destruct (@build_prompts_map_last_text_wins MoreSamples.prompted_events)
    as (m & Hm & Hk).
  { repeat constructor. }
  exists m. split; [exact Hm|]. rewrite Hk. reflexivity.
Defined.

(* ================================================================== *)
(** * Padding and flattening a batch                                    *)
(* ================================================================== *)

Lemma mapM_map_total (A B C : Type) (g : A -> B) (f : B -> result C) (h : A -> C)
    (l : list A) :
  (forall x, In x l -> f (g x) = Ok (h x)) -> mapM f (map g l) = Ok (map h l).
Proof.
  induction l as [|x l IH]; simpl; intros H; [reflexivity|].
  rewrite (H x (or_introl eq_refl)). simpl.
  rewrite IH by (intros y Hy; apply H; right; exact Hy). reflexivity.
Qed.

(** The first exception of a comprehension, when every element either
    succeeds or raises the same exception. *)
Lemma mapM_first_exception (A B : Type) (f : A -> result B) (e : exn) (l : list A) :
  (forall x, In x l -> (exists y, f x = Ok y) \/ f x = Raise e) ->
  (exists x, In x l /\ f x = Raise e) ->
  mapM f l = Raise e.
Proof.
  induction l as [|x l IH]; simpl; intros Hall (z & Hz & Hfz); [contradiction|].
  destruct (Hall x (or_introl eq_refl)) as [[y Hy]|Hx].
  - rewrite Hy. simpl. rewrite IH; [reflexivity | auto |].
    destruct Hz as [->|Hz]; [congruence | eauto].
  - rewrite Hx. reflexivity.
Qed.

Lemma fold_left_max (ns : list nat) (n : nat) :
  fold_left Nat.max ns n = Nat.max n (list_max ns).
Proof.
  revert n; induction ns as [|a ns IH]; intros n; simpl.
  - lia.
  - rewrite IH. lia.
Qed.

Lemma max_len_batch (seqs : list (list (list value))) :
  seqs <> [] -> ClusterSequences.max_len (as_batch seqs) = Ok (longest seqs).
Proof.
  intros Hne. unfold ClusterSequences.max_len, as_batch.
  rewrite (@mapM_map_total _ _ _ (fun s => VList (map VList s)) py_len
             (@List.length (list value)) seqs).
  2:{ intros x _. simpl. rewrite length_map. reflexivity. }
  cbv beta iota delta [bind].
  destruct seqs as [|s0 seqs]; [congruence|]. unfold longest.
  cbn [map list_max fold_right]. rewrite fold_left_max. reflexivity.
Qed.

Lemma longest_bound (seqs : list (list (list value))) (s : list (list value)) :
  In s seqs -> (List.length s <= longest seqs)%nat.
Proof.
  intros Hin. unfold longest.
  assert (H : Forall (fun k => (k <= list_max (map (@List.length (list value)) seqs))%nat)
                     (map (@List.length (list value)) seqs))
    by (apply list_max_le; lia).
  rewrite Forall_forall in H. apply H. apply in_map. exact Hin.
Qed.

Lemma longest_attained (seqs : list (list (list value))) :
  seqs <> [] -> exists s, In s seqs /\ List.length s = longest seqs.
Proof.
  unfold longest. induction seqs as [|s seqs IH]; intros Hne; [congruence|].
  simpl. destruct seqs as [|s' seqs'].
  - exists s. split; [left; reflexivity|]. simpl. lia.
  - destruct IH as (t & Ht & Hlen); [discriminate|].
    destruct (Nat.max_spec (List.length s)
                (list_max (map (@List.length (list value)) (s' :: seqs'))))
      as [[_ E]|[_ E]]; rewrite E.
    + exists t. split; [right; exact Ht | exact Hlen].
    + exists s. split; [left; reflexivity | reflexivity].
Qed.

(** One turn of the padding loop on a sequence of vectors that is not
    empty. *)
Lemma pad_one_vectors (m : nat) (s : list (list value)) :
  s <> [] -> (List.length s <= m)%nat ->
  ClusterSequences.pad_one m (VList (map VList s))
  = Ok (VList (map VList
                 (s ++ repeat (zero_vector (List.length (hd [] s)))
                              (m - List.length s)))).
Proof.
  intros Hne Hle. unfold ClusterSequences.pad_one. simpl py_len.
  cbv beta iota delta [bind]. rewrite length_map.
  destruct (List.length s <? m)%nat eqn:E.
  - destruct s as [|v s]; [congruence|]. simpl map. simpl hd.
    cbn [ClusterSequences.first_item py_len].
    rewrite map_app, map_repeat. reflexivity.
  - apply Nat.ltb_ge in E. assert (Em : List.length s = m) by lia.
    replace (m - List.length s)%nat with 0%nat by lia. simpl repeat.
    rewrite app_nil_r. rewrite firstn_all2; [reflexivity|].
    rewrite length_map. lia.
Qed.

(** X14.  On a batch of non-empty sequences of vectors, the list that
    [pad_sequences] builds (and hands to [np.array]) is the batch with
    every sequence brought to the length of the longest one (a length that
    no sequence exceeds and one sequence has): each sequence is kept as it
    is and followed by zero vectors as wide as its own first vector.
    Nothing is cut. *)
Theorem pad_sequences_extends_to_the_longest :
  forall seqs : list (list (list value)),
    seqs <> [] ->
    Forall (fun s => s <> []) seqs ->
    let m := longest seqs in
    let padded :=
      map (fun s => s ++ repeat (zero_vector (List.length (hd [] s)))
                               (m - List.length s)) seqs in
    ClusterSequences.pad_sequences (as_batch seqs) = Ok (as_batch padded, m) /\
    Forall (fun s => (List.length s <= m)%nat) seqs /\
    Exists (fun s => List.length s = m) seqs /\
    Forall (fun p => List.length p = m) padded.
Proof.
  intros seqs Hne Hall m padded.
  assert (Hbound : Forall (fun s => (List.length s <= m)%nat) seqs).
  { apply Forall_forall. intros s Hs. apply longest_bound, Hs. }
  split; [|split; [exact Hbound|split]].
  - unfold ClusterSequences.pad_sequences.
    rewrite (max_len_batch Hne). cbv beta iota delta [bind]. fold m.
    unfold as_batch at 1.
    rewrite (@mapM_map_total _ _ _ (fun s => VList (map VList s))
               (ClusterSequences.pad_one m)
               (fun s => VList (map VList
                           (s ++ repeat (zero_vector (List.length (hd [] s)))
                                        (m - List.length s)))) seqs).
    + unfold as_batch, padded. rewrite map_map. reflexivity.
    + intros s Hs. rewrite Forall_forall in Hall, Hbound.
      apply pad_one_vectors; auto.
  - apply Exists_exists. apply longest_attained, Hne.
  - unfold padded. apply Forall_forall. intros p Hp.
    apply in_map_iff in Hp. destruct Hp as (s & <- & Hs).
    rewrite Forall_forall in Hbound. specialize (Hbound _ Hs).
    rewrite length_app, repeat_length. lia.
Qed.

Lemma pad_sequences_extends_to_the_longest_witness :
  ClusterSequences.pad_sequences
    (as_batch [ [[VFloat 1; VFloat 0]];
                [[VFloat 0; VFloat 1]; [VFloat 1; VFloat 1]] ])
  = Ok (as_batch [ [[VFloat 1; VFloat 0]; [VFloat 0; VFloat 0]];
                   [[VFloat 0; VFloat 1]; [VFloat 1; VFloat 1]] ], 2%nat).
Proof.
  apply (@pad_sequences_extends_to_the_longest
           [ [[VFloat 1; VFloat 0]];
             [[VFloat 0; VFloat 1]; [VFloat 1; VFloat 1]] ]).
  - discriminate.
  - repeat constructor; discriminate.
Defined.

Lemma longest_zero (seqs : list (list (list value))) :
  forallb is_empty seqs = true -> longest seqs = 0%nat.
Proof.
  unfold longest. induction seqs as [|s seqs IH]; simpl; intros H; [reflexivity|].
  apply andb_true_iff in H. destruct H as [Hs H].
  destruct s; [|discriminate]. simpl. apply IH, H.
Qed.

Lemma longest_positive (seqs : list (list (list value))) :
  forallb is_empty seqs = false -> (0 < longest seqs)%nat.
Proof.
  unfold longest, list_max. induction seqs as [|s seqs IH]; intros H; [discriminate|].
  cbn [map fold_right].
  destruct s as [|v s]; cbn [forallb is_empty andb List.length] in *; [|lia].
  specialize (IH H). lia.
Qed.

(** X15.  A batch that holds an empty sequence is padded only if all its
    sequences are empty (the batch comes back unchanged, with length 0);
    as soon as another sequence is not empty, [pad_sequences] raises
    IndexError, from [seq[0]] on the first empty sequence. *)
Theorem pad_sequences_rejects_an_empty_sequence :
  forall seqs : list (list (list value)),
    In [] seqs ->
    ClusterSequences.pad_sequences (as_batch seqs)
    = if forallb is_empty seqs then Ok (as_batch seqs, 0%nat)
      else Raise (IndexError "list index out of range").
Proof.
  intros seqs Hin.
  assert (Hne : seqs <> []) by (intros ->; contradiction).
  unfold ClusterSequences.pad_sequences.
  rewrite (max_len_batch Hne). cbv beta iota delta [bind].
  destruct (forallb is_empty seqs) eqn:Hall.
  - rewrite (longest_zero _ Hall). unfold as_batch at 1.
    rewrite (@mapM_map_total _ _ _ (fun s => VList (map VList s))
               (ClusterSequences.pad_one 0)
               (fun s => VList (map VList s)) seqs); [reflexivity|].
    intros s Hs. rewrite forallb_forall in Hall. specialize (Hall _ Hs).
    destruct s; [reflexivity | discriminate].
  - pose proof (longest_positive _ Hall) as Hpos.
    rewrite (@mapM_first_exception _ _ (ClusterSequences.pad_one (longest seqs))
               (IndexError "list index out of range") (as_batch seqs));
      [reflexivity| |].
    + intros x Hx. unfold as_batch in Hx. apply in_map_iff in Hx.
      destruct Hx as (s & <- & Hs).
      destruct s as [|v s].
      * right. unfold ClusterSequences.pad_one. simpl py_len.
        cbv beta iota delta [bind]. simpl List.length.
        destruct (0 <? longest seqs)%nat eqn:E; [reflexivity|].
        apply Nat.ltb_ge in E. lia.
      * left. rewrite pad_one_vectors; [eauto | discriminate |].
        apply longest_bound, Hs.
    + exists (VList (map VList [])). split.
      * unfold as_batch. apply in_map_iff. exists []. split; [reflexivity | exact Hin].
      * unfold ClusterSequences.pad_one. simpl py_len.
        cbv beta iota delta [bind]. simpl List.length.
        destruct (0 <? longest seqs)%nat eqn:E; [reflexivity|].
        apply Nat.ltb_ge in E. lia.
Qed.

Lemma pad_sequences_rejects_an_empty_sequence_witness :
  ClusterSequences.pad_sequences (as_batch [ [[VFloat 1]]; [] ])
  = Raise (IndexError "list index out of range").
Proof.
  apply (@pad_sequences_rejects_an_empty_sequence [ [[VFloat 1]]; [] ]).
  right. left. reflexivity.
Defined.

Lemma mapM_py_iter_vectors (s : list (list value)) :
  mapM py_iter (map VList s) = Ok s.
Proof.
  rewrite (@mapM_map_total _ _ _ VList py_iter (fun v => v) s);
    [rewrite map_id; reflexivity | reflexivity].
Qed.

Lemma flatten_one_vectors (size : nat) (s : list (list value)) :
  ClusterSequences.flatten_one size (VList (map VList s))
  = Ok (firstn size (List.concat s
                     ++ repeat (VFloat 0) (size - List.length (List.concat s)))).
Proof.
  unfold ClusterSequences.flatten_one. simpl py_iter.
  cbv beta iota delta [bind]. rewrite mapM_py_iter_vectors. reflexivity.
Qed.

Lemma length_concat_uniform (w : nat) (s : list (list value)) :
  Forall (fun v => List.length v = w) s ->
  List.length (List.concat s) = (List.length s * w)%nat.
Proof.
  induction 1 as [|v s Hv _ IH]; simpl; [reflexivity|].
  rewrite length_app, IH, Hv. reflexivity.
Qed.

(** X16.  The k-means path reads the vector width from the first vector
    of the first sequence only.  If the first sequence is empty,
    [cluster_with_kmeans] raises IndexError before the library is reached,
    whatever the other sequences are.  Otherwise the flattening succeeds,
    also when later sequences are empty, and the library gets one row per
    sequence, each of length (longest sequence) x (that width): for a
    sequence whose vectors all have that width, the row is its vectors one
    after the other, followed by zeros, and nothing is cut. *)
Theorem cluster_with_kmeans_flattens_by_the_first_vector :
  forall (kmeans_fit_predict : list (list value) -> Z -> result (list Z))
         (first : list (list value)) (others : list (list (list value))) (n : Z),
    let seqs := first :: others in
    match first with
    | [] =>
        ClusterSequences.cluster_with_kmeans kmeans_fit_predict (as_batch seqs) n
        = Raise (IndexError "list index out of range")
    | v0 :: _ =>
        let size := (longest seqs * List.length v0)%nat in
        exists rows : list (list value),
          ClusterSequences.cluster_with_kmeans kmeans_fit_predict (as_batch seqs) n
          = kmeans_fit_predict rows n /\
          Forall2 (fun s row =>
                     List.length row = size /\
                     (Forall (fun v => List.length v = List.length v0) s ->
                      row = List.concat s
                            ++ repeat (VFloat 0)
                                 (size - List.length s * List.length v0)))
                  seqs rows
    end.
Proof.
  intros kmeans_fit_predict first others n seqs.
  assert (Hne : seqs <> []) by discriminate.
  destruct first as [|v0 rest].
  - unfold ClusterSequences.cluster_with_kmeans, ClusterSequences.flatten_batch.
    rewrite (max_len_batch Hne). reflexivity.
  - intros size. unfold ClusterSequences.cluster_with_kmeans.
    exists (map (fun s => firstn size
                   (List.concat s
                    ++ repeat (VFloat 0) (size - List.length (List.concat s))))
                seqs).
    split.
    + assert (Hflat : ClusterSequences.flatten_batch (as_batch seqs)
                      = Ok (map (fun s => firstn size
                                   (List.concat s
                                    ++ repeat (VFloat 0)
                                         (size - List.length (List.concat s))))
                                seqs)).
      { unfold ClusterSequences.flatten_batch.
        rewrite (max_len_batch Hne). cbv beta iota delta [bind].
        unfold seqs at 1. cbn [as_batch map ClusterSequences.first_item py_len].
        fold (as_batch others).
        change (VList (VList v0 :: map VList rest) :: as_batch others)
          with (as_batch seqs).
        fold size. unfold as_batch.
        apply mapM_map_total. intros s _. apply flatten_one_vectors. }
      rewrite Hflat. reflexivity.
    + assert (Hrows : forall l : list (list (list value)),
                 (forall s, In s l -> In s seqs) ->
                 Forall2 (fun s row =>
                            List.length row = size /\
                            (Forall (fun v => List.length v = List.length v0) s ->
                             row = List.concat s
                                   ++ repeat (VFloat 0)
                                        (size - List.length s * List.length v0)))
                         l
                         (map (fun s => firstn size
                                 (List.concat s
                                  ++ repeat (VFloat 0)
                                       (size - List.length (List.concat s)))) l)).
      { induction l as [|s l IH]; intros Hsub; simpl; constructor.
        - split.
          + rewrite length_firstn, length_app, repeat_length. lia.
          + intros Hw. rewrite (length_concat_uniform Hw).
            apply firstn_all2. rewrite length_app, repeat_length.
            rewrite (length_concat_uniform Hw).
            assert (Hlen : (List.length s <= longest seqs)%nat)
              by (apply longest_bound, Hsub; left; reflexivity).
            assert (Hmul : (List.length s * List.length v0 <= size)%nat)
              by (unfold size; apply Nat.mul_le_mono_r; exact Hlen).
            lia.
        - apply IH. intros t Ht. apply Hsub. right. exact Ht. }
      apply Hrows. auto.
Qed.

(* ================================================================== *)
(** * The representative of a cluster                                   *)
(* ================================================================== *)

Lemma seq_at_in_range (all_sequences : list (list value)) (idx : nat) :
  (idx < List.length all_sequences)%nat ->
  ClusterSequences.seq_at all_sequences idx = Ok (nth idx all_sequences []).
Proof.
  intros H. unfold ClusterSequences.seq_at.
  destruct (nth_error all_sequences idx) as [s0|] eqn:E.
  - rewrite (nth_error_nth _ _ _ E). reflexivity.
  - apply nth_error_None in E. lia.
Qed.

Lemma length_gap_in_range (all_sequences : list (list value)) (avg : Q) (idx : nat) :
  (idx < List.length all_sequences)%nat ->
  ClusterSequences.length_gap all_sequences avg idx = Ok (gap all_sequences avg idx).
Proof.
  intros H. unfold ClusterSequences.length_gap.
  rewrite seq_at_in_range by exact H. reflexivity.
Qed.

Lemma fold_left_add (l : list nat) (n : nat) :
  fold_left Nat.add l n = (n + list_sum l)%nat.
Proof.
  revert n; induction l as [|a l IH]; intros n; simpl; [lia|].
  rewrite IH. lia.
Qed.

Lemma div_len_quotient (a b : nat) :
  (0 < b)%nat ->
  (div_len a b == inject_Z (Z.of_nat a) / inject_Z (Z.of_nat b))%Q.
Proof.
  intros Hb. unfold div_len. rewrite Qred_correct, Qmake_Qdiv.
  rewrite <- positive_nat_Z, Nat2Pos.id by lia. reflexivity.
Qed.

Lemma mean_length_in_range (all_sequences : list (list value)) (indices : list nat) :
  Forall (fun i => (i < List.length all_sequences)%nat) indices ->
  ClusterSequences.mean_length indices all_sequences
  = Ok (div_len (list_sum (map (fun i => List.length (nth i all_sequences []))
                               indices))
                (List.length indices)).
Proof.
  intros H. unfold ClusterSequences.mean_length.
  rewrite (@mapM_total _ _ _ (fun i => List.length (nth i all_sequences [])) indices).
  - cbv beta iota delta [bind]. rewrite fold_left_add. reflexivity.
  - apply Forall_forall. intros i Hi. rewrite Forall_forall in H.
    rewrite seq_at_in_range by exact (H _ Hi). reflexivity.
Qed.

(** The scan keeps the first index of the least distance. *)
Lemma closest_keeps_first_least (all_sequences : list (list value)) (avg : Q) :
  forall (rest pre : list nat) (best : nat) (post : list nat),
    Forall (fun i => (i < List.length all_sequences)%nat) rest ->
    (forall i, In i pre -> (gap all_sequences avg best < gap all_sequences avg i)%Q) ->
    (forall i, In i post -> (gap all_sequences avg best <= gap all_sequences avg i)%Q) ->
    exists (best' : nat) (pre' post' : list nat),
      ClusterSequences.closest all_sequences avg rest best
        (gap all_sequences avg best) = Ok best' /\
      pre ++ best :: post ++ rest = pre' ++ best' :: post' /\
      (forall i, In i pre' ->
                 (gap all_sequences avg best' < gap all_sequences avg i)%Q) /\
      (forall i, In i post' ->
                 (gap all_sequences avg best' <= gap all_sequences avg i)%Q).
Proof.
  induction rest as [|idx rest IH]; intros pre best post Hrange Hpre Hpost.
  - exists best, pre, post. rewrite app_nil_r. simpl. auto.
  - inversion Hrange as [|? ? Hidx Hrest]; subst.
    simpl. rewrite length_gap_in_range by exact Hidx. cbv beta iota delta [bind].
    destruct (ClusterSequences.Qltb (gap all_sequences avg idx)
                (gap all_sequences avg best)) eqn:E.
    + assert (Hlt : (gap all_sequences avg idx < gap all_sequences avg best)%Q)
        by (apply Qltb_true; exact E).
      destruct (IH (pre ++ best :: post) idx [] Hrest) as (b & p & q & Hc & Hl & Hp & Hq).
      * intros i Hi. apply in_app_or in Hi. destruct Hi as [Hi|[<-|Hi]].
        -- specialize (Hpre _ Hi). lra.
        -- exact Hlt.
        -- specialize (Hpost _ Hi). lra.
      * intros i [].
      * exists b, p, q. split; [exact Hc|]. split; [|auto].
        rewrite <- Hl. rewrite <- !app_assoc. reflexivity.
    + assert (Hle : (gap all_sequences avg best <= gap all_sequences avg idx)%Q)
        by (apply Qltb_false; exact E).
      destruct (IH pre best (post ++ [idx]) Hrest Hpre) as (b & p & q & Hc & Hl & Hp & Hq).
      * intros i Hi. apply in_app_or in Hi. destruct Hi as [Hi|[<-|[]]]; auto.
      * exists b, p, q. split; [exact Hc|]. split; [|auto].
        rewrite <- Hl. rewrite <- !app_assoc. reflexivity.
Qed.

(** X17.  For a cluster that is not empty and whose indices are those of
    stored sequences, [find_representative_sequence] returns a member of the
    cluster whose length is closest to the mean length of the members (the
    arithmetic mean, not the median): every member listed before it is
    strictly farther from the mean, every member listed after it is at
    least as far. *)
Theorem find_representative_sequence_is_closest_to_the_mean :
  forall (all_sequences : list (list value)) (cluster : list nat),
    cluster <> [] ->
    Forall (fun i => (i < List.length all_sequences)%nat) cluster ->
    exists (avg : Q) (best : nat) (pre post : list nat),
      ClusterSequences.mean_length cluster all_sequences = Ok avg /\
      (avg == inject_Z (Z.of_nat (list_sum
                 (map (fun i => List.length (nth i all_sequences [])) cluster)))
              / inject_Z (Z.of_nat (List.length cluster)))%Q /\
      ClusterSequences.find_representative_sequence cluster all_sequences
      = Ok (Some best) /\
      cluster = pre ++ best :: post /\
      (forall i, In i pre ->
                 (gap all_sequences avg best < gap all_sequences avg i)%Q) /\
      (forall i, In i post ->
                 (gap all_sequences avg best <= gap all_sequences avg i)%Q).
Proof.
  intros all_sequences cluster Hne Hrange.
  destruct cluster as [|first rest]; [congruence|].
  pose proof (@mean_length_in_range _ _ Hrange) as Hmean.
  set (avg := div_len (list_sum (map (fun i => List.length (nth i all_sequences []))
                                     (first :: rest)))
                      (List.length (first :: rest))) in *.
  inversion Hrange as [|? ? Hfirst Hrest]; subst.
  destruct (@closest_keeps_first_least all_sequences avg rest [] first [] Hrest)
    as (best & pre & post & Hc & Hl & Hpre & Hpost).
  { intros i []. }
  { intros i []. }
  exists avg, best, pre, post.
  split; [exact Hmean|].
  split; [apply div_len_quotient; simpl; lia|].
  split.
  - unfold ClusterSequences.find_representative_sequence.
    rewrite Hmean. cbv beta iota delta [bind].
    rewrite length_gap_in_range by exact Hfirst. rewrite Hc. reflexivity.
  - split; [exact Hl|]. split; assumption.
Qed.

Lemma find_representative_sequence_is_closest_to_the_mean_witness :
  exists (avg : Q) (best : nat) (pre post : list nat),
    ClusterSequences.find_representative_sequence [0; 1; 2]%nat
      [ [VInt 1]; [VInt 1; VInt 2]; [VInt 1; VInt 2; VInt 3] ]
    = Ok (Some best) /\
    [0; 1; 2]%nat = pre ++ best :: post /\
    ClusterSequences.mean_length [0; 1; 2]%nat
      [ [VInt 1]; [VInt 1; VInt 2]; [VInt 1; VInt 2; VInt 3] ] = Ok avg.
Proof.
  destruct (@find_representative_sequence_is_closest_to_the_mean
              [ [VInt 1]; [VInt 1; VInt 2]; [VInt 1; VInt 2; VInt 3] ]
              [0; 1; 2]%nat)
    as (avg & best & pre & post & Hm & _ & Hf & Hl & _).
  - discriminate.
  - repeat constructor.
  - exists avg, best, pre, post. auto.
Defined.

(* ================================================================== *)
(** * The common event types of a cluster                              *)
(* ================================================================== *)

Lemma occurrences_snoc (t : value) (l : list value) (x : value) :
  occurrences t (l ++ [x])
  = (occurrences t l + if key_eqb t x then 1 else 0)%nat.
Proof.
  unfold occurrences. rewrite filter_app, length_app. simpl.
  destruct (key_eqb t x); reflexivity.
Qed.

Lemma occurrences_key (t u : value) (l : list value) :
  key_eqb t u = true -> occurrences t l = occurrences u l.
Proof.
  intros H. unfold occurrences. f_equal. apply filter_ext. intros a.
  destruct (key_eqb t a) eqn:E1, (key_eqb u a) eqn:E2; auto.
  - rewrite key_eqb_sym in H. rewrite (key_eqb_trans _ _ _ H E1) in E2. discriminate.
  - rewrite (key_eqb_trans _ _ _ H E2) in E1. discriminate.
Qed.

Lemma occurrences_none (t : value) (l : list value) :
  (forall a, In a l -> key_eqb t a = false) -> occurrences t l = 0%nat.
Proof.
  unfold occurrences. induction l as [|a l IH]; simpl; intros H; [reflexivity|].
  rewrite (H a (or_introl eq_refl)). apply IH. intros b Hb. apply H. right. exact Hb.
Qed.

Lemma tally_cases (c : list (value * nat)) (x : value) :
  (exists c1 y n c2,
      c = c1 ++ (y, n) :: c2 /\ key_eqb y x = true /\
      (forall kv, In kv c1 -> key_eqb (fst kv) x = false) /\
      ClusterSequences.tally c x = c1 ++ (y, S n) :: c2)
  \/ ((forall kv, In kv c -> key_eqb (fst kv) x = false) /\
      ClusterSequences.tally c x = c ++ [(x, 1%nat)]).
Proof.
  induction c as [|[y n] c IH]; simpl.
  - right. split; [intros kv [] | reflexivity].
  - destruct (key_eqb y x) eqn:E.
    + left. exists [], y, n, c. simpl. repeat split; auto. intros kv [].
    + destruct IH as [(c1 & y' & n' & c2 & -> & Hy & Hc1 & Ht)|[Hall Ht]].
      * left. exists ((y, n) :: c1), y', n', c2. simpl. rewrite Ht.
        repeat split; auto. intros kv [<-|Hkv]; auto.
      * right. rewrite Ht. split; [|reflexivity]. intros kv [<-|Hkv]; auto.
Qed.

Lemma apart_after (l1 l2 : list value) (a b : value) :
  ForallOrdPairs apart (l1 ++ a :: l2) -> In b l2 -> key_eqb a b = false.
Proof.
  induction l1 as [|x l1 IH]; simpl; intros H Hb.
  - inversion H as [|? ? Ha _]; subst. rewrite Forall_forall in Ha. apply Ha, Hb.
  - inversion H; subst. apply IH; assumption.
Qed.

Lemma apart_snoc (l : list value) (x : value) :
  ForallOrdPairs apart l -> (forall a, In a l -> key_eqb a x = false) ->
  ForallOrdPairs apart (l ++ [x]).
Proof.
  induction 1 as [|a l Ha Hl IH]; simpl; intros Hx.
  - repeat constructor.
  - constructor; [|apply IH; intros b Hb; apply Hx; right; exact Hb].
    apply Forall_app. split; [exact Ha|]. constructor; [|constructor].
    apply Hx. left. reflexivity.
Qed.

Lemma tally_counted (c : list (value * nat)) (l : list value) (x : value) :
  hashable x = true -> counted c l -> counted (ClusterSequences.tally c x) (l ++ [x]).
Proof.
  intros Hx (Hap & Hin & Hcov).
  assert (Hkeep : forall kv, In kv c -> key_eqb (fst kv) x = false ->
            In (fst kv) (l ++ [x]) /\ snd kv = occurrences (fst kv) (l ++ [x])).
  { intros kv Hkv Hne. destruct (Hin kv Hkv) as [H1 H2]. split.
    - apply in_or_app. left. exact H1.
    - rewrite occurrences_snoc, Hne. lia. }
  destruct (tally_cases c x) as [(c1 & y & n & c2 & Ec & Hy & Hc1 & Et)|[Hall Et]];
    rewrite Et.
  - subst c.
    assert (Hc2 : forall kv, In kv c2 -> key_eqb (fst kv) x = false).
    { intros kv Hkv. destruct (key_eqb (fst kv) x) eqn:E; [|reflexivity].
      rewrite map_app in Hap. simpl in Hap.
      pose proof (@apart_after _ _ _ (fst kv) Hap (in_map fst _ _ Hkv)) as Hyk.
      simpl in Hyk. rewrite key_eqb_sym in E.
      rewrite (key_eqb_trans _ _ _ Hy E) in Hyk. discriminate. }
    split; [|split].
    + rewrite map_app in *. exact Hap.
    + intros kv Hkv. apply in_app_or in Hkv. destruct Hkv as [Hkv|[<-|Hkv]].
      * apply Hkeep; [apply in_or_app; left; exact Hkv | apply Hc1, Hkv].
      * destruct (Hin (y, n)) as [H1 H2];
          [apply in_or_app; right; left; reflexivity|].
        simpl in *. split; [apply in_or_app; left; exact H1|].
        rewrite occurrences_snoc, Hy. lia.
      * apply Hkeep; [apply in_or_app; right; right; exact Hkv | apply Hc2, Hkv].
    + intros t Ht. apply in_app_or in Ht. destruct Ht as [Ht|[<-|[]]].
      * destruct (Hcov t Ht) as (kv & Hkv & Hk).
        apply in_app_or in Hkv. destruct Hkv as [Hkv|[<-|Hkv]].
        -- exists kv. split; [apply in_or_app; left; exact Hkv | exact Hk].
        -- exists (y, S n). split; [apply in_or_app; right; left; reflexivity | exact Hk].
        -- exists kv. split; [apply in_or_app; right; right; exact Hkv | exact Hk].
      * exists (y, S n). split; [apply in_or_app; right; left; reflexivity | exact Hy].
  - split; [|split].
    + rewrite map_app. simpl. apply apart_snoc; [exact Hap|].
      intros a Ha. apply in_map_iff in Ha. destruct Ha as (kv & <- & Hkv).
      apply Hall, Hkv.
    + intros kv Hkv. apply in_app_or in Hkv. destruct Hkv as [Hkv|[<-|[]]].
      * apply Hkeep; [exact Hkv | apply Hall, Hkv].
      * simpl. split; [apply in_or_app; right; left; reflexivity|].
        rewrite occurrences_snoc, (key_eqb_refl _ Hx).
        rewrite occurrences_none; [reflexivity|].
        intros a Ha. destruct (key_eqb x a) eqn:E; [|reflexivity].
        destruct (Hcov a Ha) as (kv & Hkv & Hk).
        rewrite key_eqb_sym in E.
        rewrite <- (Hall kv Hkv). symmetry. apply (key_eqb_trans _ _ _ Hk E).
    + intros t Ht. apply in_app_or in Ht. destruct Ht as [Ht|[<-|[]]].
      * destruct (Hcov t Ht) as (kv & Hkv & Hk).
        exists kv. split; [apply in_or_app; left; exact Hkv | exact Hk].
      * exists (x, 1%nat). split; [apply in_or_app; right; left; reflexivity|].
        apply key_eqb_refl, Hx.
Qed.

Lemma counter_counted (l : list value) :
  forall (c : list (value * nat)) (done : list value),
    forallb hashable l = true -> counted c done ->
    counted (fold_left ClusterSequences.tally l c) (done ++ l).
Proof.
  induction l as [|x l IH]; simpl; intros c done Hh Hc.
  - rewrite app_nil_r. exact Hc.
  - apply andb_true_iff in Hh. destruct Hh as [Hx Hl].
    replace (done ++ x :: l) with ((done ++ [x]) ++ l)
      by (rewrite <- app_assoc; reflexivity).
    apply IH; [exact Hl|]. apply tally_counted; assumption.
Qed.

Lemma apart_perm (l l' : list value) :
  Permutation l l' -> ForallOrdPairs apart l -> ForallOrdPairs apart l'.
Proof.
  induction 1 as [|x l l' Hp IH|x y l|l l' l'' _ IH1 _ IH2]; intros H; auto.
  - inversion H as [|? ? Hx Hl]; subst. constructor; [|apply IH, Hl].
    eapply Permutation_Forall; eassumption.
  - inversion H as [|? ? Hy Hl]; subst. inversion Hl as [|? ? Hx Hl']; subst.
    inversion Hy as [|? ? Hyx Hyl]; subst.
    constructor; [|constructor; assumption].
    constructor; [|exact Hx]. unfold apart in *. rewrite key_eqb_sym. exact Hyx.
Qed.

Lemma apart_firstn (n : nat) (l : list value) :
  ForallOrdPairs apart l -> ForallOrdPairs apart (firstn n l).
Proof.
  revert l; induction n as [|n IH]; intros l H; simpl; [constructor|].
  destruct H as [|x l Hx Hl]; constructor; [|apply IH, Hl].
  apply Forall_forall. intros y Hy. rewrite Forall_forall in Hx.
  apply Hx. rewrite <- (firstn_skipn n l). apply in_or_app. left. exact Hy.
Qed.

Lemma StronglySorted_app_inv (A : Type) (R : A -> A -> Prop) (l1 l2 : list A) :
  StronglySorted R (l1 ++ l2) ->
  StronglySorted R l1 /\ forall a b, In a l1 -> In b l2 -> R a b.
Proof.
  induction l1 as [|x l1 IH]; simpl; intros H.
  - split; [constructor | intros a b []].
  - inversion H as [|? ? Hs Hx]; subst. destruct (IH Hs) as [H1 H2].
    split.
    + constructor; [exact H1|]. apply Forall_app in Hx. apply Hx.
    + intros a b [<-|Ha] Hb; [|auto].
      rewrite Forall_forall in Hx. apply Hx. apply in_or_app. right. exact Hb.
Qed.

Lemma more_common_sorted (c : list (value * nat)) :
  StronglySorted (fun a b => (snd b <= snd a)%nat) (sort_by more_common c).
Proof.
  assert (Hs : Sorted (fun a b => more_common b a = false) (sort_by more_common c)).
  { apply sort_by_not_after. intros a b. unfold more_common.
    intros H. apply Nat.ltb_lt in H. apply Nat.ltb_ge. lia. }
  apply Sorted_StronglySorted.
  - intros a b d H1 H2. lia.
  - eapply Sorted_ind with (P := fun l => Sorted (fun a b => (snd b <= snd a)%nat) l);
      [constructor | | exact Hs].
    intros a l _ IH Ha. constructor; [exact IH|].
    destruct Ha as [|b l Hb]; constructor.
    unfold more_common in Hb. apply Nat.ltb_ge in Hb. exact Hb.
Qed.

(** The value of [extract_common_event_types]. *)
Lemma extract_common_event_types_value (all_sequences : list (list value))
    (cluster : list nat) :
  Forall (fun i => (i < List.length all_sequences)%nat) cluster ->
  Forall (Forall (fun e => typed_event e = true)) all_sequences ->
  forallb hashable (cluster_event_types all_sequences cluster) = true /\
  ClusterSequences.extract_common_event_types cluster all_sequences
  = Ok (map fst (firstn 5 (sort_by more_common
                             (fold_left ClusterSequences.tally
                                (cluster_event_types all_sequences cluster) [])))).
Proof.
  intros Hrange Htyped.
  assert (Hper : mapM (fun idx =>
                         seq <- ClusterSequences.seq_at all_sequences idx ;;
                         types <- mapM ClusterSequences.event_type_of seq ;;
                         Ok (filter truthy types)) cluster
                 = Ok (map (fun idx => filter truthy
                              (map event_type_field (nth idx all_sequences [])))
                           cluster)).
  { apply mapM_total. apply Forall_forall. intros idx Hidx.
    rewrite Forall_forall in Hrange. specialize (Hrange _ Hidx).
    rewrite seq_at_in_range by exact Hrange. cbv beta iota delta [bind].
    rewrite (@mapM_total _ _ ClusterSequences.event_type_of event_type_field);
      [reflexivity|].
    apply Forall_forall. intros e He.
    assert (Hseq : In (nth idx all_sequences []) all_sequences)
      by (apply nth_In; exact Hrange).
    rewrite Forall_forall in Htyped. specialize (Htyped _ Hseq).
    rewrite Forall_forall in Htyped. specialize (Htyped _ He).
    destruct e; try discriminate. reflexivity. }
  assert (Hhash : forallb hashable (cluster_event_types all_sequences cluster) = true).
  { apply forallb_forall. intros t Ht. unfold cluster_event_types in Ht.
    apply in_flat_map in Ht. destruct Ht as (idx & Hidx & Ht).
    apply filter_In in Ht. destruct Ht as [Ht _].
    apply in_map_iff in Ht. destruct Ht as (e & <- & He).
    rewrite Forall_forall in Hrange. specialize (Hrange _ Hidx).
    assert (Hseq : In (nth idx all_sequences []) all_sequences)
      by (apply nth_In; exact Hrange).
    rewrite Forall_forall in Htyped. specialize (Htyped _ Hseq).
    rewrite Forall_forall in Htyped. specialize (Htyped _ He).
    destruct e; try discriminate. exact Htyped. }
  split; [exact Hhash|].
  unfold ClusterSequences.extract_common_event_types.
  rewrite Hper. cbv beta iota delta [bind].
  rewrite <- flat_map_concat_map. fold (cluster_event_types all_sequences cluster).
  unfold ClusterSequences.counter. rewrite Hhash. reflexivity.
Qed.

(** X18.  For a cluster whose indices are those of stored sequences, made
    of events whose type can be counted, [extract_common_event_types]
    returns at most five event types, pairwise different, each carried by
    an event of a member sequence, in order of decreasing number of
    occurrences in the cluster.  A type of the cluster that is left out
    occurs no more often than any type returned, and none is left out when
    fewer than five are returned. *)
Theorem extract_common_event_types_ranks_by_frequency :
  forall (all_sequences : list (list value)) (cluster : list nat),
    Forall (fun i => (i < List.length all_sequences)%nat) cluster ->
    Forall (Forall (fun e => typed_event e = true)) all_sequences ->
    let L := cluster_event_types all_sequences cluster in
    exists types : list value,
      ClusterSequences.extract_common_event_types cluster all_sequences = Ok types /\
      (List.length types <= 5)%nat /\
      ForallOrdPairs apart types /\
      (forall t, In t types -> In t L) /\
      StronglySorted (fun a b => (occurrences b L <= occurrences a L)%nat) types /\
      (forall t u, In t L -> mem t types = false -> In u types ->
                   (occurrences t L <= occurrences u L)%nat) /\
      ((List.length types < 5)%nat -> forall t, In t L -> mem t types = true).
Proof.
  intros all_sequences cluster Hrange Htyped L.
  destruct (@extract_common_event_types_value _ _ Hrange Htyped) as [Hhash Hvalue].
  fold L in Hhash, Hvalue.
  set (counts := fold_left ClusterSequences.tally L []).
  assert (Hcounted : counted counts L).
  { apply (@counter_counted L [] [] Hhash).
    split; [constructor|]. split; [intros kv [] | intros t []]. }
  destruct Hcounted as (Hap & Hin & Hcov).
  set (ranked := sort_by more_common counts).
  assert (Hperm : Permutation ranked counts) by apply sort_by_perm.
  assert (Hsorted := more_common_sorted counts). fold ranked in Hsorted.
  rewrite <- (firstn_skipn 5 ranked) in Hsorted.
  apply StronglySorted_app_inv in Hsorted. destruct Hsorted as [Htop Hrest].
  assert (Hsub : forall kv, In kv (firstn 5 ranked) -> In kv counts).
  { intros kv Hkv. apply (Permutation_in _ Hperm).
    rewrite <- (firstn_skipn 5 ranked). apply in_or_app. left. exact Hkv. }
  assert (Hlisted : forall kv t, In kv (firstn 5 ranked) ->
                      key_eqb (fst kv) t = true ->
                      mem t (map fst (firstn 5 ranked)) = true).
  { intros kv t Hkv Hk. unfold mem. apply existsb_exists.
    exists (fst kv). split; [apply in_map, Hkv|].
    rewrite key_eqb_sym. exact Hk. }
  exists (map fst (firstn 5 ranked)).
  split; [exact Hvalue|].
  split; [rewrite length_map, length_firstn; lia|].
  split.
  { rewrite <- firstn_map. apply apart_firstn.
    apply (@apart_perm _ _ (Permutation_sym (Permutation_map fst Hperm))). exact Hap. }
  split.
  { intros t Ht. apply in_map_iff in Ht. destruct Ht as (kv & <- & Hkv).
    apply Hin, Hsub, Hkv. }
  split.
  { assert (Hocc : forall kv, In kv (firstn 5 ranked) ->
                     snd kv = occurrences (fst kv) L)
      by (intros kv Hkv; apply Hin, Hsub, Hkv).
    revert Htop Hocc. generalize (firstn 5 ranked) as top.
    induction 1 as [|a top Hs IH Ha]; intros Hocc; simpl; constructor.
    - apply IH. intros kv Hkv. apply Hocc. right. exact Hkv.
    - apply Forall_forall. intros u Hu. apply in_map_iff in Hu.
      destruct Hu as (b & <- & Hb). rewrite Forall_forall in Ha.
      specialize (Ha _ Hb).
      rewrite <- (Hocc a (or_introl eq_refl)), <- (Hocc b (or_intror Hb)).
      exact Ha. }
  split.
  { intros t u Ht Hmiss Hu.
    destruct (Hcov t Ht) as (kt & Hkt & Hk).
    apply (Permutation_in _ (Permutation_sym Hperm)) in Hkt.
    rewrite <- (firstn_skipn 5 ranked) in Hkt. apply in_app_or in Hkt.
    destruct Hkt as [Hkt|Hkt].
    { rewrite (Hlisted kt t Hkt Hk) in Hmiss. discriminate. }
    apply in_map_iff in Hu. destruct Hu as (ku & <- & Hku).
    specialize (Hrest ku kt Hku Hkt).
    rewrite <- (@occurrences_key _ _ L Hk).
    assert (Hkt' : In kt counts).
    { apply (Permutation_in _ Hperm). rewrite <- (firstn_skipn 5 ranked).
      apply in_or_app. right. exact Hkt. }
    rewrite <- (proj2 (Hin kt Hkt')), <- (proj2 (Hin ku (Hsub ku Hku))).
    exact Hrest. }
  intros Hshort t Ht.
  rewrite length_map, length_firstn in Hshort.
  assert (Hall : firstn 5 ranked = ranked) by (apply firstn_all2; lia).
  destruct (Hcov t Ht) as (kt & Hkt & Hk).
  apply (Hlisted kt t); [|exact Hk].
  rewrite Hall. apply (Permutation_in _ (Permutation_sym Hperm)). exact Hkt.
Qed.

Lemma extract_common_event_types_ranks_by_frequency_witness :
  exists types : list value,
    ClusterSequences.extract_common_event_types [0; 1]%nat
      [ [Samples.vectorized_event "prompt"; Samples.vectorized_event "edit"];
        [Samples.vectorized_event "edit"] ] = Ok types /\
    types = [VStr "edit"; VStr "prompt"].
Proof.
  destruct (@extract_common_event_types_ranks_by_frequency
              [ [Samples.vectorized_event "prompt"; Samples.vectorized_event "edit"];
                [Samples.vectorized_event "edit"] ]
              [0; 1]%nat) as (types & H & _).
  - repeat constructor.
  - repeat constructor.
  - exists types. split; [exact H|].
    vm_compute in H. inversion H. reflexivity.
Defined.

(* ================================================================== *)
(** * The clusters of the assignments                                   *)
(* ================================================================== *)

Lemma add_member_heads (P : nat -> Prop) (clusters : list (Z * list nat))
    (label : Z) (idx : nat) :
  Forall (fun c => snd c <> []) clusters ->
  Forall (fun c => P (first_member c)) clusters -> P idx ->
  Forall (fun c => P (first_member c)) (ClusterSequences.add_member clusters label idx).
Proof.
  intros Hne Hall Hidx. induction clusters as [|[k ms] clusters IH]; simpl.
  - repeat constructor. exact Hidx.
  - inversion Hne as [|? ? Hms Hne']; subst. inversion Hall as [|? ? Hk Hall']; subst.
    destruct (k =? label)%Z.
    + constructor; [|exact Hall'].
      unfold first_member in *. simpl in *. destruct ms; [congruence | exact Hk].
    + constructor; [exact Hk | apply IH; assumption].
Qed.

Lemma add_member_ordered (clusters : list (Z * list nat)) (label : Z) (idx : nat) :
  ordered_clusters idx clusters ->
  ordered_clusters (S idx) (ClusterSequences.add_member clusters label idx).
Proof.
  intros [Hall Hs]. induction clusters as [|[k ms] clusters IH]; simpl.
  - split; repeat constructor. discriminate.
  - inversion Hall as [|? ? [Hms Hlt] Hall']; subst.
    inversion Hs as [|? ? Hs' Hk]; subst. simpl in *.
    assert (Hup : Forall (fun c : Z * list nat =>
                            snd c <> [] /\ Forall (fun i => (i < S idx)%nat) (snd c))
                         clusters).
    { eapply Forall_impl; [|exact Hall']. intros c [H1 H2]. split; [exact H1|].
      eapply Forall_impl; [|exact H2]. intros; simpl in *; lia. }
    destruct (k =? label)%Z.
    + split.
      * constructor; [|exact Hup]. simpl. split.
        -- destruct ms; discriminate.
        -- apply Forall_app. split; [|repeat constructor].
           eapply Forall_impl; [|exact Hlt]. intros; simpl in *; lia.
      * constructor; [exact Hs'|].
        unfold first_member in *. simpl in *. destruct ms; [congruence | exact Hk].
    + destruct (IH Hall' Hs') as [IH1 IH2]. split.
      * constructor; [|exact IH1]. simpl. split; [exact Hms|].
        eapply Forall_impl; [|exact Hlt]. intros; simpl in *; lia.
      * constructor; [exact IH2|].
        apply add_member_heads with (P := fun i => (first_member (k, ms) < i)%nat).
        -- eapply Forall_impl; [|exact Hall']. intros c [H1 _]. exact H1.
        -- exact Hk.
        -- unfold first_member. simpl. destruct ms as [|m ms]; [congruence|].
           simpl. inversion Hlt; assumption.
Qed.

Lemma organize_from_ordered (labels : list Z) :
  forall (idx : nat) (clusters : list (Z * list nat)),
    ordered_clusters idx clusters ->
    ordered_clusters (idx + List.length labels)
      (ClusterSequences.organize_from idx labels clusters).
Proof.
  induction labels as [|label labels IH]; intros idx clusters H; simpl.
  - rewrite Nat.add_0_r. exact H.
  - replace (idx + S (List.length labels))%nat with (S idx + List.length labels)%nat
      by lia.
    apply IH, add_member_ordered, H.
Qed.

Lemma add_member_total (clusters : list (Z * list nat)) (label : Z) (idx : nat) :
  list_sum (map (fun c => List.length (snd c))
                (ClusterSequences.add_member clusters label idx))
  = S (list_sum (map (fun c => List.length (snd c)) clusters)).
Proof.
  induction clusters as [|[k ms] clusters IH]; simpl; [reflexivity|].
  destruct (k =? label)%Z; simpl.
  - rewrite length_app. simpl. lia.
  - rewrite IH. lia.
Qed.

Lemma organize_from_total (labels : list Z) :
  forall (idx : nat) (clusters : list (Z * list nat)),
    list_sum (map (fun c => List.length (snd c))
                  (ClusterSequences.organize_from idx labels clusters))
    = (list_sum (map (fun c => List.length (snd c)) clusters)
       + List.length labels)%nat.
Proof.
  induction labels as [|label labels IH]; intros idx clusters; simpl; [lia|].
  rewrite IH, add_member_total. lia.
Qed.

Lemma members_of_listed (clusters : list (Z * list nat)) (l : Z) :
  ClusterSequences.members_of clusters l <> [] ->
  In (l, ClusterSequences.members_of clusters l) clusters.
Proof.
  induction clusters as [|[k ms] clusters IH]; simpl; intros H; [congruence|].
  destruct (k =? l)%Z eqn:E.
  - apply Z.eqb_eq in E. subst. left. reflexivity.
  - right. apply IH, H.
Qed.

Lemma positions_ascending (l : Z) (labels : list Z) :
  forall idx : nat, StronglySorted lt (Spec.positions l idx labels).
Proof.
  induction labels as [|k labels IH]; intros idx; simpl; [constructor|].
  destruct (k =? l)%Z; [|apply IH].
  constructor; [apply IH|]. apply Forall_forall. intros i Hi.
  apply positions_In in Hi. lia.
Qed.

(** X19.  The loop that collects the clusters splits the sequence indices
    among the labels: a sequence is a member of the cluster of its own
    label and of no other, labels are not repeated, no cluster is empty,
    members are listed in ascending order, clusters in the order of their
    first members, and the sizes add up to the number of assignments. *)
Theorem organize_partitions_the_indices :
  forall labels : list Z,
    let clusters := ClusterSequences.organize labels in
    NoDup (map fst clusters) /\
    (forall (i : nat) (l : Z),
        nth_error labels i = Some l <-> exists ms, In (l, ms) clusters /\ In i ms) /\
    Forall (fun c => snd c <> [] /\ StronglySorted lt (snd c)) clusters /\
    StronglySorted (fun c1 c2 => (first_member c1 < first_member c2)%nat) clusters /\
    list_sum (map (fun c => List.length (snd c)) clusters) = List.length labels.
Proof.
  intros labels clusters.
  assert (Hord : ordered_clusters (0 + List.length labels) clusters).
  { apply organize_from_ordered. split; constructor. }
  destruct Hord as [Hne Hsorted].
  split; [apply organize_keys_NoDup|].
  split.
  { intros i l. split.
    - intros Hi.
      assert (Hin : In i (Spec.positions l 0 labels)).
      { apply positions_In. split; [lia|]. rewrite Nat.sub_0_r. exact Hi. }
      assert (Hm : ClusterSequences.members_of clusters l = Spec.positions l 0 labels).
      { unfold clusters, ClusterSequences.organize.
        rewrite members_of_organize_from. reflexivity. }
      exists (Spec.positions l 0 labels). split; [|exact Hin].
      rewrite <- Hm. apply members_of_listed. rewrite Hm.
      intros E. rewrite E in Hin. contradiction.
    - intros (ms & Hc & Hi). apply organize_members in Hc. subst ms.
      apply positions_In in Hi. destruct Hi as [_ Hi].
      rewrite Nat.sub_0_r in Hi. exact Hi. }
  split.
  { apply Forall_forall. intros [l ms] Hc. simpl. split.
    - rewrite Forall_forall in Hne. apply (Hne _ Hc).
    - apply organize_members in Hc. subst ms. apply positions_ascending. }
  split; [exact Hsorted|].
  unfold clusters, ClusterSequences.organize. rewrite organize_from_total. reflexivity.
Qed.

(* ================================================================== *)
(** * The document of the clustering script                             *)
(* ================================================================== *)

Lemma find_representative_member (all_sequences : list (list value))
    (cluster : list nat) :
  cluster <> [] ->
  Forall (fun i => (i < List.length all_sequences)%nat) cluster ->
  exists best : nat,
    ClusterSequences.find_representative_sequence cluster all_sequences
    = Ok (Some best) /\ In best cluster.
Proof.
  intros Hne Hrange. destruct cluster as [|first rest]; [congruence|].
  pose proof (@mean_length_in_range _ _ Hrange) as Hmean.
  inversion Hrange as [|? ? Hfirst Hrest]; subst.
  destruct (@closest_keeps_first_least all_sequences
              (div_len (list_sum (map (fun i => List.length (nth i all_sequences []))
                                      (first :: rest)))
                       (List.length (first :: rest)))
              rest [] first [] Hrest)
    as (best & pre & post & Hc & Hl & _).
  { intros i []. }
  { intros i []. }
  exists best. split.
  - unfold ClusterSequences.find_representative_sequence.
    rewrite Hmean. cbv beta iota delta [bind].
    rewrite length_gap_in_range by exact Hfirst. rewrite Hc. reflexivity.
  - simpl in Hl. rewrite Hl. apply in_elt.
Qed.

(** The record of a cluster that is not empty, over stored sequences of
    events whose types can be counted. *)
Lemma cluster_record_total (all_sequences : list (list value)) (id : Z)
    (members : list nat) :
  members <> [] ->
  Forall (fun i => (i < List.length all_sequences)%nat) members ->
  Forall (Forall (fun e => typed_event e = true)) all_sequences ->
  exists (best : nat) (avg : Q) (types : list value),
    In best members /\
    ClusterSequences.find_representative_sequence members all_sequences
    = Ok (Some best) /\
    ClusterSequences.mean_length members all_sequences = Ok avg /\
    ClusterSequences.extract_common_event_types members all_sequences = Ok types /\
    ClusterSequences.cluster_record all_sequences id members
    = Ok (VDict [ ("cluster_id", VInt id);
                  ("frequency", VInt (Z.of_nat (List.length members)));
                  ("representative_sequence", VList (nth best all_sequences []));
                  ("sequence_indices", VList (ClusterSequences.ints members));
                  ("metadata", VDict [ ("avg_length", VFloat avg);
                                       ("event_types", VList types) ]) ]).
Proof.
  intros Hne Hrange Htyped.
  destruct (@find_representative_member _ _ Hne Hrange) as (best & Hbest & Hin).
  pose proof (@mean_length_in_range _ _ Hrange) as Hmean.
  destruct (@extract_common_event_types_value _ _ Hrange Htyped) as [_ Htypes].
  assert (Hb : (best < List.length all_sequences)%nat)
    by (rewrite Forall_forall in Hrange; apply Hrange, Hin).
  eexists best, _, _. split; [exact Hin|]. split; [exact Hbest|].
  split; [exact Hmean|]. split; [exact Htypes|].
  unfold ClusterSequences.cluster_record.
  rewrite Hbest. cbv beta iota delta [bind].
  rewrite seq_at_in_range by exact Hb. rewrite Hmean, Htypes. reflexivity.
Qed.

(** X20.  When the input document has been read, the events of its
    sequences carry types that can be counted, and the clustering library
    answers with no more labels than there are sequences, the clustering
    script ends by emitting its document, with one record for every label
    carried by at least [min_size] sequences, in the order in which the
    labels first occur.  The representative sequence of a record is never
    null: it is the sequence of one of the members of the cluster. *)
Theorem clustering_main_emits_every_large_cluster :
  forall (HAS_TSLEARN : bool)
         (dtw_fit_predict : list value -> Z -> result (list Z))
         (kmeans_fit_predict : list (list value) -> Z -> result (list Z))
         (a : ClusterSequences.args) (data metadata : value)
         (items : list value) (all_sequences : list (list value))
         (sequence_vectors : list value) (labels : list Z),
    ClusterSequences.prepare data
    = Ok (metadata, items, all_sequences, sequence_vectors) ->
    Forall (Forall (fun e => typed_event e = true)) all_sequences ->
    ClusterSequences.run_clustering HAS_TSLEARN dtw_fit_predict kmeans_fit_predict
      a sequence_vectors = Ok labels ->
    (List.length labels <= List.length all_sequences)%nat ->
    exists records : list value,
      ClusterSequences.main HAS_TSLEARN dtw_fit_predict kmeans_fit_predict a data
      = ClusterSequences.emit a
          (VDict [ ("method",
                    VStr (ClusterSequences.method_name (ClusterSequences.arg_method a)));
                   ("n_clusters", VInt (ClusterSequences.n_clusters a));
                   ("min_size", VInt (ClusterSequences.min_size a));
                   ("total_sequences", VInt (Z.of_nat (List.length items)));
                   ("clusters_found", VInt (Z.of_nat (List.length records)));
                   ("cluster_assignments", VList (map VInt labels));
                   ("behavioral_library", VList records);
                   ("metadata", metadata) ]) /\
      Forall2 (fun c r =>
                 exists (best : nat) (avg : Q) (types : list value),
                   In best (snd c) /\
                   r = VDict [ ("cluster_id", VInt (fst c));
                               ("frequency", VInt (Z.of_nat (List.length (snd c))));
                               ("representative_sequence",
                                VList (nth best all_sequences []));
                               ("sequence_indices",
                                VList (ClusterSequences.ints (snd c)));
                               ("metadata",
                                VDict [ ("avg_length", VFloat avg);
                                        ("event_types", VList types) ]) ])
              (filter (ClusterSequences.large_enough (ClusterSequences.min_size a))
                      (ClusterSequences.organize labels))
              records.
Proof.
  intros has dtwf kmf a data metadata items alls vecs labels Hprep Htyped Hrun Hlen.
  assert (Hord : ordered_clusters (0 + List.length labels)
                   (ClusterSequences.organize labels)).
  { apply organize_from_ordered. split; constructor. }
  destruct Hord as [Hne _].
  destruct (@mapM_succeeds _ _
              (fun c => ClusterSequences.cluster_record alls (fst c) (snd c))
              (fun c r =>
                 exists (best : nat) (avg : Q) (types : list value),
                   In best (snd c) /\
                   r = VDict [ ("cluster_id", VInt (fst c));
                               ("frequency", VInt (Z.of_nat (List.length (snd c))));
                               ("representative_sequence", VList (nth best alls []));
                               ("sequence_indices",
                                VList (ClusterSequences.ints (snd c)));
                               ("metadata",
                                VDict [ ("avg_length", VFloat avg);
                                        ("event_types", VList types) ]) ])
              (filter (ClusterSequences.large_enough (ClusterSequences.min_size a))
                      (ClusterSequences.organize labels)))
    as (records & Hrecords & Hshape).
  { intros [l ms] Hc. apply filter_In in Hc. destruct Hc as [Hc _].
    rewrite Forall_forall in Hne. destruct (Hne _ Hc) as [Hms Hbelow].
    simpl in Hms, Hbelow.
    assert (Hrange : Forall (fun i => (i < List.length alls)%nat) ms).
    { eapply Forall_impl; [|exact Hbelow]. intros i Hi. simpl in Hi. lia. }
    destruct (@cluster_record_total alls l ms Hms Hrange Htyped)
      as (best & avg & types & Hin & _ & _ & _ & Hrec).
    eexists. split; [exact Hrec|]. exists best, avg, types. split; [exact Hin|].
    reflexivity. }
  exists records. split; [|exact Hshape].
  unfold ClusterSequences.main. rewrite Hprep, Hrun.
  unfold ClusterSequences.build_library. rewrite Hrecords. reflexivity.
Qed.

Lemma clustering_main_emits_every_large_cluster_witness :
  exists records : list value,
    List.length records = 1%nat /\
    Spec.document
      (ClusterSequences.main true Samples.no_dtw (Samples.labelling [0; 1; 0; 0]%Z)
         (Samples.cluster_args 2 3) (Samples.batch_of 4))
    = Some (VDict [ ("method", VStr "kmeans");
                    ("n_clusters", VInt 2);
                    ("min_size", VInt 3);
                    ("total_sequences", VInt 4);
                    ("clusters_found", VInt (Z.of_nat (List.length records)));
                    ("cluster_assignments", VList (map VInt [0; 1; 0; 0]%Z));
                    ("behavioral_library", VList records);
                    ("metadata", VDict []) ]).
Proof.
  assert (Hprep : exists items all_sequences sequence_vectors,
             ClusterSequences.prepare (Samples.batch_of 4)
             = Ok (VDict [], items, all_sequences, sequence_vectors) /\
             List.length items = 4%nat /\
             List.length all_sequences = 4%nat /\
             Forall (Forall (fun e => typed_event e = true)) all_sequences /\
             ClusterSequences.run_clustering true Samples.no_dtw
               (Samples.labelling [0; 1; 0; 0]%Z) (Samples.cluster_args 2 3)
               sequence_vectors = Ok [0; 1; 0; 0]%Z).
  { eexists _, _, _. split; [vm_compute; reflexivity|].
    split; [reflexivity|]. split; [reflexivity|].
    split; [repeat constructor | reflexivity]. }
  destruct Hprep as (items & alls & vecs & Hprep & Hitems & Halls & Htyped & Hrun).
  destruct (@clustering_main_emits_every_large_cluster true Samples.no_dtw
              (Samples.labelling [0; 1; 0; 0]%Z) (Samples.cluster_args 2 3)
              (Samples.batch_of 4) (VDict []) items alls vecs [0; 1; 0; 0]%Z
              Hprep Htyped Hrun) as (records & Hmain & Hshape).
  { rewrite Halls. simpl. lia. }
  exists records. split.
  - apply Forall2_length in Hshape. rewrite <- Hshape. reflexivity.
  - rewrite Hmain, Hitems. reflexivity.
Defined.

(* ================================================================== *)
(** * Sessions are kept whole                                           *)
(* ================================================================== *)

Lemma session_events_key (events : list dict) (s t : value) :
  key_eqb s t = true -> Spec.session_events events s = Spec.session_events events t.
Proof.
  intros H. unfold Spec.session_events. apply filter_ext. intros e.
  destruct (key_eqb s (SequenceProcessor.session_of e)) eqn:E1,
           (key_eqb t (SequenceProcessor.session_of e)) eqn:E2; auto.
  - rewrite key_eqb_sym in H. rewrite (key_eqb_trans _ _ _ H E1) in E2. discriminate.
  - rewrite (key_eqb_trans _ _ _ H E2) in E1. discriminate.
Qed.

(** X21.  On events with usable session ids and text timestamps,
    [extract_sequences] keeps sessions whole.  Every sequence it returns
    holds all events of one session and no others, in ascending order of
    their timestamps, and their number is within the two bounds; every
    session whose size is within the bounds is returned; and an event of a
    session that is too long or too short is in no sequence (a long
    session is dropped, not cut to the maximum). *)
Theorem extract_sequences_keeps_sessions_whole :
  forall (self : SequenceProcessor.SequenceProcessor) (ws : value)
         (min_len max_len : Z),
    let events := events_with_prompts (SequenceProcessor.db self) ws in
    let size := fun session =>
      Z.of_nat (List.length (Spec.session_events events session)) in
    forallb Spec.regular_event events = true ->
    exists sequences : list (list dict),
      SequenceProcessor.extract_sequences self ws min_len max_len = Ok sequences /\
      (forall seq, In seq sequences ->
         exists session,
           In session (Spec.sessions events) /\
           Permutation seq (Spec.session_events events session) /\
           Sorted (fun a b => String.leb (Spec.timestamp_text a)
                                         (Spec.timestamp_text b) = true) seq /\
           (min_len <= Z.of_nat (List.length seq) <= max_len)%Z) /\
      (forall session,
         In session (Spec.sessions events) ->
         (min_len <= size session <= max_len)%Z ->
         exists seq, In seq sequences /\
                     Permutation seq (Spec.session_events events session)) /\
      (forall e seq,
         In e events -> In seq sequences -> In e seq ->
         (min_len <= size (SequenceProcessor.session_of e) <= max_len)%Z).
Proof.
  intros self ws min_len max_len events size Hreg.
  pose proof (extract_sequences_on_regular_events self ws min_len max_len Hreg) as Hrun.
  fold events in Hrun.
  assert (Hin : forall seq, In seq (Spec.extract events min_len max_len) ->
            exists session,
              In session (Spec.sessions events) /\
              seq = sort_by Spec.earlier (Spec.session_events events session) /\
              (min_len <= Z.of_nat (List.length seq) <= max_len)%Z).
  { intros seq Hseq. unfold Spec.extract in Hseq. apply filter_In in Hseq.
    destruct Hseq as [Hseq Hw]. apply in_map_iff in Hseq.
    destruct Hseq as (session & <- & Hs). exists session.
    split; [exact Hs|]. split; [reflexivity|].
    unfold SequenceProcessor.within in Hw. apply andb_prop in Hw.
    destruct Hw as [H1 H2]. apply Z.leb_le in H1, H2. lia. }
  exists (Spec.extract events min_len max_len). split; [exact Hrun|]. split; [|split].
  - intros seq Hseq. destruct (Hin seq Hseq) as (session & Hs & -> & Hb).
    exists session. split; [exact Hs|]. split; [apply sort_by_perm|].
    split; [apply sort_by_earlier_sorted | exact Hb].
  - intros session Hs Hb.
    exists (sort_by Spec.earlier (Spec.session_events events session)).
    split; [|apply sort_by_perm].
    unfold Spec.extract. apply filter_In. split.
    + apply in_map_iff. exists session. split; [reflexivity | exact Hs].
    + unfold SequenceProcessor.within. rewrite sort_by_length.
      unfold size in Hb. apply andb_true_iff. split; apply Z.leb_le; lia.
  - intros e seq He Hseq Hmem.
    destruct (Hin seq Hseq) as (session & Hs & -> & Hb).
    rewrite sort_by_length in Hb.
    apply (Permutation_in _ (sort_by_perm Spec.earlier _)) in Hmem.
    unfold Spec.session_events in Hmem. apply filter_In in Hmem.
    destruct Hmem as [_ Hkey].
    unfold size. rewrite <- (@session_events_key events _ _ Hkey). exact Hb.
Qed.

Lemma extract_sequences_keeps_sessions_whole_witness :
  exists sequences : list (list dict),
    SequenceProcessor.extract_sequences
      (Samples.processor_on Samples.events_with_missing) VNone 1 2 = Ok sequences /\
    sequences = [].
Proof.
  destruct (@extract_sequences_keeps_sessions_whole
              (Samples.processor_on Samples.events_with_missing) VNone 1 2 eq_refl)
    as (sequences & Hrun & _).
  exists sequences. split; [exact Hrun|].
  vm_compute in Hrun. inversion Hrun. reflexivity.
Defined.

(* ================================================================== *)
(** * Clustering from the sequence processor                            *)
(* ================================================================== *)

(** X22.  Without tslearn the sequence processor cannot cluster:
    [cluster_sequences] raises on every input (the script either ends with
    a non-zero status, or prints its import warning in front of the
    document, which [json.loads] then rejects), although the script itself
    falls back to k-means.  [build_behavioral_library] then returns only
    when no sequence was extracted, with the answer "No sequences
    found". *)
Theorem cluster_sequences_needs_tslearn :
  forall (cfg : config)
         (dtw_fit_predict : list value -> Z -> result (list Z))
         (kmeans_fit_predict : list (list value) -> Z -> result (list Z)),
    (forall (vectorized_sequences : list value) (method : option string)
            (n_clusters min_cluster_size : option Z),
        exists e,
          SequenceProcessor.cluster_sequences cfg false dtw_fit_predict
            kmeans_fit_predict vectorized_sequences method n_clusters
            min_cluster_size = Raise e) /\
    (forall (self : SequenceProcessor.SequenceProcessor) (ws : value)
            (min_cp : option Q) (r : value),
        SequenceProcessor.build_behavioral_library cfg false dtw_fit_predict
          kmeans_fit_predict self ws min_cp = Ok r ->
        SequenceProcessor.extract_sequences self ws 3 50 = Ok [] /\
        r = VDict [ ("error", VStr "No sequences found"); ("library", VList []) ]).
Proof.
  intros cfg dtwf kmf.
  assert (Hraise : forall vs method n k,
             exists e,
               SequenceProcessor.cluster_sequences cfg false dtwf kmf vs method n k
               = Raise e).
  { intros vs method n k. unfold SequenceProcessor.cluster_sequences.
    destruct (mapM SequenceProcessor.sequence_field vs) as [sequences|e];
      cbv beta iota zeta delta [bind]; [|eauto].
    match goal with
    | |- exists e, match ?m with Ok _ => _ | Raise _ => _ end = _ =>
        destruct m as [parsed|e]; [|eauto]
    end.
    match goal with
    | |- exists e, match ?o with Printed _ => _ | Written _ _ => _
                                 | Exit _ _ => _ | Uncaught _ => _ end = _ =>
        destruct o; eauto
    end. }
  split; [exact Hraise|].
  intros self ws min_cp r H.
  unfold SequenceProcessor.build_behavioral_library in H.
  destruct (SequenceProcessor.extract_sequences self ws 3 50) as [sequences|e];
    [|discriminate].
  cbv beta iota delta [bind] in H.
  destruct sequences as [|seq sequences].
  - inversion H. split; reflexivity.
  - exfalso.
    destruct (SequenceProcessor.vectorize_sequences self (seq :: sequences))
      as [vectorized|e]; [|discriminate].
    destruct (Hraise (snd vectorized) None None None) as [e He].
    rewrite He in H. discriminate.
Qed.

Lemma prepare_written_document (sequences : list value) (written metadata : value)
    (items : list value) (all_sequences : list (list value))
    (sequence_vectors : list value) :
  ClusterSequences.prepare
    (VDict [("sequences", VList sequences); ("metadata", written)])
  = Ok (metadata, items, all_sequences, sequence_vectors) ->
  metadata = written /\ items = sequences.
Proof.
  unfold ClusterSequences.prepare, ClusterSequences.unpack.
  cbn [lookup String.eqb Ascii.eqb Bool.eqb get_default fst snd py_iter].
  cbv beta iota delta [bind].
  cbn [lookup String.eqb Ascii.eqb Bool.eqb get_default fst snd py_iter].
  destruct (mapM ClusterSequences.split_sequence sequences) as [split|e];
    [|discriminate].
  intros H. inversion H. split; reflexivity.
Qed.

(** X23.  When [build_behavioral_library] returns a library, its
    [total_sequences] is the number of extracted sequences, and
    [clustering_metadata] is the metadata that the processor wrote for the
    script and the script handed back: the same number and the configured
    clustering method, which is then 'dtw' or 'kmeans'.  The library holds
    the records of the script, [clusters_found] of them, each for a cluster
    of at least [MIN_CLUSTER_SIZE] sequences.  The CP threshold has no part
    in it: the answer is the same for every [min_cp]. *)
Theorem build_behavioral_library_hands_back_the_clusters :
  forall (cfg : config)
         (dtw_fit_predict : list value -> Z -> result (list Z))
         (kmeans_fit_predict : list (list value) -> Z -> result (list Z))
         (self : SequenceProcessor.SequenceProcessor) (ws : value)
         (min_cp : option Q) (sequences : list (list dict)) (r : value),
    SequenceProcessor.extract_sequences self ws 3 50 = Ok sequences ->
    sequences <> [] ->
    SequenceProcessor.build_behavioral_library cfg true dtw_fit_predict
      kmeans_fit_predict self ws min_cp = Ok r ->
    exists records : list value,
      r = VDict [ ("workspace_path", ws);
                  ("total_sequences", VInt (Z.of_nat (List.length sequences)));
                  ("clusters_found", VInt (Z.of_nat (List.length records)));
                  ("behavioral_library", VList records);
                  ("clustering_metadata",
                   VDict [ ("total_sequences",
                            VInt (Z.of_nat (List.length sequences)));
                           ("method", VStr (CLUSTERING_METHOD cfg)) ]) ] /\
      (CLUSTERING_METHOD cfg = "dtw" \/ CLUSTERING_METHOD cfg = "kmeans") /\
      Forall (fun record =>
                exists (id : Z) (members : list nat),
                  Spec.field record "cluster_id" = Some (VInt id) /\
                  Spec.field record "sequence_indices"
                  = Some (VList (ClusterSequences.ints members)) /\
                  Spec.field record "frequency"
                  = Some (VInt (Z.of_nat (List.length members))) /\
                  (MIN_CLUSTER_SIZE cfg <= Z.of_nat (List.length members))%Z)
             records /\
      (forall min_cp' : option Q,
          SequenceProcessor.build_behavioral_library cfg true dtw_fit_predict
            kmeans_fit_predict self ws min_cp' = Ok r).
Proof.
  intros cfg dtwf kmf self ws min_cp sequences r Hseq Hne H.
  assert (Hany : forall min_cp' : option Q,
             SequenceProcessor.build_behavioral_library cfg true dtwf kmf self ws min_cp'
             = Ok r) by (intros min_cp'; exact H).
  unfold SequenceProcessor.build_behavioral_library in H.
  rewrite Hseq in H. cbv beta iota delta [bind] in H.
  destruct sequences as [|seq sequences]; [congruence|].
  destruct (SequenceProcessor.vectorize_sequences self (seq :: sequences))
    as [[self' vectorized]|e] eqn:Hvec; [|discriminate].
  assert (Hlen : List.length vectorized = List.length (seq :: sequences)).
  { unfold SequenceProcessor.vectorize_sequences in Hvec.
    cbv beta iota delta [bind] in Hvec.
    destruct (Vectorizer.build_event_type_encoder _ _); [|discriminate].
    destruct (SequenceProcessor.build_prompts_map _ _); [|discriminate].
    match type of Hvec with
    | match ?m with Ok _ => _ | Raise _ => _ end = _ =>
        destruct m as [out|e] eqn:Hout; [|discriminate]
    end.
    inversion Hvec; subst. apply (mapM_length _ _ Hout). }
  cbn [snd] in H.
  destruct (SequenceProcessor.cluster_sequences cfg true dtwf kmf vectorized
              None None None) as [doc|e] eqn:Hdoc; [|discriminate].
  unfold SequenceProcessor.cluster_sequences in Hdoc.
  destruct (mapM SequenceProcessor.sequence_field vectorized) as [written|e];
    [|discriminate].
  cbv beta iota zeta delta [bind] in Hdoc.
  assert (Hmethod : CLUSTERING_METHOD cfg = "dtw" \/ CLUSTERING_METHOD cfg = "kmeans").
  { destruct (CLUSTERING_METHOD cfg =? "dtw") eqn:E1;
      [left; apply String.eqb_eq, E1|].
    destruct (CLUSTERING_METHOD cfg =? "kmeans") eqn:E2;
      [right; apply String.eqb_eq, E2 | discriminate]. }
  match type of Hdoc with
  | match ?m with Ok _ => _ | Raise _ => _ end = _ =>
      destruct m as [parsed|e]; [|discriminate]
  end.
  unfold ClusterSequences.main in Hdoc.
  match type of Hdoc with
  | context [ClusterSequences.prepare ?d] =>
      destruct (ClusterSequences.prepare d)
        as [[[[metadata items] alls] vecs]|e] eqn:Hprep; [|discriminate]
  end.
  apply prepare_written_document in Hprep. destruct Hprep as [-> ->].
  match type of Hdoc with
  | context [ClusterSequences.run_clustering ?h ?d ?k ?a ?v] =>
      destruct (ClusterSequences.run_clustering h d k a v) as [labels|e];
        [|discriminate]
  end.
  match type of Hdoc with
  | context [ClusterSequences.build_library ?m ?a ?c] =>
      destruct (ClusterSequences.build_library m a c) as [records|e] eqn:Hlib;
        [|discriminate]
  end.
  cbn [ClusterSequences.emit ClusterSequences.output
       ClusterSequences.min_size ClusterSequences.n_clusters
       ClusterSequences.arg_method] in Hdoc, Hlib.
  inversion Hdoc; subst doc. clear Hdoc.
  cbn [get_default lookup String.eqb Ascii.eqb Bool.eqb py_iter] in H.
  cbv beta iota delta [bind] in H.
  exists records. split; [|split; [exact Hmethod | split; [|exact Hany]]].
  - inversion H. rewrite Hlen. reflexivity.
  - unfold ClusterSequences.build_library in Hlib.
    apply mapM_Forall2 in Hlib.
    apply Forall_forall. intros record Hrecord.
    destruct (@Forall2_In_right _ _ _ _ _ record Hlib Hrecord) as (c & Hc & Hrec).
    destruct (@build_library_record _ _ _ _ _ Hc Hrec) as (H1 & H2 & H3 & H4 & _).
    exists (fst c), (snd c). repeat split; assumption.
Qed.

Lemma build_behavioral_library_hands_back_the_clusters_witness :
  exists records : list value,
    SequenceProcessor.build_behavioral_library MoreSamples.small_cluster_config true
      MoreSamples.one_cluster Samples.no_kmeans
      (Samples.processor_on Samples.events_with_missing) VNone None
    = Ok (VDict [ ("workspace_path", VNone);
                  ("total_sequences", VInt 1);
                  ("clusters_found", VInt (Z.of_nat (List.length records)));
                  ("behavioral_library", VList records);
                  ("clustering_metadata",
                   VDict [ ("total_sequences", VInt 1);
                           ("method", VStr "dtw") ]) ]).
Proof.
  assert (Hseq : exists sequences,
             SequenceProcessor.extract_sequences
               (Samples.processor_on Samples.events_with_missing) VNone 3 50
             = Ok sequences /\ sequences <> [] /\ List.length sequences = 1%nat).
  { eexists. split; [vm_compute; reflexivity|]. split; [discriminate | reflexivity]. }
  destruct Hseq as (sequences & Hseq & Hne & Hone).
  assert (Hrun : exists r,
             SequenceProcessor.build_behavioral_library
               MoreSamples.small_cluster_config true
               MoreSamples.one_cluster Samples.no_kmeans
               (Samples.processor_on Samples.events_with_missing) VNone None = Ok r).
  { eexists. vm_compute. reflexivity. }
  destruct Hrun as [r Hr].
  destruct (@build_behavioral_library_hands_back_the_clusters
              MoreSamples.small_cluster_config MoreSamples.one_cluster
              Samples.no_kmeans (Samples.processor_on Samples.events_with_missing)
              VNone None sequences r Hseq Hne Hr) as (records & Er & _).
  exists records. rewrite Hr, Er, Hone. reflexivity.
Defined.

(** X24.  [build_behavioral_library] asks the clustering library for
    [MAX_CLUSTERS] clusters and for no other number, however many
    sequences were extracted: two libraries that agree on requests for
    [MAX_CLUSTERS] clusters give the same answer, an exception
    included. *)
Theorem build_behavioral_library_requests_max_clusters :
  forall (cfg : config) (HAS_TSLEARN : bool)
         (dtw_fit_predict dtw_fit_predict' : list value -> Z -> result (list Z))
         (kmeans_fit_predict kmeans_fit_predict'
            : list (list value) -> Z -> result (list Z))
         (self : SequenceProcessor.SequenceProcessor) (ws : value)
         (min_cp : option Q),
    (forall batch, dtw_fit_predict batch (MAX_CLUSTERS cfg)
                   = dtw_fit_predict' batch (MAX_CLUSTERS cfg)) ->
    (forall rows, kmeans_fit_predict rows (MAX_CLUSTERS cfg)
                  = kmeans_fit_predict' rows (MAX_CLUSTERS cfg)) ->
    SequenceProcessor.build_behavioral_library cfg HAS_TSLEARN dtw_fit_predict
      kmeans_fit_predict self ws min_cp
    = SequenceProcessor.build_behavioral_library cfg HAS_TSLEARN dtw_fit_predict'
        kmeans_fit_predict' self ws min_cp.
Proof.
  intros cfg has dtwf dtwf' kmf kmf' self ws min_cp Hdtw Hkm.
  assert (Hrun : forall (a : ClusterSequences.args) (vecs : list value),
             ClusterSequences.n_clusters a = MAX_CLUSTERS cfg ->
             ClusterSequences.run_clustering has dtwf kmf a vecs
             = ClusterSequences.run_clustering has dtwf' kmf' a vecs).
  { intros a vecs Hn.
    assert (Hk : ClusterSequences.cluster_with_kmeans kmf vecs (MAX_CLUSTERS cfg)
                 = ClusterSequences.cluster_with_kmeans kmf' vecs (MAX_CLUSTERS cfg)).
    { unfold ClusterSequences.cluster_with_kmeans.
      destruct (ClusterSequences.flatten_batch vecs) as [rows|e]; [|reflexivity].
      cbv beta iota delta [bind]. apply Hkm. }
    unfold ClusterSequences.run_clustering. rewrite Hn.
    destruct (ClusterSequences.arg_method a); [|exact Hk].
    destruct has; [|exact Hk].
    unfold ClusterSequences.cluster_with_dtw. simpl negb. cbv iota.
    destruct (ClusterSequences.pad_sequences vecs) as [padded|e]; [|reflexivity].
    cbv beta iota delta [bind]. apply Hdtw. }
  assert (Hmain : forall (a : ClusterSequences.args) (data : value),
             ClusterSequences.n_clusters a = MAX_CLUSTERS cfg ->
             ClusterSequences.main has dtwf kmf a data
             = ClusterSequences.main has dtwf' kmf' a data).
  { intros a data Hn. unfold ClusterSequences.main.
    destruct (ClusterSequences.prepare data) as [[[[metadata items] alls] vecs]|e];
      [|reflexivity].
    rewrite (Hrun a vecs Hn). reflexivity. }
  assert (Hcluster : forall vs,
             SequenceProcessor.cluster_sequences cfg has dtwf kmf vs None None None
             = SequenceProcessor.cluster_sequences cfg has dtwf' kmf' vs None None None).
  { intros vs. unfold SequenceProcessor.cluster_sequences.
    destruct (mapM SequenceProcessor.sequence_field vs) as [written|e];
      [|reflexivity].
    cbv beta iota zeta delta [bind].
    match goal with
    | |- match ?m with Ok _ => _ | Raise _ => _ end = _ =>
        destruct m as [parsed|e]; [|reflexivity]
    end.
    rewrite Hmain by reflexivity. reflexivity. }
  unfold SequenceProcessor.build_behavioral_library.
  destruct (SequenceProcessor.extract_sequences self ws 3 50) as [sequences|e];
    [|reflexivity].
  cbv beta iota delta [bind].
  destruct sequences as [|seq sequences]; [reflexivity|].
  destruct (SequenceProcessor.vectorize_sequences self (seq :: sequences))
    as [vectorized|e]; [|reflexivity].
  rewrite Hcluster. reflexivity.
Qed.

(** One extracted sequence under the default of 20 clusters: both
    libraries refuse, and the processor ends with the same exception. *)
Lemma build_behavioral_library_requests_max_clusters_witness :
  SequenceProcessor.build_behavioral_library MoreSamples.kmeans_config true
    Samples.no_dtw Samples.checking_kmeans
    (Samples.processor_on Samples.events_with_missing) VNone None
  = SequenceProcessor.build_behavioral_library MoreSamples.kmeans_config true
      Samples.no_dtw MoreSamples.kmeans_at_20
      (Samples.processor_on Samples.events_with_missing) VNone None.
Proof.
  apply (@build_behavioral_library_requests_max_clusters
           MoreSamples.kmeans_config true
           Samples.no_dtw Samples.no_dtw
           Samples.checking_kmeans MoreSamples.kmeans_at_20
           (Samples.processor_on Samples.events_with_missing) VNone None).
  - intros batch. reflexivity.
  - intros rows. reflexivity.
Defined.

(* ================================================================== *)
(** * From the store to the library                                     *)
(* ================================================================== *)











(* ================================================================== *)
(** * The fallback to k-means                                           *)
(* ================================================================== *)

(** X26.  Without tslearn, [--method dtw] runs k-means: the script ends
    as it does with [--method kmeans] (same exit, same exception, same
    clusters, tslearn's function never called), but the document it emits
    still reports the method as 'dtw'. *)
Theorem clustering_falls_back_to_kmeans_but_reports_dtw :
  forall (dtw_fit_predict dtw_fit_predict' : list value -> Z -> result (list Z))
         (kmeans_fit_predict : list (list value) -> Z -> result (list Z))
         (a : ClusterSequences.args) (data : value),
    ClusterSequences.arg_method a = ClusterSequences.dtw ->
    ClusterSequences.main false dtw_fit_predict kmeans_fit_predict a data
    = match ClusterSequences.main false dtw_fit_predict' kmeans_fit_predict
              (with_kmeans a) data with
      | Printed doc => Printed (reported_as "dtw" doc)
      | Written path doc => Written path (reported_as "dtw" doc)
      | Exit code msg => Exit code msg
      | Uncaught e => Uncaught e
      end.
Proof.
  intros dtwf dtwf' kmf a data Hm. unfold ClusterSequences.main.
  destruct (ClusterSequences.prepare data) as [[[[metadata items] alls] vecs]|e];
    [|reflexivity].
  assert (Hrun : ClusterSequences.run_clustering false dtwf kmf a vecs
                 = ClusterSequences.run_clustering false dtwf' kmf (with_kmeans a) vecs).
  { unfold ClusterSequences.run_clustering. rewrite Hm. reflexivity. }
  rewrite Hrun.
  destruct (ClusterSequences.run_clustering false dtwf' kmf (with_kmeans a) vecs)
    as [labels|e]; [|reflexivity].
  cbn [with_kmeans ClusterSequences.min_size ClusterSequences.n_clusters
       ClusterSequences.arg_method].
  destruct (ClusterSequences.build_library (ClusterSequences.min_size a) alls
              (ClusterSequences.organize labels)) as [records|e]; [|reflexivity].
  rewrite Hm. unfold ClusterSequences.emit.
  cbn [with_kmeans ClusterSequences.output].
  destruct (ClusterSequences.output a) as [path|]; [|reflexivity].
  destruct (path =? ""); reflexivity.
Qed.

Lemma clustering_falls_back_to_kmeans_but_reports_dtw_witness :
  exists fields : dict,
    ClusterSequences.main false Samples.no_dtw Samples.checking_kmeans
      MoreSamples.dtw_args (Samples.batch_of 2)
    = Printed (VDict (("method", VStr "dtw") :: fields)) /\
    lookup fields "cluster_assignments" = Some (VList [VInt 0; VInt 0]).
Proof.
  rewrite (@clustering_falls_back_to_kmeans_but_reports_dtw
             Samples.no_dtw Samples.no_dtw Samples.checking_kmeans
             MoreSamples.dtw_args (Samples.batch_of 2) eq_refl).
  eexists. split; reflexivity.
Defined.
